(** * fhirpy.base.lib: request/response layer of the FHIR client

    A shallow embedding of [src/fhirpy/base/lib.py]: URL building and its
    containment check, header building, the blocking and the deferred
    [_do_request], the search-set pagination loop, the resource lifecycle
    and the reference resolver, followed by the properties established
    about them.

    Python values are embedded as follows.  [str] is [string]; a JSON value
    (and hence every decoded payload, [None] being JSON [null]) is [json];
    a [dict] with string keys whose order is observable (JSON objects, the
    resource container, keyword arguments) is an association list kept
    duplicate-free by [Dict.set]; a [dict] used purely as a map (headers,
    the transport configuration) is a [gmap].  An exception is a value of
    [exn]; a computation that may raise and that reads or mutates the
    client, the resource container or the network is a function in the
    monad [M]. *)

From stdpp Require Import gmap strings list fin_maps pretty.
From Stdlib Require Import ZArith Ascii String PrimFloat Lia.

Set Warnings "-register-all".

Open Scope string_scope.
Open Scope Z_scope.

(** ** Text *)

Module Text.

Definition dquote : string := String "034"%char "".
Definition quoted (s : string) : string := dquote ++ s ++ dquote.

Definition is_slash (c : ascii) : bool := Ascii.eqb c "/"%char.

(** [s.lstrip("/")] *)
Fixpoint lstrip_slash (s : string) : string :=
  match s with
  | String c s' => if is_slash c then lstrip_slash s' else s
  | "" => ""
  end.

(** [s.rstrip("/")] *)
Fixpoint rstrip_slash (s : string) : string :=
  match s with
  | String c s' =>
      match rstrip_slash s' with
      | "" => if is_slash c then "" else String c ""
      | r => String c r
      end
  | "" => ""
  end.

(** [s.startswith(p)] *)
Fixpoint startswith (p s : string) : bool :=
  match p, s with
  | "", _ => true
  | String a p', String b s' => Ascii.eqb a b && startswith p' s'
  | String _ _, "" => false
  end.

(** [sub in s] on [str] *)
Fixpoint contains (sub s : string) : bool :=
  startswith sub s ||
  match s with
  | String _ s' => contains sub s'
  | "" => false
  end.

(** [c in s] for a single character *)
Fixpoint mem_char (c : ascii) (s : string) : bool :=
  match s with
  | String a s' => Ascii.eqb a c || mem_char c s'
  | "" => false
  end.

Fixpoint drop (n : nat) (s : string) : string :=
  match n, s with
  | S n', String _ s' => drop n' s'
  | _, _ => s
  end.

(** [s.partition(c)] as [Some (before, after)], [None] when [c] does not
    occur (Python then returns [(s, "", "")]). *)
Fixpoint break_at (c : ascii) (s : string) : option (string * string) :=
  match s with
  | "" => None
  | String a s' =>
      if Ascii.eqb a c then Some ("", s')
      else match break_at c s' with
           | Some (l, r) => Some (String a l, r)
           | None => None
           end
  end.

(** [s.rpartition(c)]: split at the last occurrence. *)
Fixpoint rbreak_at (c : ascii) (s : string) : option (string * string) :=
  match s with
  | "" => None
  | String a s' =>
      match rbreak_at c s' with
      | Some (l, r) => Some (String a l, r)
      | None => if Ascii.eqb a c then Some ("", s') else None
      end
  end.

(** Longest prefix whose characters satisfy [p], and the rest. *)
Fixpoint span (p : ascii -> bool) (s : string) : string * string :=
  match s with
  | "" => ("", "")
  | String a s' =>
      if p a then let '(l, r) := span p s' in (String a l, r)
      else ("", s)
  end.

Fixpoint forallb (p : ascii -> bool) (s : string) : bool :=
  match s with
  | "" => true
  | String a s' => p a && forallb p s'
  end.

Definition code (c : ascii) : N := N_of_ascii c.
Definition between (lo hi : N) (c : ascii) : bool :=
  ((lo <=? code c) && (code c <=? hi))%N.
Definition is_upper : ascii -> bool := between 65 90.
Definition is_lower : ascii -> bool := between 97 122.
Definition is_digit : ascii -> bool := between 48 57.
Definition is_alpha (c : ascii) : bool := is_upper c || is_lower c.

Definition lower_char (c : ascii) : ascii :=
  if is_upper c then ascii_of_N (code c + 32) else c.

Fixpoint lower (s : string) : string :=
  match s with
  | "" => ""
  | String a s' => String (lower_char a) (lower s')
  end.

(** Value of a string of decimal digits. *)
Fixpoint digits_value (acc : Z) (s : string) : Z :=
  match s with
  | "" => acc
  | String a s' => digits_value (10 * acc + Z.of_N (code a - 48)) s'
  end.

(** [s1] occurs in [s2]: the relation that [contains] decides. *)
Definition Substring (sub s : string) : Prop :=
  exists pre post, s = pre ++ sub ++ post.

End Text.

(** ** JSON values and Python dictionaries *)

Inductive json : Type :=
| JNull
| JBool (b : bool)
| JInt (n : Z)
| JFloat (x : float)
| JStr (s : string)
| JArr (items : list json)
| JObj (members : list (string * json)).

(** A [dict] with string keys, in insertion order. *)
Abbreviation dict := (list (string * json)).

Module Dict.

Fixpoint get (k : string) (d : dict) : option json :=
  match d with
  | [] => None
  | (k', v) :: d' => if String.eqb k k' then Some v else get k d'
  end.

(** [d[k] = v]: an existing key keeps its position. *)
Fixpoint set (k : string) (v : json) (d : dict) : dict :=
  match d with
  | [] => [(k, v)]
  | (k', v') :: d' =>
      if String.eqb k k' then (k, v) :: d' else (k', v') :: set k v d'
  end.

(** [d.update] with keyword arguments [kw] *)
Fixpoint update (d kw : dict) : dict :=
  match kw with
  | [] => d
  | (k, v) :: kw' => update (set k v d) kw'
  end.

Definition keys (d : dict) : list string := map fst d.

End Dict.

(** Python truth value of a decoded payload. *)
Definition truthy (v : json) : bool :=
  match v with
  | JNull => false
  | JBool b => b
  | JInt n => negb (n =? 0)
  | JFloat x => negb (PrimFloat.eqb x PrimFloat.zero)
  | JStr s => negb (String.eqb s "")
  | JArr l => match l with [] => false | _ => true end
  | JObj m => match m with [] => false | _ => true end
  end.

(** ** Exceptions *)

Inductive exn : Type :=
| ValueError (msg : string)
| TypeError (msg : string)
| KeyError (key : string)
| AttributeError (msg : string)
| AssertionError
| JSONDecodeError
| ResourceNotFound (msg : string)
| MultipleResourcesFound (msg : string)
| InvalidResponse (msg : string)
(** [OperationOutcome(reason=..., resource=...)] *)
| OperationOutcome (reason : option string) (resource : option json)
(** whatever the transport itself raised (connection refused, timeout) *)
| TransportError (what : string).

Inductive outcome (A : Type) : Type :=
| Ret (a : A)
| Raise (e : exn)
| OutOfFuel.
Arguments Ret {A} a.
Arguments Raise {A} e.
Arguments OutOfFuel {A}.

(** ** URL parsing: [urllib.parse.urlparse] and [yarl.URL]

    The grammar [scheme://netloc/path;params?query#fragment] as
    [urllib.parse] splits it.  The sanitising of control characters and
    the validation of bracketed hosts that [urlsplit] also performs are
    outside this model. *)

Module Url.
Import Text.

Record ParseResult : Type := mkParse {
  scheme : string;
  netloc : string;
  path : string;
  params : string;
  query : string;
  fragment : string
}.

Definition is_scheme_char (c : ascii) : bool :=
  is_alpha c || is_digit c || mem_char c "+-.".

(** The [scheme:] prefix, lower-cased, and what follows it. *)
Definition split_scheme (url : string) : string * string :=
  match break_at ":" url with
  | Some (String c0 s0, rest) =>
      if is_alpha c0 && forallb is_scheme_char s0
      then (lower (String c0 s0), rest)
      else ("", url)
  | _ => ("", url)
  end.

Definition is_netloc_char (c : ascii) : bool := negb (mem_char c "/?#").

(** [_splitnetloc(url, 2)] once the leading [//] has been seen. *)
Definition split_netloc (url : string) : string * string :=
  if startswith "//" url then span is_netloc_char (drop 2 url)
  else ("", url).

Definition split_at (c : ascii) (url : string) : string * string :=
  match break_at c url with
  | Some (l, r) => (l, r)
  | None => (url, "")
  end.

Definition uses_params : list string :=
  [""; "ftp"; "hdl"; "prospero"; "http"; "imap"; "https"; "shttp"; "rtsp";
   "rtspu"; "sip"; "sips"; "mms"; "sftp"; "tel"].

(** [_splitparams]: the [;params] of the last path segment. *)
Definition split_params (p : string) : string * string :=
  match rbreak_at "/" p with
  | Some (dir, last) =>
      match break_at ";" last with
      | Some (l, r) => (dir ++ "/" ++ l, r)
      | None => (p, "")
      end
  | None => split_at ";" p
  end.

Definition urlparse (url : string) : ParseResult :=
  let '(sch, u1) := split_scheme url in
  let '(loc, u2) := split_netloc u1 in
  let '(u3, frag) := split_at "#" u2 in
  let '(pth, qry) := split_at "?" u3 in
  let '(pth', prm) :=
    if bool_decide (sch ∈ uses_params) && mem_char ";" pth
    then split_params pth else (pth, "") in
  mkParse sch loc pth' prm qry frag.

(** [_hostinfo]: host name and port text of the netloc. *)
Definition hostinfo (loc : string) : string * string :=
  let hi := match rbreak_at "@" loc with
            | Some (_, r) => r
            | None => loc
            end in
  match break_at "[" hi with
  | Some (_, bracketed) =>
      let '(host, after) := split_at "]" bracketed in
      (host, snd (split_at ":" after))
  | None => split_at ":" hi
  end.

(** The [port] property: [None] when no port text follows the host,
    [ValueError] when the text is not a number in range. *)
Definition port (r : ParseResult) : outcome (option Z) :=
  let p := snd (hostinfo (netloc r)) in
  if String.eqb p "" then Ret None
  else if forallb is_digit p then
    let n := digits_value 0 p in
    if n <=? 65535 then Ret (Some n)
    else Raise (ValueError "Port out of range 0-65535")
  else Raise (ValueError ("Port could not be cast to integer value as '" ++ p ++ "'")).

(** [yarl.URL(s).is_absolute()]: constructing the [URL] validates host
    and port of a non-empty netloc; the URL is absolute when it has a
    host. *)
Definition URL_is_absolute (s : string) : outcome bool :=
  let r := urlparse s in
  if String.eqb (netloc r) "" then Ret false
  else if String.eqb (fst (hostinfo (netloc r))) ""
  then Raise (ValueError "Invalid URL: host is required for absolute urls")
  else match port r with
       | Ret _ => Ret true
       | Raise _ => Raise (ValueError "Invalid URL: port can't be converted to integer")
       | OutOfFuel => OutOfFuel
       end.

(** [yarl.URL(s).path] *)
Definition URL_path (s : string) : outcome string :=
  match URL_is_absolute s with
  | Ret _ =>
      let r := urlparse s in
      Ret (if String.eqb (params r) "" then path r
           else path r ++ ";" ++ params r)
  | Raise e => Raise e
  | OutOfFuel => OutOfFuel
  end.

End Url.

(** ** The network and the mutable state around a request *)

(** A value of the transport configuration ([requests_config],
    [aiohttp_config]): a [requests.Session] object supplied by the caller,
    or a plain option value such as the timeout. *)
Inductive cfgval : Type :=
| CfgSession (handle : nat)
| CfgValue (v : json).

(** What one transport call is given: [session.request(method, url,
    json=data, headers=headers, **config)], or the module-level
    [requests.request] when [rq_session] is [None]. *)
Record Request : Type := mkRequest {
  rq_method : string;
  rq_url : string;
  rq_headers : gmap string string;
  rq_json : json;
  rq_config : gmap string cfgval;
  rq_session : option nat
}.

(** What the transport answers: the status code and the body, as the
    text that [r.content.decode()] and [await r.text()] give. *)
Record Response : Type := mkResponse {
  status_code : Z;
  content : string
}.

(** The remote end: given the requests made so far and the current one, it
    answers or the transport raises. *)
Abbreviation Transport := (list Request -> Request -> outcome Response).

Record World : Type := mkWorld {
  net : Transport;
  (** requests handed to the transport, oldest first *)
  sent : list Request;
  (** [SyncClient.requests_config], mutated by [_do_request] *)
  requests_config : gmap string cfgval;
  (** the fields of the resource container a lifecycle method runs on *)
  container : dict
}.

Definition M (A : Type) : Type := World -> outcome A * World.

#[global] Instance outcome_ret : MRet outcome := fun A a => Ret a.
#[global] Instance outcome_bind : MBind outcome := fun A B f m =>
  match m with
  | Ret a => f a
  | Raise e => Raise e
  | OutOfFuel => OutOfFuel
  end.

#[global] Instance M_ret : MRet M := fun A a w => (Ret a, w).
#[global] Instance M_bind : MBind M := fun A B f m w =>
  match m w with
  | (Ret a, w') => f a w'
  | (Raise e, w') => (Raise e, w')
  | (OutOfFuel, w') => (OutOfFuel, w')
  end.

Definition raise {A} (e : exn) : M A := fun w => (Raise e, w).
Definition out_of_fuel {A} : M A := fun w => (OutOfFuel, w).
Definition lift {A} (r : outcome A) : M A := fun w => (r, w).
Definition get_config : M (gmap string cfgval) :=
  fun w => (Ret (requests_config w), w).
Definition set_config (cfg : gmap string cfgval) : M unit :=
  fun w => (Ret tt, mkWorld (net w) (sent w) cfg (container w)).
Definition get_container : M dict := fun w => (Ret (container w), w).
Definition set_container (d : dict) : M unit :=
  fun w => (Ret tt, mkWorld (net w) (sent w) (requests_config w) d).

(** One transport call: the request is recorded, then answered. *)
Definition transport_call (rq : Request) : M Response :=
  fun w => (net w (sent w) rq,
            mkWorld (net w) (sent w ++ [rq]) (requests_config w) (container w)).

(** [v[key]] for a string key. *)
Definition subscript (v : json) (key : string) : outcome json :=
  match v with
  | JObj m => match Dict.get key m with
              | Some x => Ret x
              | None => Raise (KeyError key)
              end
  | JArr _ => Raise (TypeError "list indices must be integers or slices, not str")
  | JStr _ => Raise (TypeError "string indices must be integers")
  | JNull => Raise (TypeError "'NoneType' object is not subscriptable")
  | JBool _ => Raise (TypeError "'bool' object is not subscriptable")
  | JInt _ => Raise (TypeError "'int' object is not subscriptable")
  | JFloat _ => Raise (TypeError "'float' object is not subscriptable")
  end.

(** [v == s] for a string literal [s]. *)
Definition eq_str (v : json) (s : string) : bool :=
  match v with
  | JStr s' => String.eqb s' s
  | _ => false
  end.

(** ** Collaborators outside [lib.py]

    Library functions and the parts of the package that [lib.py] imports:
    the JSON decoder, [fhirpy.base.utils], the resource class and the
    query builder.  Every result below holds for any implementation of
    them. *)
Class Externals : Type := {
  (** [json.loads]; [None] is [JSONDecodeError].  The [object_hook] only
      changes how fields are accessed, not the decoded value. *)
  json_loads : string -> option json;
  (** [utils.encode_params] *)
  encode_params : dict -> string;
  (** [utils.parse_pagination_url] *)
  parse_pagination_url : json -> outcome (string * option dict);
  (** [str(v)], as used by [format] *)
  str_of : json -> string;
  (** [resource_class(client, resource_type=..., **kwargs)], as the fields
      of the new container *)
  resource_class : string -> dict -> outcome dict;
  (** [_dict_to_resource] *)
  dict_to_resource : json -> json;
  (** [BaseResource.serialize] applied to the fields of a container *)
  serialize_fields : dict -> json;
  (** the query builder: [limit(n)] and [search(_id=id)] on the
      parameters of a search set *)
  limit_params : Z -> dict -> dict;
  search_id_params : json -> dict -> dict
}.

Definition loads `{Externals} (s : string) : outcome json :=
  match json_loads s with
  | Some v => Ret v
  | None => Raise JSONDecodeError
  end.

(** ** AbstractClient *)

Record Client : Type := mkClient {
  url : string;
  authorization : option string;
  extra_headers : option (gmap string string);
  aiohttp_config : gmap string cfgval
}.

Module AbstractClient.
Import Text Url.

Definition _build_request_headers (self : Client) : gmap string string :=
  let headers : gmap string string := {[ "Accept" := "application/fhir+json" ]} in
  let headers :=
    match authorization self with
    | Some a => if String.eqb a "" then headers
                else <["Authorization" := a]> headers
    | None => headers
    end in
  match extra_headers self with
  | Some extra => extra ∪ headers
  | None => headers
  end.

(** Modelled from the spec: [utils.remove_prefix], which strips the
    given prefix when the text starts with it. *)
Definition remove_prefix (s prefix : string) : string :=
  if startswith prefix s then drop (String.length prefix) s else s.

(** The port rewriting of an absolute [path], lines 94 to 99. *)
Definition with_default_port (parsed : ParseResult) : string :=
  let path := scheme parsed ++ "://" ++ netloc parsed ++ ":443"
              ++ Url.path parsed ++ "?" ++ query parsed in
  if negb (String.eqb (fragment parsed) "")
  then path ++ "#" ++ fragment parsed
  else path.

Definition security_message (path base : string) : string :=
  "Request url " ++ quoted path ++ " does not contain base url "
  ++ quoted base ++ " (possible security issue)".

Definition _build_request_url `{Externals}
    (self : Client) (path : string) (params : option dict) : outcome string :=
  absolute ← URL_is_absolute path;
  if absolute : bool then
    base_port ← port (urlparse (url self));
    path ←
      (if match base_port with Some n => negb (n =? 0) | None => false end
       then
         let parsed := urlparse path in
         parsed_port ← port parsed;
         match parsed_port with
         | None => if String.eqb (scheme parsed) "https"
                   then Ret (with_default_port parsed)
                   else Ret path
         | Some _ => Ret path
         end
       else Ret path);
    if contains (rstrip_slash (url self)) (rstrip_slash path)
    then Ret path
    else Raise (ValueError (security_message path (url self)))
  else
    let path := lstrip_slash path in
    base_path ← URL_path (url self);
    let base_url_path := lstrip_slash base_path ++ "/" in
    let path := remove_prefix path base_url_path in
    let params := match params with Some p => p | None => [] end in
    Ret (rstrip_slash (url self) ++ "/" ++ lstrip_slash path ++ "?"
         ++ encode_params params).

End AbstractClient.

(** What [_do_request] returns: the decoded payload, paired with the
    status code when [returning_status] is set. *)
Definition returned (returning_status : bool) : Type :=
  if returning_status then (json * Z)%type else json.

Definition with_status (returning_status : bool) (r_data : json) (status : Z)
  : returned returning_status :=
  match returning_status with
  | true => (r_data, status)
  | false => r_data
  end.

(** [try: body  except (KeyError, JSONDecodeError): handler] *)
Definition try_except_KeyError_JSONDecodeError {A}
    (body handler : outcome A) : outcome A :=
  match body with
  | Raise (KeyError _) => handler
  | Raise JSONDecodeError => handler
  | other => other
  end.

(** ** SyncClient *)

Module SyncClient.
Import AbstractClient.

Definition _do_request `{Externals} (self : Client)
    (method path : string) (data : json) (params : option dict)
    (returning_status : bool) : M (returned returning_status) :=
  let headers := _build_request_headers self in
  let headers := <["Content-Type" := "application/fhir+json"]> headers in
  let headers :=
    if String.eqb method "patch"
    then <["Content-Type" := "application/json-patch+json"]> headers
    else headers in
  url ← lift (_build_request_url self path params);
  config ← get_config;
  let session := config !! "session" in
  set_config (delete "session" config);;
  r ← match session with
      | Some (CfgSession h) =>
          r ← transport_call
                (mkRequest method url headers data (delete "session" config)
                           (Some h));
          (* now add it again for the next request *)
          config' ← get_config;
          set_config (<["session" := CfgSession h]> config');;
          mret r
      | Some (CfgValue v) =>
          if truthy v
          then raise (AttributeError "object has no attribute 'request'")
          else transport_call
                 (mkRequest method url headers data (delete "session" config)
                            None)
      | None =>
          transport_call
            (mkRequest method url headers data (delete "session" config) None)
      end;
  if (200 <=? status_code r) && (status_code r <? 300) then
    r_data ← (if String.eqb (content r) "" then mret JNull
              else lift (loads (content r)));
    mret (with_status returning_status r_data (status_code r))
  else if (status_code r =? 404) || (status_code r =? 410) then
    raise (ResourceNotFound (content r))
  else if status_code r =? 412 then
    raise (MultipleResourcesFound (content r))
  else
    let data := content r in
    lift (try_except_KeyError_JSONDecodeError
            (parsed_data ← loads data;
             resource_type ← subscript parsed_data "resourceType";
             if eq_str resource_type "OperationOutcome"
             then Raise (OperationOutcome None (Some parsed_data))
             else Raise (OperationOutcome (Some data) None))
            (Raise (OperationOutcome (Some data) None))).

Definition execute `{Externals} (self : Client) (path method : string)
    (data : json) (params : option dict) (returning_status : bool)
  : M (returned returning_status) :=
  _do_request self method path data params returning_status.

Definition _fetch_resource `{Externals} (self : Client)
    (path : string) (params : option dict) : M json :=
  _do_request self "get" path JNull params false.

End SyncClient.

(** ** AsyncClient

    An [await] is where the caller may be suspended; it does not change
    what is computed, so a coroutine is embedded like the function it
    wraps.  The [aiohttp.ClientSession] is created per request and never
    comes from the configuration. *)

Module AsyncClient.
Import AbstractClient.

Definition _do_request `{Externals} (self : Client)
    (method path : string) (data : json) (params : option dict)
    (returning_status : bool) : M (returned returning_status) :=
  let headers := _build_request_headers self in
  url ← lift (_build_request_url self path params);
  let headers :=
    if String.eqb method "patch"
    then <["Content-Type" := "application/json-patch+json"]> headers
    else headers in
  r ← transport_call
        (mkRequest method url headers data (aiohttp_config self) None);
  if (200 <=? status_code r) && (status_code r <? 300) then
    let data := content r in
    r_data ← (if String.eqb data "" then mret JNull else lift (loads data));
    mret (with_status returning_status r_data (status_code r))
  else if (status_code r =? 404) || (status_code r =? 410) then
    raise (ResourceNotFound (content r))
  else if status_code r =? 412 then
    raise (MultipleResourcesFound (content r))
  else
    let data := content r in
    lift (try_except_KeyError_JSONDecodeError
            (parsed_data ← loads data;
             resource_type ← subscript parsed_data "resourceType";
             if eq_str resource_type "OperationOutcome"
             then Raise (OperationOutcome None (Some parsed_data))
             else Raise (OperationOutcome (Some data) None))
            (Raise (OperationOutcome (Some data) None))).

Definition execute `{Externals} (self : Client) (path method : string)
    (data : json) (params : option dict) (returning_status : bool)
  : M (returned returning_status) :=
  _do_request self method path data params returning_status.

Definition _fetch_resource `{Externals} (self : Client)
    (path : string) (params : option dict) : M json :=
  _do_request self "get" path JNull params false.

End AsyncClient.

(** ** Search sets *)

Record SearchSet : Type := mkSearchSet {
  ss_client : Client;
  ss_resource_type : string;
  ss_params : dict
}.

(** A resource object: its client and resource type.  The fields of its
    container are mutable and live in the [World]. *)
Record Resource : Type := mkResource {
  res_client : Client;
  res_resource_type : string
}.

Fixpoint map_outcome {A B} (f : A -> outcome B) (l : list A) : outcome (list B) :=
  match l with
  | [] => Ret []
  | x :: l' => y ← f x; ys ← map_outcome f l'; Ret (y :: ys)
  end.

Module AbstractSearchSet.

(** The query builder's [limit(n)] and [search(_id=id)]: a search set
    with the parameters the builder derives. *)
Definition limit `{Externals} (n : Z) (self : SearchSet) : SearchSet :=
  mkSearchSet (ss_client self) (ss_resource_type self)
              (limit_params n (ss_params self)).

Definition search_id `{Externals} (id : json) (self : SearchSet) : SearchSet :=
  mkSearchSet (ss_client self) (ss_resource_type self)
              (search_id_params id (ss_params self)).

(** [data.get(key, None)] on a decoded payload. *)
Definition get_or_none (data : json) (key : string) : outcome json :=
  match data with
  | JObj m => Ret (default JNull (Dict.get key m))
  | _ => Raise (AttributeError "object has no attribute 'get'")
  end.

(** Modelled from the spec: [_get_bundle_resources], which for a Bundle
    extracts [entry[].resource] in order, materialised through
    [_dict_to_resource], and otherwise returns a single-element result. *)
Definition _get_bundle_resources `{Externals} (bundle_data : json)
  : outcome (list json) :=
  resource_type ← get_or_none bundle_data "resourceType";
  if eq_str resource_type "Bundle" then
    entry ← get_or_none bundle_data "entry";
    entries ← match entry with
              | JArr es => Ret es
              | JNull => Ret []
              | _ => Raise (TypeError "entry is not a list")
              end;
    resources ← map_outcome (fun res => subscript res "resource") entries;
    Ret (map dict_to_resource resources)
  else Ret [dict_to_resource bundle_data].

(** Modelled from the spec: [get_by_path(bundle_data, ["link",
    {"relation": "next"}, "url"])], the [url] of the first [link] entry
    whose [relation] is [next], [None] when there is none. *)
Definition next_link_url (bundle_data : json) : json :=
  match bundle_data with
  | JObj m =>
      match Dict.get "link" m with
      | Some (JArr links) =>
          match find (fun l => match l with
                               | JObj lm => match Dict.get "relation" lm with
                                            | Some r => eq_str r "next"
                                            | None => false
                                            end
                               | _ => false
                               end) links with
          | Some (JObj lm) => default JNull (Dict.get "url" lm)
          | _ => JNull
          end
      | _ => JNull
      end
  | _ => JNull
  end.

End AbstractSearchSet.

Module SyncSearchSet.
Import AbstractSearchSet.

Definition fetch `{Externals} (self : SearchSet) : M (list json) :=
  bundle_data ← SyncClient._fetch_resource (ss_client self)
                  (ss_resource_type self) (Some (ss_params self));
  resources ← lift (_get_bundle_resources bundle_data);
  mret resources.

Definition fetch_raw `{Externals} (self : SearchSet) : M json :=
  data ← SyncClient._fetch_resource (ss_client self)
           (ss_resource_type self) (Some (ss_params self));
  data_resource_type ← lift (get_or_none data "resourceType");
  if eq_str data_resource_type "Bundle" then
    entry ← lift (subscript data "entry");
    items ← lift (match entry with
                  | JArr es =>
                      map_outcome
                        (fun item =>
                           resource ← subscript item "resource";
                           match item with
                           | JObj im =>
                               Ret (JObj (Dict.set "resource"
                                            (dict_to_resource resource) im))
                           | _ => Ret item
                           end) es
                  | _ => Raise (TypeError "entry is not a list")
                  end);
    match data with
    | JObj m => mret (JObj (Dict.set "entry" (JArr items) m))
    | _ => mret data
    end
  else mret data.

(** The generator, drained: the items in the order they are yielded.
    [fuel] bounds the number of pages fetched. *)
Fixpoint __iter__ `{Externals} (fuel : nat) (self : SearchSet)
    (next_link : json) : M (list json) :=
  match fuel with
  | O => out_of_fuel
  | S fuel' =>
      bundle_data ←
        (if truthy next_link then
           '(path, params) ← lift (parse_pagination_url next_link);
           SyncClient._fetch_resource (ss_client self) path params
         else
           SyncClient._fetch_resource (ss_client self)
             (ss_resource_type self) (Some (ss_params self)));
      new_resources ← lift (_get_bundle_resources bundle_data);
      let next_link := next_link_url bundle_data in
      if negb (truthy next_link) then mret new_resources
      else
        rest ← __iter__ fuel' self next_link;
        mret (new_resources ++ rest)%list
  end.

Definition fetch_all `{Externals} (fuel : nat) (self : SearchSet)
  : M (list json) :=
  __iter__ fuel self JNull.

Definition get `{Externals} (self : SearchSet) (id : json) : M json :=
  let searchset := limit 2 self in
  let searchset := if truthy id then search_id id searchset else searchset in
  res_data ← fetch searchset;
  match res_data with
  | [] => raise (ResourceNotFound "No resources found")
  | [resource] => mret (dict_to_resource resource)
  | _ => raise (MultipleResourcesFound "More than one resource found")
  end.

Definition count `{Externals} (self : SearchSet) : M json :=
  let new_params := ss_params self in
  let new_params := Dict.set "_count" (JInt 0) new_params in
  let new_params := Dict.set "_totalMethod" (JStr "count") new_params in
  data ← SyncClient._fetch_resource (ss_client self)
           (ss_resource_type self) (Some new_params);
  lift (subscript data "total").

Definition first `{Externals} (self : SearchSet) : M json :=
  result ← fetch (limit 1 self);
  mret (match result with
        | x :: _ => x
        | [] => JNull
        end).

Definition get_or_create `{Externals} (self : SearchSet) (resource : Resource)
  : M (json * bool) :=
  if negb (String.eqb (res_resource_type resource) (ss_resource_type self))
  then raise AssertionError
  else
    fields ← get_container;
    '(data, status_code) ← SyncClient._do_request (ss_client self) "POST"
                             (ss_resource_type self) (serialize_fields fields)
                             (Some (ss_params self)) true;
    mret (data, status_code =? 201).

Definition update `{Externals} (self : SearchSet) (resource : Resource)
  : M (json * bool) :=
  if negb (String.eqb (res_resource_type resource) (ss_resource_type self))
  then raise AssertionError
  else
    fields ← get_container;
    '(data, status_code) ← SyncClient._do_request (ss_client self) "PUT"
                             (ss_resource_type self) (serialize_fields fields)
                             (Some (ss_params self)) true;
    mret (data, status_code =? 201).

Definition patch `{Externals} (self : SearchSet) (resource : Resource)
  : M json :=
  if negb (String.eqb (res_resource_type resource) (ss_resource_type self))
  then raise AssertionError
  else
    fields ← get_container;
    SyncClient._do_request (ss_client self) "PATCH"
      (ss_resource_type self) (serialize_fields fields)
      (Some (ss_params self)) false.

Definition delete `{Externals} (self : SearchSet) : M (json * Z) :=
  SyncClient._do_request (ss_client self) "DELETE"
    (ss_resource_type self) JNull (Some (ss_params self)) true.

End SyncSearchSet.

Module AsyncSearchSet.
Import AbstractSearchSet.

Definition fetch `{Externals} (self : SearchSet) : M (list json) :=
  bundle_data ← AsyncClient._fetch_resource (ss_client self)
                  (ss_resource_type self) (Some (ss_params self));
  resources ← lift (_get_bundle_resources bundle_data);
  mret resources.

Definition fetch_raw `{Externals} (self : SearchSet) : M json :=
  data ← AsyncClient._fetch_resource (ss_client self)
           (ss_resource_type self) (Some (ss_params self));
  data_resource_type ← lift (get_or_none data "resourceType");
  if eq_str data_resource_type "Bundle" then
    entry ← lift (subscript data "entry");
    items ← lift (match entry with
                  | JArr es =>
                      map_outcome
                        (fun item =>
                           resource ← subscript item "resource";
                           match item with
                           | JObj im =>
                               Ret (JObj (Dict.set "resource"
                                            (dict_to_resource resource) im))
                           | _ => Ret item
                           end) es
                  | _ => Raise (TypeError "entry is not a list")
                  end);
    match data with
    | JObj m => mret (JObj (Dict.set "entry" (JArr items) m))
    | _ => mret data
    end
  else mret data.

(** The asynchronous generator, drained. *)
Fixpoint __aiter__ `{Externals} (fuel : nat) (self : SearchSet)
    (next_link : json) : M (list json) :=
  match fuel with
  | O => out_of_fuel
  | S fuel' =>
      bundle_data ←
        (if truthy next_link then
           '(path, params) ← lift (parse_pagination_url next_link);
           AsyncClient._fetch_resource (ss_client self) path params
         else
           AsyncClient._fetch_resource (ss_client self)
             (ss_resource_type self) (Some (ss_params self)));
      new_resources ← lift (_get_bundle_resources bundle_data);
      let next_link := next_link_url bundle_data in
      if negb (truthy next_link) then mret new_resources
      else
        rest ← __aiter__ fuel' self next_link;
        mret (new_resources ++ rest)%list
  end.

Definition fetch_all `{Externals} (fuel : nat) (self : SearchSet)
  : M (list json) :=
  __aiter__ fuel self JNull.

Definition get `{Externals} (self : SearchSet) (id : json) : M json :=
  let searchset := limit 2 self in
  let searchset := if truthy id then search_id id searchset else searchset in
  res_data ← fetch searchset;
  match res_data with
  | [] => raise (ResourceNotFound "No resources found")
  | [resource] => mret (dict_to_resource resource)
  | _ => raise (MultipleResourcesFound "More than one resource found")
  end.

Definition count `{Externals} (self : SearchSet) : M json :=
  let new_params := ss_params self in
  let new_params := Dict.set "_count" (JInt 0) new_params in
  let new_params := Dict.set "_totalMethod" (JStr "count") new_params in
  data ← AsyncClient._fetch_resource (ss_client self)
           (ss_resource_type self) (Some new_params);
  lift (subscript data "total").

Definition first `{Externals} (self : SearchSet) : M json :=
  result ← fetch (limit 1 self);
  mret (match result with
        | x :: _ => x
        | [] => JNull
        end).

Definition get_or_create `{Externals} (self : SearchSet) (resource : Resource)
  : M (json * bool) :=
  if negb (String.eqb (res_resource_type resource) (ss_resource_type self))
  then raise AssertionError
  else
    fields ← get_container;
    '(data, status_code) ← AsyncClient._do_request (ss_client self) "POST"
                             (ss_resource_type self) (serialize_fields fields)
                             (Some (ss_params self)) true;
    mret (data, status_code =? 201).

Definition update `{Externals} (self : SearchSet) (resource : Resource)
  : M (json * bool) :=
  if negb (String.eqb (res_resource_type resource) (ss_resource_type self))
  then raise AssertionError
  else
    fields ← get_container;
    '(data, status_code) ← AsyncClient._do_request (ss_client self) "PUT"
                             (ss_resource_type self) (serialize_fields fields)
                             (Some (ss_params self)) true;
    mret (data, status_code =? 201).

Definition patch `{Externals} (self : SearchSet) (resource : Resource)
  : M json :=
  if negb (String.eqb (res_resource_type resource) (ss_resource_type self))
  then raise AssertionError
  else
    fields ← get_container;
    AsyncClient._do_request (ss_client self) "PATCH"
      (ss_resource_type self) (serialize_fields fields)
      (Some (ss_params self)) false.

Definition delete `{Externals} (self : SearchSet) : M (json * Z) :=
  AsyncClient._do_request (ss_client self) "DELETE"
    (ss_resource_type self) JNull (Some (ss_params self)) true.

End AsyncSearchSet.

(** ** Resources *)

(** [**v] in a call: the keyword arguments a mapping unpacks to. *)
Definition kwargs_of (v : json) : outcome dict :=
  match v with
  | JObj m => Ret m
  | _ => Raise (TypeError "argument after ** must be a mapping")
  end.

(** [for x in v] on a decoded payload. *)
Definition iterate (v : json) : outcome (list json) :=
  match v with
  | JArr l => Ret l
  | JObj m => Ret (map (fun kv => JStr (fst kv)) m)
  | JStr s => Ret (map (fun c => JStr (String c "")) (list_ascii_of_string s))
  | _ => Raise (TypeError "object is not iterable")
  end.

(** [any(p(x) for x in l)]: stops at the first element satisfying [p]. *)
Fixpoint any_outcome {A} (p : A -> outcome bool) (l : list A) : outcome bool :=
  match l with
  | [] => Ret false
  | x :: l' => b ← p x; if b : bool then Ret true else any_outcome p l'
  end.

Module BaseResource.

(** Modelled from the spec: the optional [id] of the container. *)
Definition id (fields : dict) : json := default JNull (Dict.get "id" fields).

(** Modelled from the spec: the resource's own path, [resourceType/id]
    when [id] is set, else just [resourceType]. *)
Definition _get_path `{Externals} (self : Resource) (fields : dict) : string :=
  if truthy (id fields)
  then res_resource_type self ++ "/" ++ str_of (id fields)
  else res_resource_type self.

(** [AbstractClient.resource(resource_type, **kwargs)], lines 60 to 64. *)
Definition client_resource `{Externals} (resource_type : string) (kwargs : dict)
  : outcome dict :=
  if bool_decide ("resource_type" ∈ Dict.keys kwargs)
  then Raise (TypeError "resource() got multiple values for argument 'resource_type'")
  else resource_class resource_type kwargs.

(** The severity test of [is_valid]. *)
Definition has_errors (data : json) : outcome bool :=
  issue ← subscript data "issue";
  issues ← iterate issue;
  any_outcome (fun issue =>
                 severity ← subscript issue "severity";
                 Ret (eq_str severity "fatal" || eq_str severity "error"))
              issues.

End BaseResource.

Module SyncResource.
Import BaseResource.

Definition save `{Externals} (self : Resource)
    (fields : option (list string)) (search_params : option dict) : M unit :=
  container ← get_container;
  let data := serialize_fields container in
  '(method, data) ←
    match fields with
    | Some (key :: keys) =>
        if negb (truthy (id container))
        then raise (TypeError "Resource `id` is required for update operation")
        else
          request_data ←
            lift (map_outcome
                    (fun key =>
                       value ← subscript data key;
                       Ret (JObj [("op", JStr "add");
                                  ("path", JStr ("/" ++ key));
                                  ("value", value)]))
                    (key :: keys));
          mret ("patch", JArr request_data)
    | _ => mret (if truthy (id container) then "put" else "post", data)
    end;
  response_data ← SyncClient._do_request (res_client self) method
                    (_get_path self container) data search_params false;
  if truthy response_data then
    set_container [];;
    kwargs ← lift (kwargs_of response_data);
    resource ← lift (client_resource (res_resource_type self) kwargs);
    cleared ← get_container;
    set_container (Dict.update cleared resource)
  else mret tt.

Definition create `{Externals} (self : Resource) (kwargs : dict) : M Resource :=
  save self None (Some kwargs);;
  mret self.

Definition update `{Externals} (self : Resource) : M unit :=
  container ← get_container;
  if negb (truthy (id container))
  then raise (TypeError "Resource `id` is required for update operation")
  else save self None None.

Definition patch `{Externals} (self : Resource) (kwargs : dict) : M unit :=
  container ← get_container;
  set_container (Dict.update container kwargs);;
  save self (Some (Dict.keys kwargs)) None.

Definition delete `{Externals} (self : Resource) : M json :=
  container ← get_container;
  SyncClient._do_request (res_client self) "delete"
    (_get_path self container) JNull None false.

Definition refresh `{Externals} (self : Resource) : M unit :=
  container ← get_container;
  data ← SyncClient._do_request (res_client self) "get"
           (_get_path self container) JNull None false;
  set_container [];;
  kwargs ← lift (kwargs_of data);
  cleared ← get_container;
  set_container (Dict.update cleared kwargs).

Definition is_valid `{Externals} (self : Resource) (raise_exception : bool)
  : M bool :=
  container ← get_container;
  data ← SyncClient._do_request (res_client self) "post"
           (res_resource_type self ++ "/$validate") (serialize_fields container)
           None false;
  errors ← lift (has_errors data);
  if errors : bool then
    if raise_exception then raise (OperationOutcome None (Some data))
    else mret false
  else mret true.

Definition execute `{Externals} (self : Resource) (operation method : string)
    (data : json) (params : option dict) : M json :=
  container ← get_container;
  SyncClient._do_request (res_client self) method
    (_get_path self container ++ "/" ++ operation) data params false.

End SyncResource.

Module AsyncResource.
Import BaseResource.

Definition save `{Externals} (self : Resource)
    (fields : option (list string)) (search_params : option dict) : M unit :=
  container ← get_container;
  let data := serialize_fields container in
  '(method, data) ←
    match fields with
    | Some (key :: keys) =>
        if negb (truthy (id container))
        then raise (TypeError "Resource `id` is required for update operation")
        else
          items ←
            lift (map_outcome
                    (fun key => value ← subscript data key; Ret (key, value))
                    (key :: keys));
          mret ("patch", JObj (Dict.update [] items))
    | _ => mret (if truthy (id container) then "put" else "post", data)
    end;
  response_data ← AsyncClient._do_request (res_client self) method
                    (_get_path self container) data search_params false;
  if truthy response_data then
    set_container [];;
    kwargs ← lift (kwargs_of response_data);
    resource ← lift (client_resource (res_resource_type self) kwargs);
    cleared ← get_container;
    set_container (Dict.update cleared resource)
  else mret tt.

Definition create `{Externals} (self : Resource) (kwargs : dict) : M Resource :=
  save self None (Some kwargs);;
  mret self.

Definition update `{Externals} (self : Resource) : M unit :=
  container ← get_container;
  if negb (truthy (id container))
  then raise (TypeError "Resource `id` is required for update operation")
  else save self None None.

Definition patch `{Externals} (self : Resource) (kwargs : dict) : M unit :=
  container ← get_container;
  set_container (Dict.update container kwargs);;
  save self (Some (Dict.keys kwargs)) None.

Definition delete `{Externals} (self : Resource) : M json :=
  container ← get_container;
  AsyncClient._do_request (res_client self) "delete"
    (_get_path self container) JNull None false.

Definition refresh `{Externals} (self : Resource) : M unit :=
  container ← get_container;
  data ← AsyncClient._do_request (res_client self) "get"
           (_get_path self container) JNull None false;
  set_container [];;
  kwargs ← lift (kwargs_of data);
  cleared ← get_container;
  set_container (Dict.update cleared kwargs).

Definition is_valid `{Externals} (self : Resource) (raise_exception : bool)
  : M bool :=
  container ← get_container;
  data ← AsyncClient._do_request (res_client self) "post"
           (res_resource_type self ++ "/$validate") (serialize_fields container)
           None false;
  errors ← lift (has_errors data);
  if errors : bool then
    if raise_exception then raise (OperationOutcome None (Some data))
    else mret false
  else mret true.

Definition execute `{Externals} (self : Resource) (operation method : string)
    (data : json) (params : option dict) (returning_status : bool)
  : M (returned returning_status) :=
  container ← get_container;
  AsyncClient._do_request (res_client self) method
    (_get_path self container ++ "/" ++ operation) data params
    returning_status.

End AsyncResource.

(** ** References *)

(** Modelled from the spec: a reference is a resource type, an id and the
    flag telling whether its target lives on the client's server. *)
Record Reference : Type := mkReference {
  ref_client : Client;
  ref_resource_type : string;
  ref_id : string;
  is_local : bool
}.

Module SyncReference.

Definition to_resource `{Externals} (self : Reference) : M json :=
  if negb (is_local self)
  then raise (ResourceNotFound "Can not resolve not local resource")
  else
    resource_data ← SyncClient._do_request (ref_client self) "get"
                      (ref_resource_type self ++ "/" ++ ref_id self)
                      JNull None false;
    mret (dict_to_resource resource_data).

Definition execute `{Externals} (self : Reference) (operation method : string)
    (data : json) (params : option dict) (returning_status : bool)
  : M (returned returning_status) :=
  if negb (is_local self)
  then raise (ResourceNotFound "Can not execute on not local resource")
  else
    SyncClient._do_request (ref_client self) method
      (ref_resource_type self ++ "/" ++ ref_id self ++ "/" ++ operation)
      data params returning_status.

End SyncReference.

Module AsyncReference.

Definition to_resource `{Externals} (self : Reference) : M json :=
  if negb (is_local self)
  then raise (ResourceNotFound "Can not resolve not local resource")
  else
    resource_data ← AsyncClient._do_request (ref_client self) "get"
                      (ref_resource_type self ++ "/" ++ ref_id self)
                      JNull None false;
    mret (dict_to_resource resource_data).

Definition execute `{Externals} (self : Reference) (operation method : string)
    (data : json) (params : option dict) (returning_status : bool)
  : M (returned returning_status) :=
  if negb (is_local self)
  then raise (ResourceNotFound "Can not execute on not local resource")
  else
    AsyncClient._do_request (ref_client self) method
      (ref_resource_type self ++ "/" ++ ref_id self ++ "/" ++ operation)
      data params returning_status.

End AsyncReference.

(** ** A plain implementation of the collaborators

    Used to run the model on concrete inputs.  The decoder covers the JSON
    used there: literals, integers, strings with the simple escapes,
    arrays and objects. *)

Module Stubs.
Import Text.

Definition is_ws (c : ascii) : bool := mem_char c (String " " (String "009" (String "010" (String "013" "")))).

Fixpoint skip_ws (s : string) : string :=
  match s with
  | String c s' => if is_ws c then skip_ws s' else s
  | "" => ""
  end.

(** The characters of a string literal up to its closing quote. *)
Fixpoint string_body (s : string) : option (string * string) :=
  match s with
  | "" => None
  | String c s' =>
      if Ascii.eqb c "034" then Some ("", s')
      else if Ascii.eqb c "\" then
        match s' with
        | String e s'' =>
            let unescaped :=
              if Ascii.eqb e "n" then Some "010"%char
              else if Ascii.eqb e "t" then Some "009"%char
              else if Ascii.eqb e "r" then Some "013"%char
              else if Ascii.eqb e "b" then Some "008"%char
              else if Ascii.eqb e "f" then Some "012"%char
              else if mem_char e (String "034" "\/") then Some e
              else None in
            match unescaped, string_body s'' with
            | Some u, Some (l, r) => Some (String u l, r)
            | _, _ => None
            end
        | "" => None
        end
      else match string_body s' with
           | Some (l, r) => Some (String c l, r)
           | None => None
           end
  end.

Definition number (s : string) : option (json * string) :=
  let '(neg, s1) := match s with
                    | String "-" s' => (true, s')
                    | _ => (false, s)
                    end in
  let '(ds, rest) := span is_digit s1 in
  let fractional := match rest with
                    | String c _ => mem_char c ".eE"
                    | "" => false
                    end in
  let leading_zero := match ds with
                      | String "0" (String _ _) => true
                      | _ => false
                      end in
  if String.eqb ds "" || fractional || leading_zero then None
  else let n := digits_value 0 ds in
       Some (JInt (if neg : bool then - n else n), rest).

Definition literal (word : string) (v : json) (s : string)
  : option (json * string) :=
  if startswith word s then Some (v, drop (String.length word) s) else None.

Fixpoint value (fuel : nat) (s : string) : option (json * string) :=
  match fuel with
  | O => None
  | S fuel' =>
      match skip_ws s with
      | String "n" _ => literal "null" JNull (skip_ws s)
      | String "t" _ => literal "true" (JBool true) (skip_ws s)
      | String "f" _ => literal "false" (JBool false) (skip_ws s)
      | String "034" s' =>
          match string_body s' with
          | Some (l, r) => Some (JStr l, r)
          | None => None
          end
      | String "[" s' =>
          match skip_ws s' with
          | String "]" r => Some (JArr [], r)
          | _ => match elements fuel' s' with
                 | Some (l, r) => Some (JArr l, r)
                 | None => None
                 end
          end
      | String "{" s' =>
          match skip_ws s' with
          | String "}" r => Some (JObj [], r)
          | _ => match members fuel' s' with
                 | Some (m, r) => Some (JObj (Dict.update [] m), r)
                 | None => None
                 end
          end
      | other => number other
      end
  end
with elements (fuel : nat) (s : string) : option (list json * string) :=
  match fuel with
  | O => None
  | S fuel' =>
      match value fuel' s with
      | Some (v, r) =>
          match skip_ws r with
          | String "," r' =>
              match elements fuel' r' with
              | Some (l, r'') => Some (v :: l, r'')
              | None => None
              end
          | String "]" r' => Some ([v], r')
          | _ => None
          end
      | None => None
      end
  end
with members (fuel : nat) (s : string) : option (dict * string) :=
  match fuel with
  | O => None
  | S fuel' =>
      match skip_ws s with
      | String "034" s' =>
          match string_body s' with
          | Some (k, r) =>
              match skip_ws r with
              | String ":" r' =>
                  match value fuel' r' with
                  | Some (v, r'') =>
                      match skip_ws r'' with
                      | String "," r3 =>
                          match members fuel' r3 with
                          | Some (m, r4) => Some ((k, v) :: m, r4)
                          | None => None
                          end
                      | String "}" r3 => Some ([(k, v)], r3)
                      | _ => None
                      end
                  | None => None
                  end
              | _ => None
              end
          | None => None
          end
      | _ => None
      end
  end.

Definition decode (s : string) : option json :=
  match value (S (String.length s)) s with
  | Some (v, rest) => if String.eqb (skip_ws rest) "" then Some v else None
  | None => None
  end.

Definition join (sep : string) (l : list string) : string :=
  match l with
  | [] => ""
  | x :: l' => fold_left (fun acc y => acc ++ sep ++ y) l' x
  end.

(** The JSON text of a value without floats whose strings need no
    escaping. *)
Fixpoint encode (v : json) : string :=
  match v with
  | JNull => "null"
  | JBool b => if b then "true" else "false"
  | JInt n => pretty n
  | JFloat _ => "null"
  | JStr s => quoted s
  | JArr l => "[" ++ join "," (map encode l) ++ "]"
  | JObj m =>
      "{" ++ join "," (map (fun kv => quoted (fst kv) ++ ":" ++ encode (snd kv)) m)
      ++ "}"
  end.

Definition text_of (v : json) : string :=
  match v with
  | JStr s => s
  | JInt n => pretty n
  | JBool b => if b then "True" else "False"
  | JNull => "None"
  | other => encode other
  end.

Definition query_of (params : dict) : string :=
  join "&" (map (fun kv => fst kv ++ "=" ++ text_of (snd kv)) params).

(** Splits [k1=v1&k2=v2] into its pairs. *)
Fixpoint pairs_of (fuel : nat) (q : string) : dict :=
  match fuel with
  | O => []
  | S fuel' =>
      if String.eqb q "" then []
      else
        let '(kv, rest) := Url.split_at "&" q in
        let '(k, v) := Url.split_at "=" kv in
        Dict.set k (JStr v) (pairs_of fuel' rest)
  end.

(** An absolute link is kept whole; a relative one is split into its
    path and its query parameters. *)
Definition pagination (link : json) : outcome (string * option dict) :=
  match link with
  | JStr u =>
      absolute ← Url.URL_is_absolute u;
      if absolute : bool then Ret (u, None)
      else let r := Url.urlparse u in
           Ret (Url.path r,
                Some (pairs_of (String.length (Url.query r)) (Url.query r)))
  | _ => Raise (TypeError "link is not a string")
  end.

Definition externals : Externals := {|
  json_loads := decode;
  encode_params := query_of;
  parse_pagination_url := pagination;
  str_of := text_of;
  resource_class := fun resource_type kwargs =>
    Ret (Dict.set "resourceType" (JStr resource_type) kwargs);
  dict_to_resource := fun v => v;
  serialize_fields := JObj;
  limit_params := fun n => Dict.set "_count" (JInt n);
  search_id_params := fun id => Dict.set "_id" id
|}.

End Stubs.

(** ** Notions used to state the properties *)

Module Spec.
Import Text Url AbstractClient.

(** The base URL declares a port that [if ...port:] accepts. *)
Definition base_has_port (self : Client) : bool :=
  match port (urlparse (url self)) with
  | Ret (Some n) => negb (n =? 0)
  | _ => false
  end.

Definition has_no_port (parsed : ParseResult) : bool :=
  match port parsed with
  | Ret None => true
  | _ => false
  end.

(** The path after port normalisation: the text the containment check
    is applied to. *)
Definition normalized_path (self : Client) (path : string) : string :=
  if base_has_port self && has_no_port (urlparse path)
     && String.eqb (scheme (urlparse path)) "https"
  then with_default_port (urlparse path)
  else path.

(** The caller-supplied [session] entry, when present and truthy, is a
    session object. *)
Definition session_ok (config : gmap string cfgval) : Prop :=
  match config !! "session" with
  | Some (CfgValue v) => truthy v = false
  | _ => True
  end.

(** The transport answers every request with the response [r]. *)
Definition answers (t : Transport) (r : Response) : Prop :=
  forall hist rq, t hist rq = Ret r.

Definition is_2xx (status : Z) : Prop := 200 <= status < 300.

(** The classification both [_do_request] bodies apply to a response,
    lines 132 to 150 and 188 to 205, as one function. *)
Definition classify `{Externals} (returning_status : bool) (r : Response)
  : outcome (returned returning_status) :=
  if (200 <=? status_code r) && (status_code r <? 300) then
    r_data ← (if String.eqb (content r) "" then Ret JNull
              else loads (content r));
    Ret (with_status returning_status r_data (status_code r))
  else if (status_code r =? 404) || (status_code r =? 410) then
    Raise (ResourceNotFound (content r))
  else if status_code r =? 412 then
    Raise (MultipleResourcesFound (content r))
  else
    try_except_KeyError_JSONDecodeError
      (parsed_data ← loads (content r);
       resource_type ← subscript parsed_data "resourceType";
       if eq_str resource_type "OperationOutcome"
       then Raise (OperationOutcome None (Some parsed_data))
       else Raise (OperationOutcome (Some (content r)) None))
      (Raise (OperationOutcome (Some (content r)) None)).

(** The headers of a blocking request. *)
Definition sync_headers (self : Client) (method : string) : gmap string string :=
  <["Content-Type" := if String.eqb method "patch"
                      then "application/json-patch+json"
                      else "application/fhir+json"]>
    (_build_request_headers self).

(** The headers of a deferred request. *)
Definition async_headers (self : Client) (method : string) : gmap string string :=
  if String.eqb method "patch"
  then <["Content-Type" := "application/json-patch+json"]>
         (_build_request_headers self)
  else _build_request_headers self.

(** The request a blocking [_do_request] hands to the transport. *)
Definition sync_request (self : Client) (method url : string) (data : json)
    (config : gmap string cfgval) : Request :=
  mkRequest method url (sync_headers self method) data
    (delete "session" config)
    match config !! "session" with
    | Some (CfgSession h) => Some h
    | _ => None
    end.

(** The request a deferred [_do_request] hands to the transport. *)
Definition async_request (self : Client) (method url : string) (data : json)
  : Request :=
  mkRequest method url (async_headers self method) data
    (aiohttp_config self) None.

(** [requests_config] after a blocking request whose transport call
    ended in [o]. *)
Definition config_after (config : gmap string cfgval) (o : outcome Response)
  : gmap string cfgval :=
  match config !! "session", o with
  | Some (CfgSession _), Ret _ => config
  | _, _ => delete "session" config
  end.

(** The header [key] before any [Content-Type] is set: the extra header
    when there is one, else the client's own [Accept] and
    [Authorization]. *)
Definition base_header (self : Client) (key : string) : option string :=
  match extra_headers self ≫= (fun extra => extra !! key) with
  | Some v => Some v
  | None =>
      if String.eqb key "Accept" then Some "application/fhir+json"
      else if String.eqb key "Authorization" then
        match authorization self with
        | Some a => if String.eqb a "" then None else Some a
        | None => None
        end
      else None
  end.

(** Method and body of the request a blocking [save] makes, lines 405 to
    422, from the fields of the container. *)
Definition sync_prepare `{Externals} (fields : option (list string))
    (container : dict) : outcome (string * json) :=
  let data := serialize_fields container in
  match fields with
  | Some (key :: keys) =>
      if negb (truthy (BaseResource.id container))
      then Raise (TypeError "Resource `id` is required for update operation")
      else
        request_data ←
          map_outcome
            (fun key =>
               value ← subscript data key;
               Ret (JObj [("op", JStr "add");
                          ("path", JStr ("/" ++ key));
                          ("value", value)]))
            (key :: keys);
        Ret ("patch", JArr request_data)
  | _ => Ret (if truthy (BaseResource.id container) then "put" else "post",
              data)
  end.

(** Method and body of the request a deferred [save] makes, lines 474 to
    481. *)
Definition async_prepare `{Externals} (fields : option (list string))
    (container : dict) : outcome (string * json) :=
  let data := serialize_fields container in
  match fields with
  | Some (key :: keys) =>
      if negb (truthy (BaseResource.id container))
      then Raise (TypeError "Resource `id` is required for update operation")
      else
        items ← map_outcome
                  (fun key => value ← subscript data key; Ret (key, value))
                  (key :: keys);
        Ret ("patch", JObj (Dict.update [] items))
  | _ => Ret (if truthy (BaseResource.id container) then "put" else "post",
              data)
  end.

(** What [save] does with the payload of a successful request, lines 426
    to 430: the outcome and the fields of the container afterwards. *)
Definition apply_response `{Externals} (self : Resource) (response_data : json)
    (container : dict) : outcome unit * dict :=
  if truthy response_data then
    match kwargs_of response_data
          ≫= BaseResource.client_resource (res_resource_type self) with
    | Ret resource => (Ret tt, Dict.update [] resource)
    | Raise e => (Raise e, [])
    | OutOfFuel => (OutOfFuel, [])
    end
  else (Ret tt, container).

(** The transport never delivers a 2xx response. *)
Definition never_succeeds (t : Transport) : Prop :=
  forall hist rq,
    match t hist rq with
    | Ret r => ~ is_2xx (status_code r)
    | Raise _ => True
    | OutOfFuel => False
    end.

Definition with_container (w : World) (fields : dict) : World :=
  mkWorld (net w) (sent w) (requests_config w) fields.

(** The server answers a [get] of [target], a path and its parameters,
    with a 2xx response whose body decodes to [bundle]. *)
Definition serves_page `{Externals} (t : Transport) (client : Client)
    (target : string * option dict) (bundle : json) : Prop :=
  exists u r,
    _build_request_url client (fst target) (snd target) = Ret u
    /\ (forall hist rq, rq_method rq = "get" -> rq_url rq = u ->
                        t hist rq = Ret r)
    /\ is_2xx (status_code r)
    /\ content r <> ""
    /\ json_loads (content r) = Some bundle.

(** A sequence of server pages starting at [target], given by the
    resources of each page: every page but the last carries a [next] link
    that decomposes into the target of the following page, and the last
    page carries none. *)
Inductive page_chain `{Externals} (t : Transport) (client : Client)
  : string * option dict -> list (list json) -> Prop :=
| chain_last target bundle items :
    serves_page t client target bundle ->
    AbstractSearchSet._get_bundle_resources bundle = Ret items ->
    truthy (AbstractSearchSet.next_link_url bundle) = false ->
    page_chain t client target [items]
| chain_next target bundle items next rest :
    serves_page t client target bundle ->
    AbstractSearchSet._get_bundle_resources bundle = Ret items ->
    truthy (AbstractSearchSet.next_link_url bundle) = true ->
    parse_pagination_url (AbstractSearchSet.next_link_url bundle) = Ret next ->
    page_chain t client next rest ->
    page_chain t client target (items :: rest).

(** [w'] is [w] after [n] more transport calls. *)
Definition extends_by (n : nat) (w w' : World) : Prop :=
  net w' = net w
  /\ container w' = container w
  /\ session_ok (requests_config w')
  /\ List.length (sent w') = (List.length (sent w) + n)%nat.


End Spec.

(** ** Sample clients, servers and resources *)

Module Sample.

(** A client whose base URL declares its port. *)
Definition client : Client :=
  mkClient "https://example.com:443/fhir" None None ∅.

(** A client with an authorization and extra headers. *)
Definition client_with_headers : Client :=
  mkClient "http://localhost:8080/fhir" (Some "Bearer token")
    (Some (<["Accept" := "application/json"]>
             (<["Content-Type" := "text/plain"]> {[ "X-Trace" := "1" ]})))
    ∅.

Definition always (r : Response) : Transport := fun _ _ => Ret r.

Definition down : Transport :=
  fun _ _ => Raise (TransportError "ConnectionError").

Definition world (t : Transport) : World := mkWorld t [] ∅ [].

(** The caller supplied a session and a timeout. *)
Definition world_with_session (t : Transport) : World :=
  mkWorld t []
    (<["session" := CfgSession 7]> {[ "timeout" := CfgValue (JInt 120) ]}) [].

Definition patient : dict :=
  [("resourceType", JStr "Patient"); ("id", JStr "42");
   ("status", JStr "draft")].

Definition unsaved_patient : dict :=
  [("resourceType", JStr "Patient"); ("status", JStr "draft")].

Definition patient_resource : Resource := mkResource client "Patient".

Definition world_with (fields : dict) (t : Transport) : World :=
  mkWorld t [] ∅ fields.

Definition patients : SearchSet :=
  mkSearchSet client "Patient" [("_count", JInt 2)].

Definition named (id : string) : json :=
  JObj [("resourceType", JStr "Patient"); ("id", JStr id)].

(** A Bundle holding the given resources and, when given, a [next] link. *)
Definition bundle (resources : list json) (next : option string) : json :=
  JObj [("resourceType", JStr "Bundle");
        ("entry", JArr (map (fun r => JObj [("resource", r)]) resources));
        ("link",
         JArr (JObj [("relation", JStr "self"); ("url", JStr "Patient")]
               :: match next with
                  | Some u => [JObj [("relation", JStr "next");
                                     ("url", JStr u)]]
                  | None => []
                  end))].

Definition page1_url : string := "https://example.com:443/fhir/Patient?_count=2".
Definition page2_url : string :=
  "https://example.com:443/fhir/Patient?_count=2&page=2".
Definition page3_url : string :=
  "https://example.com:443/fhir/Patient?_count=2&page=3".

Definition page1 : json := bundle [named "a"; named "b"] (Some page2_url).
Definition page2 : json := bundle [named "c"; named "d"] (Some page3_url).
Definition page3 : json := bundle [named "e"] None.

(** A server holding three pages of patients. *)
Definition paged_server : Transport :=
  fun _ rq =>
    if String.eqb (rq_url rq) page1_url
    then Ret (mkResponse 200 (Stubs.encode page1))
    else if String.eqb (rq_url rq) page2_url
    then Ret (mkResponse 200 (Stubs.encode page2))
    else if String.eqb (rq_url rq) page3_url
    then Ret (mkResponse 200 (Stubs.encode page3))
    else Ret (mkResponse 404 "").

End Sample.

(** ** The two execution modes side by side *)

Module Modes.

(** An operation of the client, the search set, the resource lifecycle or
    the reference resolver, with its inputs. *)
Inductive operation : Type :=
| ClientExecute (self : Client) (path method : string) (data : json)
    (params : option dict) (returning_status : bool)
| ClientDoRequest (self : Client) (method path : string) (data : json)
    (params : option dict) (returning_status : bool)
| ClientFetchResource (self : Client) (path : string) (params : option dict)
| SearchFetch (self : SearchSet)
| SearchFetchRaw (self : SearchSet)
| SearchFetchAll (fuel : nat) (self : SearchSet)
| SearchIterate (fuel : nat) (self : SearchSet)
| SearchGet (self : SearchSet) (id : json)
| SearchCount (self : SearchSet)
| SearchFirst (self : SearchSet)
| SearchGetOrCreate (self : SearchSet) (resource : Resource)
| SearchUpdate (self : SearchSet) (resource : Resource)
| SearchPatch (self : SearchSet) (resource : Resource)
| SearchDelete (self : SearchSet)
| ResourceSave (self : Resource) (fields : option (list string))
    (search_params : option dict)
| ResourceCreate (self : Resource) (kwargs : dict)
| ResourceUpdate (self : Resource)
| ResourcePatch (self : Resource) (kwargs : dict)
| ResourceDelete (self : Resource)
| ResourceRefresh (self : Resource)
| ResourceIsValid (self : Resource) (raise_exception : bool)
| ResourceExecute (self : Resource) (operation method : string) (data : json)
    (params : option dict)
| ReferenceToResource (self : Reference)
| ReferenceExecute (self : Reference) (operation method : string)
    (data : json) (params : option dict) (returning_status : bool).

(** What an operation returns. *)
Inductive value : Type :=
| VPayload (data : json)
| VWithStatus (data : json) (status : Z)
| VWithCreated (data : json) (created : bool)
| VResources (items : list json)
| VNone
| VBool (b : bool)
| VSelf (self : Resource).

Definition of_returned (returning_status : bool)
  : returned returning_status -> value :=
  match returning_status with
  | true => fun r => VWithStatus (fst r) (snd r)
  | false => fun r => VPayload r
  end.

Definition returning {A} (f : A -> value) (m : M A) : M value :=
  x ← m; mret (f x).

Definition run_sync `{Externals} (op : operation) : M value :=
  match op with
  | ClientExecute self path method data params rs =>
      returning (of_returned rs)
        (SyncClient.execute self path method data params rs)
  | ClientDoRequest self method path data params rs =>
      returning (of_returned rs)
        (SyncClient._do_request self method path data params rs)
  | ClientFetchResource self path params =>
      returning VPayload (SyncClient._fetch_resource self path params)
  | SearchFetch self => returning VResources (SyncSearchSet.fetch self)
  | SearchFetchRaw self => returning VPayload (SyncSearchSet.fetch_raw self)
  | SearchFetchAll fuel self =>
      returning VResources (SyncSearchSet.fetch_all fuel self)
  | SearchIterate fuel self =>
      returning VResources (SyncSearchSet.__iter__ fuel self JNull)
  | SearchGet self id => returning VPayload (SyncSearchSet.get self id)
  | SearchCount self => returning VPayload (SyncSearchSet.count self)
  | SearchFirst self => returning VPayload (SyncSearchSet.first self)
  | SearchGetOrCreate self resource =>
      returning (fun r => VWithCreated (fst r) (snd r))
        (SyncSearchSet.get_or_create self resource)
  | SearchUpdate self resource =>
      returning (fun r => VWithCreated (fst r) (snd r))
        (SyncSearchSet.update self resource)
  | SearchPatch self resource =>
      returning VPayload (SyncSearchSet.patch self resource)
  | SearchDelete self =>
      returning (of_returned true) (SyncSearchSet.delete self)
  | ResourceSave self fields search_params =>
      returning (fun _ => VNone) (SyncResource.save self fields search_params)
  | ResourceCreate self kwargs =>
      returning VSelf (SyncResource.create self kwargs)
  | ResourceUpdate self => returning (fun _ => VNone) (SyncResource.update self)
  | ResourcePatch self kwargs =>
      returning (fun _ => VNone) (SyncResource.patch self kwargs)
  | ResourceDelete self => returning VPayload (SyncResource.delete self)
  | ResourceRefresh self =>
      returning (fun _ => VNone) (SyncResource.refresh self)
  | ResourceIsValid self raise_exception =>
      returning VBool (SyncResource.is_valid self raise_exception)
  | ResourceExecute self operation method data params =>
      returning VPayload
        (SyncResource.execute self operation method data params)
  | ReferenceToResource self =>
      returning VPayload (SyncReference.to_resource self)
  | ReferenceExecute self operation method data params rs =>
      returning (of_returned rs)
        (SyncReference.execute self operation method data params rs)
  end.

Definition run_async `{Externals} (op : operation) : M value :=
  match op with
  | ClientExecute self path method data params rs =>
      returning (of_returned rs)
        (AsyncClient.execute self path method data params rs)
  | ClientDoRequest self method path data params rs =>
      returning (of_returned rs)
        (AsyncClient._do_request self method path data params rs)
  | ClientFetchResource self path params =>
      returning VPayload (AsyncClient._fetch_resource self path params)
  | SearchFetch self => returning VResources (AsyncSearchSet.fetch self)
  | SearchFetchRaw self => returning VPayload (AsyncSearchSet.fetch_raw self)
  | SearchFetchAll fuel self =>
      returning VResources (AsyncSearchSet.fetch_all fuel self)
  | SearchIterate fuel self =>
      returning VResources (AsyncSearchSet.__aiter__ fuel self JNull)
  | SearchGet self id => returning VPayload (AsyncSearchSet.get self id)
  | SearchCount self => returning VPayload (AsyncSearchSet.count self)
  | SearchFirst self => returning VPayload (AsyncSearchSet.first self)
  | SearchGetOrCreate self resource =>
      returning (fun r => VWithCreated (fst r) (snd r))
        (AsyncSearchSet.get_or_create self resource)
  | SearchUpdate self resource =>
      returning (fun r => VWithCreated (fst r) (snd r))
        (AsyncSearchSet.update self resource)
  | SearchPatch self resource =>
      returning VPayload (AsyncSearchSet.patch self resource)
  | SearchDelete self =>
      returning (of_returned true) (AsyncSearchSet.delete self)
  | ResourceSave self fields search_params =>
      returning (fun _ => VNone) (AsyncResource.save self fields search_params)
  | ResourceCreate self kwargs =>
      returning VSelf (AsyncResource.create self kwargs)
  | ResourceUpdate self => returning (fun _ => VNone) (AsyncResource.update self)
  | ResourcePatch self kwargs =>
      returning (fun _ => VNone) (AsyncResource.patch self kwargs)
  | ResourceDelete self => returning VPayload (AsyncResource.delete self)
  | ResourceRefresh self =>
      returning (fun _ => VNone) (AsyncResource.refresh self)
  | ResourceIsValid self raise_exception =>
      returning VBool (AsyncResource.is_valid self raise_exception)
  | ResourceExecute self operation method data params =>
      returning VPayload
        (AsyncResource.execute self operation method data params false)
  | ReferenceToResource self =>
      returning VPayload (AsyncReference.to_resource self)
  | ReferenceExecute self operation method data params rs =>
      returning (of_returned rs)
        (AsyncReference.execute self operation method data params rs)
  end.







End Modes.

(** ** Constructing the clients *)

Module Construction.

(** [SyncClient.__init__], lines 159 to 166: the client and its
    [requests_config], in which a [timeout] is always present. *)
Definition SyncClient__init__ (url : string) (authorization : option string)
    (extra_headers : option (gmap string string))
    (requests_config : option (gmap string cfgval)) (timeout : json)
  : Client * gmap string cfgval :=
  let requests_config := default ∅ requests_config in
  let requests_config :=
    match requests_config !! "timeout" with
    | Some _ => requests_config
    | None => <["timeout" := CfgValue timeout]> requests_config
    end in
  (mkClient url authorization extra_headers ∅, requests_config).

(** [AsyncClient.__init__], lines 117 to 120. *)
Definition AsyncClient__init__ (url : string) (authorization : option string)
    (extra_headers : option (gmap string string))
    (aiohttp_config : option (gmap string cfgval)) : Client :=
  mkClient url authorization extra_headers (default ∅ aiohttp_config).

End Construction.

(** ** What an operation does to the world *)

Module Effects.
Import Modes.

(** The client an operation talks through. *)
Definition client_of (op : operation) : Client :=
  match op with
  | ClientExecute self _ _ _ _ _ => self
  | ClientDoRequest self _ _ _ _ _ => self
  | ClientFetchResource self _ _ => self
  | SearchFetch self => ss_client self
  | SearchFetchRaw self => ss_client self
  | SearchFetchAll _ self => ss_client self
  | SearchIterate _ self => ss_client self
  | SearchGet self _ => ss_client self
  | SearchCount self => ss_client self
  | SearchFirst self => ss_client self
  | SearchGetOrCreate self _ => ss_client self
  | SearchUpdate self _ => ss_client self
  | SearchPatch self _ => ss_client self
  | SearchDelete self => ss_client self
  | ResourceSave self _ _ => res_client self
  | ResourceCreate self _ => res_client self
  | ResourceUpdate self => res_client self
  | ResourcePatch self _ => res_client self
  | ResourceDelete self => res_client self
  | ResourceRefresh self => res_client self
  | ResourceIsValid self _ => res_client self
  | ResourceExecute self _ _ _ _ => res_client self
  | ReferenceToResource self => ref_client self
  | ReferenceExecute self _ _ _ _ _ => ref_client self
  end.

(** How many transport calls an operation may make: one per page for
    the drained iteration, one for every other operation. *)
Definition call_bound (op : operation) : nat :=
  match op with
  | SearchFetchAll fuel _ => fuel
  | SearchIterate fuel _ => fuel
  | _ => 1%nat
  end.

(** The operations that write to the resource container. *)
Definition writes_container (op : operation) : bool :=
  match op with
  | ResourceSave _ _ _ => true
  | ResourceCreate _ _ => true
  | ResourceUpdate _ => true
  | ResourcePatch _ _ => true
  | ResourceRefresh _ => true
  | _ => false
  end.

(** The URL of a request contains the client's base URL, trailing
    slashes stripped. *)
Definition on_base (self : Client) (rq : Request) : Prop :=
  Text.Substring (Text.rstrip_slash (url self)) (rq_url rq).

(** A computation only appends to the log of requests: at most [n]
    requests, each satisfying [P]; it leaves the transport as it is. *)
Definition emits (P : Request -> Prop) (n : nat) {A} (m : M A) : Prop :=
  forall w, exists l,
    sent (snd (m w)) = (sent w ++ l)%list
    /\ Forall P l
    /\ (List.length l <= n)%nat
    /\ net (snd (m w)) = net w.

(** A computation leaves the resource container as it is. *)
Definition keeps_container {A} (m : M A) : Prop :=
  forall w, container (snd (m w)) = container w.

(** An issue of an OperationOutcome with a textual severity. *)
Definition issue_severity (issue : json) : option string :=
  match issue with
  | JObj m => match Dict.get "severity" m with
              | Some (JStr s) => Some s
              | _ => None
              end
  | _ => None
  end.

Definition is_error_issue (issue : json) : bool :=
  match issue_severity issue with
  | Some s => String.eqb s "fatal" || String.eqb s "error"
  | None => false
  end.

(** The error with which an operation is turned down before it builds
    any request: a reference that is not local (lines 538, 546, 561 and
    569), a search set handed a resource of another type (the assertions
    of lines 262, 271, 279, 358, 367 and 375). *)
Definition refused (op : operation) : option exn :=
  match op with
  | ReferenceToResource self =>
      if is_local self then None
      else Some (ResourceNotFound "Can not resolve not local resource")
  | ReferenceExecute self _ _ _ _ _ =>
      if is_local self then None
      else Some (ResourceNotFound "Can not execute on not local resource")
  | SearchGetOrCreate self resource
  | SearchUpdate self resource
  | SearchPatch self resource =>
      if String.eqb (res_resource_type resource) (ss_resource_type self)
      then None
      else Some AssertionError
  | _ => None
  end.

End Effects.

(** * Properties *)

Section TextFacts.
Import Text.

Lemma append_cons c s t : String c s ++ t = String c (s ++ t).
Proof. reflexivity. Qed.

Lemma startswith_spec p s :
  startswith p s = true <-> exists post, s = p ++ post.
Proof.
  revert s. induction p as [|a p IH]; intros s.
  - split; [intros _; exists s; reflexivity | reflexivity].
  - destruct s as [|b s]; simpl.
    + split; [discriminate | intros [post Hp]; discriminate].
    + rewrite andb_true_iff, IH. split.
      * intros [Hab [post ->]]. apply Ascii.eqb_eq in Hab as ->.
        exists post. reflexivity.
      * intros [post Hp]. rewrite append_cons in Hp. injection Hp as -> ->.
        split; [apply Ascii.eqb_refl | eauto].
Qed.

(** [contains] decides the substring relation. *)
Lemma contains_spec sub s : contains sub s = true <-> Substring sub s.
Proof.
  unfold Substring. induction s as [|c s IH]; simpl.
  - rewrite orb_false_r, startswith_spec. split.
    + intros [post Hp]. exists "", post. exact Hp.
    + intros [pre [post Hp]]. destruct pre; [eauto | discriminate].
  - rewrite orb_true_iff, startswith_spec, IH. split.
    + intros [[post Hp] | [pre [post Hp]]].
      * exists "", post. exact Hp.
      * exists (String c pre), post. rewrite Hp. reflexivity.
    + intros [pre [post Hp]]. destruct pre as [|a pre].
      * left. exists post. exact Hp.
      * right. rewrite append_cons in Hp. injection Hp as -> ->. eauto.
Qed.

Lemma contains_false sub s : contains sub s = false <-> ~ Substring sub s.
Proof.
  rewrite <- contains_spec. destruct (contains sub s); split; congruence.
Qed.

End TextFacts.

Section UrlBuilder.
Context {E : Externals}.
Import Text Url AbstractClient Spec.

(** An absolute path passed the validation of [yarl.URL], so reading its
    port cannot raise. *)
Lemma absolute_port_defined path :
  URL_is_absolute path = Ret true ->
  exists p, port (urlparse path) = Ret p.
Proof.
  unfold URL_is_absolute.
  destruct (String.eqb (netloc (urlparse path)) ""); [discriminate|].
  destruct (String.eqb (fst (hostinfo (netloc (urlparse path)))) "");
    [discriminate|].
  destruct (port (urlparse path)) as [p| |]; try discriminate. eauto.
Qed.

(** On an absolute path the builder returns the normalised path when it
    passes the containment check and raises the security error
    otherwise; [params] plays no part. *)
Lemma build_absolute self path params base_port :
  URL_is_absolute path = Ret true ->
  port (urlparse (url self)) = Ret base_port ->
  _build_request_url self path params =
    if contains (rstrip_slash (url self))
                (rstrip_slash (normalized_path self path))
    then Ret (normalized_path self path)
    else Raise (ValueError
                  (security_message (normalized_path self path) (url self))).
Proof.
  intros Habs Hbase. destruct (absolute_port_defined _ Habs) as [pp Hpp].
  unfold _build_request_url, normalized_path, base_has_port, has_no_port.
  rewrite Habs, Hbase, Hpp. cbn.
  destruct base_port as [n|]; cbn; [|reflexivity].
  destruct (n =? 0); cbn; [reflexivity|].
  destruct pp as [q|]; cbn; [reflexivity|].
  destruct (String.eqb (scheme (urlparse path)) "https"); reflexivity.
Qed.

(** C1: for an absolute request path the URL builder raises the security
    error (a [ValueError]) exactly when the normalised path, trailing
    slashes stripped, does not contain the base URL, trailing slashes
    stripped, as a substring; when it does, the normalised path is
    returned whatever the [params] argument is. *)
Theorem build_request_url_containment
    self path params base_port :
  URL_is_absolute path = Ret true ->
  port (urlparse (url self)) = Ret base_port ->
  let base := rstrip_slash (url self) in
  let normalized := normalized_path self path in
  (_build_request_url self path params
     = Raise (ValueError (security_message normalized (url self)))
   <-> ~ Substring base (rstrip_slash normalized))
  /\ (Substring base (rstrip_slash normalized) ->
      forall params', _build_request_url self path params' = Ret normalized)
  /\ (forall e, _build_request_url self path params = Raise e ->
      e = ValueError (security_message normalized (url self))).
Proof.
  intros Habs Hbase base normalized.
  assert (Hb : forall ps, _build_request_url self path ps =
               if contains base (rstrip_slash normalized)
               then Ret normalized
               else Raise (ValueError (security_message normalized (url self))))
    by (intros ps; exact (build_absolute self path ps base_port Habs Hbase)).
  rewrite <- contains_false.
  repeat split.
  - rewrite Hb. destruct (contains base (rstrip_slash normalized));
      [discriminate | reflexivity].
  - intros Hc. rewrite Hb, Hc. reflexivity.
  - intros Hs ps. apply contains_spec in Hs. rewrite Hb.
    fold base normalized. rewrite Hs. reflexivity.
  - intros e. rewrite Hb.
    destruct (contains base (rstrip_slash normalized)); congruence.
Qed.

End UrlBuilder.

Ltac munfold :=
  unfold mbind, mret, M_bind, M_ret, lift, raise, out_of_fuel, get_config,
    set_config, get_container, set_container, transport_call in *.

Ltac wsimpl := cbn [net sent requests_config container fst snd] in *.

Section Requests.
Context {E : Externals}.
Import Text Url AbstractClient Spec.

Lemma sync_url_error self method path data params rs w e :
  _build_request_url self path params = Raise e ->
  SyncClient._do_request self method path data params rs w = (Raise e, w).
Proof.
  intros Hu. unfold SyncClient._do_request. munfold. rewrite Hu. reflexivity.
Qed.

Lemma async_url_error self method path data params rs w e :
  _build_request_url self path params = Raise e ->
  AsyncClient._do_request self method path data params rs w = (Raise e, w).
Proof.
  intros Hu. unfold AsyncClient._do_request. munfold. rewrite Hu. reflexivity.
Qed.

Lemma port_terminates r : port r <> OutOfFuel.
Proof.
  unfold port.
  repeat match goal with
         | |- context [if ?b then _ else _] => destruct b
         end; discriminate.
Qed.

Lemma is_absolute_terminates s : URL_is_absolute s <> OutOfFuel.
Proof.
  unfold URL_is_absolute.
  pose proof (port_terminates (urlparse s)).
  repeat match goal with
         | |- context [if ?b then _ else _] => destruct b
         end; try discriminate.
  destruct (port (urlparse s)); congruence.
Qed.

(** The builder has no loop: it never runs out of fuel. *)
Lemma build_url_terminates self path params :
  _build_request_url self path params <> OutOfFuel.
Proof.
  unfold _build_request_url, URL_path.
  pose proof (is_absolute_terminates path).
  pose proof (is_absolute_terminates (url self)).
  pose proof (port_terminates (urlparse path)).
  pose proof (port_terminates (urlparse (url self))).
  destruct (URL_is_absolute path) as [[|]| |]; cbn; try congruence.
  - destruct (port (urlparse (url self))) as [[n|]| |]; cbn; try congruence.
    + destruct (negb (n =? 0)); cbn.
      * destruct (port (urlparse path)) as [[m|]| |]; cbn; try congruence.
        -- destruct (contains _ _); discriminate.
        -- destruct (String.eqb _ _); cbn; destruct (contains _ _);
             discriminate.
      * destruct (contains _ _); discriminate.
    + destruct (contains _ _); discriminate.
  - destruct (URL_is_absolute (url self)) as [[|]| |]; cbn; try congruence.
Qed.

(** The response handling written in both [_do_request] bodies is
    [classify]. *)
Lemma classify_run rs r w :
  (if (200 <=? status_code r) && (status_code r <? 300) then
     r_data ← (if String.eqb (content r) "" then mret JNull
               else lift (loads (content r)));
     mret (with_status rs r_data (status_code r))
   else if (status_code r =? 404) || (status_code r =? 410) then
     raise (ResourceNotFound (content r))
   else if status_code r =? 412 then
     raise (MultipleResourcesFound (content r))
   else
     let data := content r in
     lift (try_except_KeyError_JSONDecodeError
             (parsed_data ← loads data;
              resource_type ← subscript parsed_data "resourceType";
              if eq_str resource_type "OperationOutcome"
              then Raise (OperationOutcome None (Some parsed_data))
              else Raise (OperationOutcome (Some data) None))
             (Raise (OperationOutcome (Some data) None)))) w
  = (classify rs r, w).
Proof.
  unfold classify. munfold.
  destruct ((200 <=? status_code r) && (status_code r <? 300)).
  - destruct (String.eqb (content r) ""); [reflexivity|].
    destruct (loads (content r)); reflexivity.
  - destruct ((status_code r =? 404) || (status_code r =? 410)); [reflexivity|].
    destruct (status_code r =? 412); reflexivity.
Qed.

(** A blocking request whose URL builds: one transport call, classified. *)
Lemma sync_run self method path data params rs w u :
  session_ok (requests_config w) ->
  _build_request_url self path params = Ret u ->
  let rq := sync_request self method u data (requests_config w) in
  let o := net w (sent w) rq in
  SyncClient._do_request self method path data params rs w =
    (o ≫= classify rs,
     mkWorld (net w) (sent w ++ [rq]) (config_after (requests_config w) o)
             (container w)).
Proof.
  intros Hs Hu rq o. unfold SyncClient._do_request.
  unfold mbind at 1, M_bind at 1, lift at 1. rewrite Hu.
  unfold mbind at 1, M_bind at 1, get_config at 1.
  unfold mbind at 1, M_bind at 1, set_config at 1. wsimpl.
  unfold mbind at 1, M_bind at 1.
  subst o rq. unfold sync_request, config_after, session_ok, sync_headers in *.
  destruct w as [t snt cfg cont]; wsimpl.
  assert (Hh : (if String.eqb method "patch"
     then <["Content-Type":="application/json-patch+json"]>
            (<["Content-Type":="application/fhir+json"]>
               (_build_request_headers self))
     else <["Content-Type":="application/fhir+json"]>
            (_build_request_headers self))
     = <["Content-Type":=if String.eqb method "patch"
                         then "application/json-patch+json"
                         else "application/fhir+json"]>
         (_build_request_headers self)).
  { destruct (String.eqb method "patch");
      [apply insert_insert_eq | reflexivity]. }
  rewrite Hh. clear Hh.
  destruct (cfg !! "session") as [[h|v]|] eqn:Hsess.
  - munfold. wsimpl.
    match goal with
    | |- context [t snt ?q] => destruct (t snt q) as [resp| |]
    end; cbn; try reflexivity.
    rewrite insert_delete_eq, (insert_id _ _ _ Hsess).
    apply classify_run.
  - rewrite Hs. munfold. wsimpl.
    match goal with
    | |- context [t snt ?q] => destruct (t snt q) as [resp| |]
    end; cbn; try reflexivity.
    rewrite classify_run. reflexivity.
  - munfold. wsimpl.
    match goal with
    | |- context [t snt ?q] => destruct (t snt q) as [resp| |]
    end; cbn; try reflexivity.
    rewrite classify_run. reflexivity.
Qed.

(** A blocking request whose [session] entry is a truthy value that is
    not a session object: no transport call, the entry is gone. *)
Lemma sync_bad_session self method path data params rs w u v :
  _build_request_url self path params = Ret u ->
  requests_config w !! "session" = Some (CfgValue v) ->
  truthy v = true ->
  SyncClient._do_request self method path data params rs w =
    (Raise (AttributeError "object has no attribute 'request'"),
     mkWorld (net w) (sent w) (delete "session" (requests_config w))
             (container w)).
Proof.
  intros Hu Hs Hv. unfold SyncClient._do_request.
  unfold mbind at 1, M_bind at 1, lift at 1. rewrite Hu.
  unfold mbind at 1, M_bind at 1, get_config at 1.
  unfold mbind at 1, M_bind at 1, set_config at 1. wsimpl.
  unfold mbind at 1, M_bind at 1. rewrite Hs, Hv. reflexivity.
Qed.

(** A deferred request whose URL builds: one transport call, classified. *)
Lemma async_run self method path data params rs w u :
  _build_request_url self path params = Ret u ->
  let rq := async_request self method u data in
  AsyncClient._do_request self method path data params rs w =
    (net w (sent w) rq ≫= classify rs,
     mkWorld (net w) (sent w ++ [rq]) (requests_config w) (container w)).
Proof.
  intros Hu rq. unfold AsyncClient._do_request.
  unfold mbind at 1, M_bind at 1, lift at 1. rewrite Hu.
  unfold mbind at 1, M_bind at 1, transport_call at 1.
  subst rq. unfold async_request, async_headers.
  destruct (net w (sent w) _) as [resp| |]; cbn; try reflexivity.
  apply classify_run.
Qed.

End Requests.

Section Classification.
Context {E : Externals}.
Import Text Url AbstractClient Spec.

Lemma is_2xx_test status :
  is_2xx status -> (200 <=? status) && (status <? 300) = true.
Proof. unfold is_2xx. lia. Qed.

Lemma not_2xx_test status :
  ~ is_2xx status -> (200 <=? status) && (status <? 300) = false.
Proof. unfold is_2xx. lia. Qed.

Lemma classify_2xx_body rs r v :
  is_2xx (status_code r) -> content r <> "" ->
  json_loads (content r) = Some v ->
  classify rs r = Ret (with_status rs v (status_code r)).
Proof.
  intros H2 Hne Hv. unfold classify, loads.
  rewrite (is_2xx_test _ H2), Hv.
  destruct (String.eqb_spec (content r) ""); [contradiction | reflexivity].
Qed.

Lemma classify_2xx_undecodable rs r :
  is_2xx (status_code r) -> content r <> "" ->
  json_loads (content r) = None ->
  classify rs r = Raise JSONDecodeError.
Proof.
  intros H2 Hne Hv. unfold classify, loads.
  rewrite (is_2xx_test _ H2), Hv.
  destruct (String.eqb_spec (content r) ""); [contradiction | reflexivity].
Qed.

Lemma classify_2xx_empty rs r :
  is_2xx (status_code r) -> content r = "" ->
  classify rs r = Ret (with_status rs JNull (status_code r)).
Proof.
  intros H2 He. unfold classify.
  rewrite (is_2xx_test _ H2), He. reflexivity.
Qed.

Lemma classify_not_found rs r :
  status_code r = 404 \/ status_code r = 410 ->
  classify rs r = Raise (ResourceNotFound (content r)).
Proof.
  intros Hs. unfold classify.
  rewrite not_2xx_test by (unfold is_2xx; lia).
  replace ((status_code r =? 404) || (status_code r =? 410)) with true by lia.
  reflexivity.
Qed.

Lemma classify_multiple rs r :
  status_code r = 412 ->
  classify rs r = Raise (MultipleResourcesFound (content r)).
Proof.
  intros Hs. unfold classify. rewrite Hs. reflexivity.
Qed.

(** What the last branch of the classification raises, by what the body
    decodes to. *)
Lemma classify_other rs r :
  ~ is_2xx (status_code r) ->
  status_code r <> 404 -> status_code r <> 410 -> status_code r <> 412 ->
  classify rs r =
    match json_loads (content r) with
    | None => Raise (OperationOutcome (Some (content r)) None)
    | Some parsed =>
        match subscript parsed "resourceType" with
        | Ret resource_type =>
            if eq_str resource_type "OperationOutcome"
            then Raise (OperationOutcome None (Some parsed))
            else Raise (OperationOutcome (Some (content r)) None)
        | Raise (KeyError _) => Raise (OperationOutcome (Some (content r)) None)
        | Raise e => Raise e
        | OutOfFuel => OutOfFuel
        end
    end.
Proof.
  intros H2 H404 H410 H412. unfold classify, loads.
  rewrite (not_2xx_test _ H2).
  replace ((status_code r =? 404) || (status_code r =? 410)) with false by lia.
  replace (status_code r =? 412) with false by lia.
  destruct (json_loads (content r)) as [parsed|]; cbn; [|reflexivity].
  destruct parsed as [| | | | |l|m]; cbn; try reflexivity.
  destruct (Dict.get "resourceType" m) as [v|]; cbn; [|reflexivity].
  destruct (eq_str v "OperationOutcome"); reflexivity.
Qed.

(** C2: the status classification of [_do_request], blocking and
    deferred, for a call without [returning_status] and for a call with
    it.  A 2xx response with a non-empty body that decodes returns the
    decoded body, paired with the status code when requested; a 2xx
    response with a non-empty body that does not decode raises the
    decoder's [JSONDecodeError]; a 2xx response with an empty body
    returns [None], paired with the status code when requested; 404 and
    410 raise [ResourceNotFound] and 412 raises [MultipleResourcesFound],
    both carrying the raw body. *)
Theorem status_classification self method path data params w u r :
  _build_request_url self path params = Ret u ->
  session_ok (requests_config w) ->
  answers (net w) r ->
  let sync :=
    fst (SyncClient._do_request self method path data params false w) in
  let sync_with_status :=
    fst (SyncClient._do_request self method path data params true w) in
  let async :=
    fst (AsyncClient._do_request self method path data params false w) in
  let async_with_status :=
    fst (AsyncClient._do_request self method path data params true w) in
  (forall v, is_2xx (status_code r) -> content r <> "" ->
             json_loads (content r) = Some v ->
             sync = Ret v
             /\ sync_with_status = Ret (v, status_code r)
             /\ async = Ret v
             /\ async_with_status = Ret (v, status_code r))
  /\ (is_2xx (status_code r) -> content r <> "" ->
      json_loads (content r) = None ->
      sync = Raise JSONDecodeError
      /\ sync_with_status = Raise JSONDecodeError
      /\ async = Raise JSONDecodeError
      /\ async_with_status = Raise JSONDecodeError)
  /\ (is_2xx (status_code r) -> content r = "" ->
      sync = Ret JNull
      /\ sync_with_status = Ret (JNull, status_code r)
      /\ async = Ret JNull
      /\ async_with_status = Ret (JNull, status_code r))
  /\ (status_code r = 404 \/ status_code r = 410 ->
      sync = Raise (ResourceNotFound (content r))
      /\ sync_with_status = Raise (ResourceNotFound (content r))
      /\ async = Raise (ResourceNotFound (content r))
      /\ async_with_status = Raise (ResourceNotFound (content r)))
  /\ (status_code r = 412 ->
      sync = Raise (MultipleResourcesFound (content r))
      /\ sync_with_status = Raise (MultipleResourcesFound (content r))
      /\ async = Raise (MultipleResourcesFound (content r))
      /\ async_with_status = Raise (MultipleResourcesFound (content r))).
Proof.
  intros Hu Hs Ha sync sync_with_status async async_with_status.
  subst sync sync_with_status async async_with_status.
  rewrite !(sync_run _ _ _ _ _ _ _ _ Hs Hu), !(async_run _ _ _ _ _ _ _ _ Hu).
  cbn [fst]. rewrite !Ha. cbn [mbind outcome_bind].
  split; [|split; [|split; [|split]]].
  - intros v H2 Hne Hv.
    rewrite (classify_2xx_body false r v H2 Hne Hv),
      (classify_2xx_body true r v H2 Hne Hv).
    repeat split.
  - intros H2 Hne Hv.
    rewrite (classify_2xx_undecodable false r H2 Hne Hv),
      (classify_2xx_undecodable true r H2 Hne Hv).
    repeat split.
  - intros H2 He.
    rewrite (classify_2xx_empty false r H2 He),
      (classify_2xx_empty true r H2 He).
    repeat split.
  - intros H404.
    rewrite (classify_not_found false r H404),
      (classify_not_found true r H404).
    repeat split.
  - intros H412.
    rewrite (classify_multiple false r H412),
      (classify_multiple true r H412).
    repeat split.
Qed.

(** In the last branch a body that does not decode, or decodes to an
    object, always ends in [OperationOutcome]; a body that decodes to
    anything else lets the [TypeError] of the subscript through. *)
Lemma other_status_outcomes self method path data params rs w u r :
  _build_request_url self path params = Ret u ->
  session_ok (requests_config w) ->
  answers (net w) r ->
  ~ is_2xx (status_code r) ->
  status_code r <> 404 -> status_code r <> 410 -> status_code r <> 412 ->
  let sync := fst (SyncClient._do_request self method path data params rs w) in
  let async := fst (AsyncClient._do_request self method path data params rs w) in
  sync = async
  /\ (json_loads (content r) = None ->
      sync = Raise (OperationOutcome (Some (content r)) None))
  /\ (forall m, json_loads (content r) = Some (JObj m) ->
      sync = if match Dict.get "resourceType" m with
                | Some v => eq_str v "OperationOutcome"
                | None => false
                end
             then Raise (OperationOutcome None (Some (JObj m)))
             else Raise (OperationOutcome (Some (content r)) None))
  /\ (forall v, json_loads (content r) = Some v ->
      (forall m, v <> JObj m) ->
      exists msg, sync = Raise (TypeError msg)).
Proof.
  intros Hu Hs Ha H2 H404 H410 H412 sync async. subst sync async.
  rewrite (sync_run _ _ _ _ _ _ _ _ Hs Hu), (async_run _ _ _ _ _ _ _ _ Hu).
  cbn [fst]. rewrite !Ha. cbn [mbind outcome_bind].
  rewrite (classify_other rs r H2 H404 H410 H412).
  repeat split.
  - intros ->. reflexivity.
  - intros m ->. cbn. destruct (Dict.get "resourceType" m) as [v|]; cbn;
      [destruct (eq_str v "OperationOutcome")|]; reflexivity.
  - intros v -> Hv. destruct v; cbn; eauto. destruct (Hv _ eq_refl).
Qed.

End Classification.

Section UrlReparse.
Context {E : Externals}.
Import Text Url AbstractClient Spec.

Lemma string_app_nil_r s : s ++ "" = s.
Proof. induction s as [|c s IH]; [reflexivity|]. rewrite append_cons, IH. reflexivity. Qed.

Lemma string_app_assoc s t u : (s ++ t) ++ u = s ++ t ++ u.
Proof.
  induction s as [|c s IH]; [reflexivity|]. rewrite !append_cons, IH. reflexivity.
Qed.

Lemma mem_char_app c s t : mem_char c (s ++ t) = mem_char c s || mem_char c t.
Proof.
  induction s as [|a s IH]; [reflexivity|].
  rewrite append_cons. cbn [mem_char]. rewrite IH, orb_assoc. reflexivity.
Qed.

(** [break_at] splits at the first occurrence. *)
Lemma break_at_some c s l r :
  break_at c s = Some (l, r) -> s = l ++ String c r /\ mem_char c l = false.
Proof.
  revert l. induction s as [|a s IH]; intros l; cbn [break_at]; [discriminate|].
  destruct (Ascii.eqb_spec a c) as [->|Hac].
  - intros [= <- <-]. split; reflexivity.
  - destruct (break_at c s) as [[l' r']|]; [|discriminate].
    intros [= <- <-]. destruct (IH l' eq_refl) as [-> Hl].
    split; [reflexivity|]. cbn [mem_char]. rewrite Hl.
    destruct (Ascii.eqb_spec a c); [contradiction|reflexivity].
Qed.

Lemma break_at_none c s : break_at c s = None <-> mem_char c s = false.
Proof.
  induction s as [|a s IH]; cbn [break_at mem_char]; [tauto|].
  destruct (Ascii.eqb a c); cbn; [split; discriminate|].
  destruct (break_at c s) as [[l r]|]; [|tauto].
  split; [discriminate|]. intros Hm. apply IH in Hm. discriminate.
Qed.

Lemma break_at_first c l r :
  mem_char c l = false -> break_at c (l ++ String c r) = Some (l, r).
Proof.
  induction l as [|a l IH]; cbn [mem_char]; intros Hm.
  - change ("" ++ String c r) with (String c r). cbn [break_at].
    rewrite Ascii.eqb_refl. reflexivity.
  - apply orb_false_iff in Hm as [Ha Hl]. rewrite append_cons. cbn [break_at].
    rewrite Ha, (IH Hl). reflexivity.
Qed.

Lemma split_at_first c l r :
  mem_char c l = false -> split_at c (l ++ String c r) = (l, r).
Proof. intros Hm. unfold split_at. rewrite (break_at_first _ _ _ Hm). reflexivity. Qed.

Lemma split_at_absent c s : mem_char c s = false -> split_at c s = (s, "").
Proof.
  intros Hm. unfold split_at. apply break_at_none in Hm. rewrite Hm. reflexivity.
Qed.

(** What [split_at] returns, in both cases. *)
Lemma split_at_spec c s l r :
  split_at c s = (l, r) ->
  mem_char c l = false
  /\ (s = l ++ String c r \/ (s = l /\ r = "")).
Proof.
  unfold split_at. destruct (break_at c s) as [[l' r']|] eqn:Hb.
  - intros [= <- <-]. apply break_at_some in Hb as [-> Hl]. auto.
  - intros [= <- <-]. apply break_at_none in Hb. auto.
Qed.

Lemma span_spec p s l r :
  span p s = (l, r) ->
  s = l ++ r /\ forallb p l = true
  /\ match r with String c _ => p c = false | "" => True end.
Proof.
  revert l. induction s as [|a s IH]; intros l; cbn [span].
  - intros [= <- <-]. repeat split.
  - destruct (p a) eqn:Hp.
    + destruct (span p s) as [l' r']. intros [= <- <-].
      destruct (IH l' eq_refl) as (-> & Hl & Hr).
      repeat split; [cbn; rewrite Hp, Hl; reflexivity|exact Hr].
    + intros [= <- <-]. repeat split. exact Hp.
Qed.

Lemma span_app p l r :
  forallb p l = true ->
  match r with String c _ => p c = false | "" => True end ->
  span p (l ++ r) = (l, r).
Proof.
  intros Hl Hr. induction l as [|a l IH].
  - change ("" ++ r) with r. destruct r as [|c r]; cbn [span];
      [reflexivity|]. rewrite Hr. reflexivity.
  - cbn in Hl. apply andb_true_iff in Hl as [Ha Hl].
    rewrite append_cons. cbn [span]. rewrite Ha, (IH Hl). reflexivity.
Qed.

Lemma forallb_app p l r : forallb p (l ++ r) = forallb p l && forallb p r.
Proof.
  induction l as [|a l IH]; [reflexivity|].
  rewrite append_cons. cbn [forallb]. rewrite IH, andb_assoc. reflexivity.
Qed.

Lemma split_params_prefix p p' prm :
  split_params p = (p', prm) -> p' = p \/ p = p' ++ String ";" prm.
Proof.
  unfold split_params. destruct (rbreak_at "/" p) as [[dir last]|] eqn:Hr.
  - destruct (break_at ";" last) as [[l r]|] eqn:Hb; intros [= <- <-]; auto.
    right. apply break_at_some in Hb as [-> _].
    assert (Hp : forall s d t, rbreak_at "/" s = Some (d, t) -> s = d ++ String "/" t).
    { clear. induction s as [|a s IH]; intros d t; cbn [rbreak_at]; [discriminate|].
      destruct (rbreak_at "/" s) as [[d' t']|].
      - intros [= <- <-]. rewrite (IH d' t' eq_refl). reflexivity.
      - destruct (Ascii.eqb_spec a "/") as [->|]; [|discriminate].
        intros [= <- <-]. reflexivity. }
    rewrite (Hp _ _ _ Hr). rewrite !string_app_assoc. reflexivity.
  - intros Hs. apply split_at_spec in Hs as [_ [->|[-> _]]]; auto.
Qed.

(** The components [urlparse] returns, for a URL with a host. *)
Lemma urlparse_components url :
  let parsed := urlparse url in
  netloc parsed <> "" ->
  forallb is_netloc_char (netloc parsed) = true
  /\ (Url.path parsed = "" \/ exists rest, Url.path parsed = String "/" rest)
  /\ mem_char "?" (Url.path parsed) = false
  /\ mem_char "#" (Url.path parsed) = false
  /\ mem_char "#" (query parsed) = false.
Proof.
  unfold urlparse.
  destruct (split_scheme url) as [sch u1].
  destruct (split_netloc u1) as [loc u2] eqn:Hloc.
  destruct (split_at "#" u2) as [u3 frag] eqn:Hfrag.
  destruct (split_at "?" u3) as [pth qry] eqn:Hqry.
  set (split := if bool_decide (sch ∈ uses_params) && mem_char ";" pth
                then split_params pth else (pth, "")).
  destruct split as [pth' prm] eqn:Hsplit. cbn [netloc Url.path query].
  intros Hne.
  unfold split_netloc in Hloc.
  destruct (startswith "//" u1); [|injection Hloc as <- <-; contradiction].
  apply span_spec in Hloc as (_ & Hnet & Hu2).
  apply split_at_spec in Hfrag as [Hu3 Hfrag].
  apply split_at_spec in Hqry as [Hpth Hqry].
  assert (Hparts : mem_char "#" pth = false /\ mem_char "#" qry = false).
  { destruct Hqry as [->|[-> ->]].
    - rewrite mem_char_app in Hu3. apply orb_false_iff in Hu3 as [H1 H2].
      cbn [mem_char] in H2. split; [exact H1|exact H2].
    - split; [exact Hu3|reflexivity]. }
  destruct Hparts as [Hpth_frag Hqry_frag].
  assert (Hstart : pth = "" \/ exists rest, pth = String "/" rest).
  { destruct pth as [|c rest]; [auto|right].
    assert (Hc : exists t, u2 = String c t).
    { destruct Hqry as [->|[-> _]]; destruct Hfrag as [->|[-> _]];
        rewrite ?append_cons; eauto. }
    destruct Hc as [t ->]. exists rest. f_equal.
    cbn [mem_char] in Hpth, Hpth_frag.
    apply orb_false_iff in Hpth as [Hq _].
    apply orb_false_iff in Hpth_frag as [Hf _].
    unfold is_netloc_char in Hu2. apply negb_false_iff in Hu2.
    cbn [mem_char] in Hu2. rewrite orb_false_r in Hu2.
    rewrite (Ascii.eqb_sym "?" c), (Ascii.eqb_sym "#" c) in Hu2.
    rewrite Hq, Hf, !orb_false_r in Hu2.
    apply Ascii.eqb_eq in Hu2. congruence. }
  assert (Hprefix : pth' = pth \/ pth = pth' ++ String ";" prm).
  { subst split. destruct (bool_decide (sch ∈ uses_params) && mem_char ";" pth).
    - apply split_params_prefix. exact Hsplit.
    - injection Hsplit as <- <-. auto. }
  split; [exact Hnet|].
  destruct Hprefix as [->|Hpre]; [auto|].
  rewrite Hpre in Hpth, Hpth_frag, Hstart.
  rewrite mem_char_app in Hpth, Hpth_frag.
  apply orb_false_iff in Hpth as [Hpth _].
  apply orb_false_iff in Hpth_frag as [Hpth_frag _].
  repeat split; try assumption.
  destruct pth' as [|c rest]; [auto|right].
  destruct Hstart as [Hs|[rest' Hs]]; [discriminate|].
  rewrite append_cons in Hs. injection Hs as -> _. eauto.
Qed.

(** Parsing the rewritten URL again gives back the scheme, the path, the
    query and the fragment that went into it, with [:443] appended to
    the netloc, provided the path that went into it holds no [;].  The
    [params] component is empty whatever it was before. *)
Lemma port_rewrite_reparses url :
  let parsed := urlparse url in
  netloc parsed <> "" ->
  scheme parsed = "https" ->
  mem_char ";" (Url.path parsed) = false ->
  urlparse (with_default_port parsed)
  = mkParse "https" (netloc parsed ++ ":443") (Url.path parsed) ""
            (query parsed) (fragment parsed).
Proof.
  intros parsed Hne Hsch Hsemi.
  destruct (urlparse_components url Hne) as (Hnet & Hstart & Hq & Hf & Hqf).
  fold parsed in Hnet, Hstart, Hq, Hf, Hqf.
  set (tail := if negb (String.eqb (fragment parsed) "")
               then "#" ++ fragment parsed else "").
  assert (Hw : with_default_port parsed
               = "https" ++ "://" ++ (netloc parsed ++ ":443")
                 ++ Url.path parsed ++ "?" ++ query parsed ++ tail).
  { unfold with_default_port, tail. rewrite Hsch.
    destruct (negb (String.eqb (fragment parsed) ""));
      rewrite ?string_app_nil_r, !string_app_assoc; reflexivity. }
  rewrite Hw. clear Hw. unfold urlparse at 1.
  change (split_scheme ("https" ++ "://" ++ ?x)) with ("https", "//" ++ x).
  cbv beta iota.
  assert (Hloc : split_netloc ("//" ++ (netloc parsed ++ ":443")
                                 ++ Url.path parsed ++ "?" ++ query parsed
                                 ++ tail)
                 = (netloc parsed ++ ":443",
                    Url.path parsed ++ "?" ++ query parsed ++ tail)).
  { unfold split_netloc.
    change (startswith "//" ("//" ++ ?x)) with true.
    change (drop 2 ("//" ++ ?x)) with x. cbv iota.
    apply span_app.
    - rewrite forallb_app, Hnet. reflexivity.
    - destruct Hstart as [->|[rest ->]]; reflexivity. }
  rewrite Hloc. clear Hloc.
  assert (Hfrag : split_at "#" (Url.path parsed ++ "?" ++ query parsed ++ tail)
                  = (Url.path parsed ++ "?" ++ query parsed, fragment parsed)).
  { unfold tail. destruct (String.eqb_spec (fragment parsed) "") as [->|_];
      cbn [negb].
    - rewrite string_app_nil_r. apply split_at_absent.
      rewrite !mem_char_app, Hf, Hqf. reflexivity.
    - replace (Url.path parsed ++ "?" ++ query parsed ++ "#" ++ fragment parsed)
        with ((Url.path parsed ++ "?" ++ query parsed)
              ++ String "#" (fragment parsed))
        by (rewrite !string_app_assoc; reflexivity).
      apply split_at_first. rewrite !mem_char_app, Hf, Hqf. reflexivity. }
  rewrite Hfrag. clear Hfrag.
  change (Url.path parsed ++ "?" ++ query parsed)
    with (Url.path parsed ++ String "?" (query parsed)).
  rewrite (split_at_first _ _ _ Hq), Hsemi, andb_false_r. reflexivity.
Qed.

(** Outside the two defects the rewrite does what is asked of it: for a
    base URL with a non-zero port and an absolute [https] path without
    port whose path component holds no [;], the URL that is built parses
    to the same path, query and fragment, with port 443. *)
Lemma port_rewrite_preserves_components self path params :
  URL_is_absolute path = Ret true ->
  base_has_port self = true ->
  has_no_port (urlparse path) = true ->
  scheme (urlparse path) = "https" ->
  mem_char ";" (Url.path (urlparse path)) = false ->
  contains (rstrip_slash (url self))
           (rstrip_slash (with_default_port (urlparse path))) = true ->
  exists built,
    _build_request_url self path params = Ret built
    /\ netloc (urlparse built) = netloc (urlparse path) ++ ":443"
    /\ Url.path (urlparse built) = Url.path (urlparse path)
    /\ query (urlparse built) = query (urlparse path)
    /\ fragment (urlparse built) = fragment (urlparse path).
Proof.
  intros Habs Hbase Hnoport Hsch Hsemi Hin.
  assert (Hne : netloc (urlparse path) <> "").
  { unfold URL_is_absolute in Habs.
    destruct (String.eqb_spec (netloc (urlparse path)) ""); congruence. }
  assert (Hport : exists bp, port (urlparse (url self)) = Ret bp).
  { unfold base_has_port in Hbase.
    destruct (port (urlparse (url self))) as [bp| |]; eauto; discriminate. }
  destruct Hport as [bp Hbp].
  exists (with_default_port (urlparse path)).
  rewrite (build_absolute self path params bp Habs Hbp).
  assert (Hnorm : normalized_path self path
                  = with_default_port (urlparse path)).
  { unfold normalized_path. rewrite Hbase, Hnoport, Hsch. reflexivity. }
  rewrite Hnorm, Hin.
  rewrite (port_rewrite_reparses path Hne Hsch Hsemi).
  repeat split.
Qed.

End UrlReparse.

Section UrlBuilderExamples.
Import Text Url AbstractClient Spec.
#[local] Existing Instance Stubs.externals.

Lemma build_request_url_containment_witness :
  URL_is_absolute "https://example.com/fhir/Patient?_count=2" = Ret true
  /\ port (urlparse (url Sample.client)) = Ret (Some 443)
  /\ forall params,
       _build_request_url Sample.client
         "https://example.com/fhir/Patient?_count=2" params
       = Ret "https://example.com:443/fhir/Patient?_count=2".
Proof.
  split; [reflexivity|]. split; [reflexivity|].
  apply (proj1 (proj2 (build_request_url_containment Sample.client
           "https://example.com/fhir/Patient?_count=2" None (Some 443)
           eq_refl eq_refl))).
  apply contains_spec. reflexivity.
Defined.

Example foreign_host_rejected :
  exists msg,
    _build_request_url Sample.client "https://evil.example.org/fhir/Patient"
      None = Raise (ValueError msg).
Proof. eexists. reflexivity. Qed.

(** C8: with base URL [https://example.com:443/fhir] the absolute path
    [https://example.com/fhir/Patient;v=1?_count=1#top] is rewritten to
    carry [:443] and keeps its query and fragment, but the [;v=1] of its
    last path segment is gone from the URL that is returned. *)
Theorem port_rewrite_drops_path_params :
  _build_request_url Sample.client
    "https://example.com/fhir/Patient;v=1?_count=1#top" None
  = Ret "https://example.com:443/fhir/Patient?_count=1#top"
  /\ Url.path (urlparse "https://example.com/fhir/Patient;v=1?_count=1#top")
     = "/fhir/Patient"
  /\ Url.params (urlparse "https://example.com/fhir/Patient;v=1?_count=1#top")
     = "v=1"
  /\ contains ";v=1" "https://example.com:443/fhir/Patient?_count=1#top"
     = false.
Proof. repeat split; reflexivity. Qed.

Example port_rewrite_keeps_query_and_fragment :
  exists built,
    _build_request_url Sample.client
      "https://example.com/fhir/Patient?_count=2#top" None = Ret built
    /\ netloc (urlparse built) = "example.com:443"
    /\ Url.path (urlparse built) = "/fhir/Patient"
    /\ query (urlparse built) = "_count=2"
    /\ fragment (urlparse built) = "top".
Proof.
  apply (port_rewrite_preserves_components (E := Stubs.externals)
           Sample.client "https://example.com/fhir/Patient?_count=2#top" None);
    reflexivity.
Qed.

(** A base URL that declares port 0 is treated as declaring none: the
    path is checked as it was given. *)
Example port_zero_not_rewritten :
  port (urlparse "https://example.com:0/fhir") = Ret (Some 0)
  /\ normalized_path (mkClient "https://example.com:0/fhir" None None ∅)
       "https://example.com/fhir/Patient"
     = "https://example.com/fhir/Patient".
Proof. split; reflexivity. Qed.

End UrlBuilderExamples.

Section ClassificationExamples.
Import Text Url AbstractClient Spec.
#[local] Existing Instance Stubs.externals.

Lemma status_classification_witness :
  let w := Sample.world (Sample.always (mkResponse 200 "[1,2]")) in
  fst (SyncClient._do_request Sample.client "get" "Patient/42" JNull None
         false w)
  = Ret (JArr [JInt 1; JInt 2])
  /\ fst (SyncClient._do_request Sample.client "get" "Patient/42" JNull None
            true w)
     = Ret (JArr [JInt 1; JInt 2], 200)
  /\ fst (AsyncClient._do_request Sample.client "get" "Patient/42" JNull None
            false w)
     = Ret (JArr [JInt 1; JInt 2])
  /\ fst (AsyncClient._do_request Sample.client "get" "Patient/42" JNull None
            true w)
     = Ret (JArr [JInt 1; JInt 2], 200).
Proof.
  intros w.
  apply (proj1 (status_classification (E := Stubs.externals)
                  Sample.client "get" "Patient/42" JNull None w
                  "https://example.com:443/fhir/Patient/42?"
                  (mkResponse 200 "[1,2]")
                  eq_refl I (fun _ _ => eq_refl))
               (JArr [JInt 1; JInt 2])).
  - unfold is_2xx. cbn. lia.
  - discriminate.
  - reflexivity.
Defined.

(** C2: status 200 with a body that is not JSON.  The success branch
    decodes the body without a handler, so the call does not return: the
    decoder's [JSONDecodeError] leaves [_do_request], with and without
    [returning_status], blocking and deferred. *)
Theorem success_with_undecodable_body_raises :
  let w := Sample.world (Sample.always (mkResponse 200 "<html>")) in
  fst (SyncClient._do_request Sample.client "get" "Patient/42" JNull None
         false w)
  = Raise JSONDecodeError
  /\ fst (SyncClient._do_request Sample.client "get" "Patient/42" JNull None
            true w)
     = Raise JSONDecodeError
  /\ fst (AsyncClient._do_request Sample.client "get" "Patient/42" JNull None
            false w)
     = Raise JSONDecodeError
  /\ fst (AsyncClient._do_request Sample.client "get" "Patient/42" JNull None
            true w)
     = Raise JSONDecodeError.
Proof. repeat split. Qed.

(** C3: status 500 with body [[]], which is valid JSON but not an object:
    the subscript [parsed_data["resourceType"]] raises a [TypeError] that
    the handler for [KeyError] and [JSONDecodeError] does not catch, so an
    exception other than [OperationOutcome] leaves [_do_request]. *)
Theorem non_object_error_body_raises_type_error :
  fst (SyncClient._do_request Sample.client "get" "Patient/42" JNull None false
         (Sample.world (Sample.always (mkResponse 500 "[]"))))
  = Raise (TypeError "list indices must be integers or slices, not str")
  /\ fst (AsyncClient._do_request Sample.client "get" "Patient/42" JNull None
            false (Sample.world (Sample.always (mkResponse 500 "[]"))))
     = Raise (TypeError "list indices must be integers or slices, not str").
Proof. split; reflexivity. Qed.

Example operation_outcome_resource :
  fst (SyncClient._do_request Sample.client "get" "Patient/42" JNull None false
         (Sample.world
            (Sample.always
               (mkResponse 422
                  (Stubs.encode
                     (JObj [("resourceType", JStr "OperationOutcome");
                            ("issue", JArr [])]))))))
  = Raise (OperationOutcome None
             (Some (JObj [("resourceType", JStr "OperationOutcome");
                          ("issue", JArr [])]))).
Proof. reflexivity. Qed.

Example operation_outcome_reason :
  fst (SyncClient._do_request Sample.client "get" "Patient/42" JNull None false
         (Sample.world (Sample.always (mkResponse 500 "boom"))))
  = Raise (OperationOutcome (Some "boom") None).
Proof. reflexivity. Qed.

End ClassificationExamples.

Section Headers.
Context {E : Externals}.
Import Text Url AbstractClient Spec.

(** The headers built by [_build_request_headers], key by key. *)
Lemma build_request_headers_lookup self key :
  _build_request_headers self !! key = base_header self key.
Proof.
  unfold _build_request_headers, base_header.
  assert (Hown : forall hs : gmap string string,
            hs = match authorization self with
                 | Some a => if String.eqb a "" then {[ "Accept" := "application/fhir+json" ]}
                             else <["Authorization" := a]> {[ "Accept" := "application/fhir+json" ]}
                 | None => {[ "Accept" := "application/fhir+json" ]}
                 end ->
            hs !! key =
              if String.eqb key "Accept" then Some "application/fhir+json"
              else if String.eqb key "Authorization" then
                match authorization self with
                | Some a => if String.eqb a "" then None else Some a
                | None => None
                end
              else None).
  { intros hs ->.
    destruct (String.eqb_spec key "Accept") as [->|Hacc].
    - destruct (authorization self) as [a|]; [destruct (String.eqb a "")|];
        reflexivity.
    - destruct (String.eqb_spec key "Authorization") as [->|Hauth].
      + destruct (authorization self) as [a|]; [destruct (String.eqb a "")|];
          reflexivity.
      + destruct (authorization self) as [a|]; [destruct (String.eqb a "")|].
        * rewrite lookup_singleton_ne by congruence. reflexivity.
        * rewrite lookup_insert_ne by congruence.
          rewrite lookup_singleton_ne by congruence. reflexivity.
        * rewrite lookup_singleton_ne by congruence. reflexivity. }
  destruct (extra_headers self) as [extra|]; cbn.
  - rewrite lookup_union. rewrite (Hown _ eq_refl).
    destruct (extra !! key); cbn.
    + match goal with |- context [if ?b then _ else _] => destruct b end;
        cbn; try reflexivity.
      match goal with |- context [if ?b then _ else _] => destruct b end;
        cbn; try reflexivity.
      destruct (authorization self) as [a|]; [destruct (String.eqb a "")|];
        reflexivity.
    + match goal with |- context [if ?b then _ else _] => destruct b end;
        cbn; try reflexivity.
      match goal with |- context [if ?b then _ else _] => destruct b end;
        cbn; try reflexivity.
      destruct (authorization self) as [a|]; [destruct (String.eqb a "")|];
        reflexivity.
  - apply Hown. reflexivity.
Qed.

(** A blocking [_do_request] makes at most one transport call, with the
    request [sync_request]. *)
Lemma sync_sent self method path data params rs w :
  let w' := snd (SyncClient._do_request self method path data params rs w) in
  sent w' = sent w
  \/ exists u, _build_request_url self path params = Ret u
               /\ sent w' = (sent w ++ [sync_request self method u data
                                          (requests_config w)])%list.
Proof.
  cbn zeta.
  destruct (_build_request_url self path params) as [u|e|] eqn:Hu.
  - destruct (requests_config w !! "session") as [[h|v]|] eqn:Hs.
    + right. exists u. split; [reflexivity|].
      rewrite (sync_run _ _ _ _ _ _ _ u); [reflexivity| |assumption].
      unfold session_ok. rewrite Hs. exact I.
    + destruct (truthy v) eqn:Hv.
      * left. rewrite (sync_bad_session _ _ _ _ _ _ _ u v); auto.
      * right. exists u. split; [reflexivity|].
        rewrite (sync_run _ _ _ _ _ _ _ u); [reflexivity| |assumption].
        unfold session_ok. rewrite Hs. exact Hv.
    + right. exists u. split; [reflexivity|].
      rewrite (sync_run _ _ _ _ _ _ _ u); [reflexivity| |assumption].
      unfold session_ok. rewrite Hs. exact I.
  - left. rewrite (sync_url_error _ _ _ _ _ _ _ e Hu). reflexivity.
  - destruct (build_url_terminates _ _ _ Hu).
Qed.

(** A deferred [_do_request] makes at most one transport call, with the
    request [async_request]. *)
Lemma async_sent self method path data params rs w :
  let w' := snd (AsyncClient._do_request self method path data params rs w) in
  sent w' = sent w
  \/ exists u, _build_request_url self path params = Ret u
               /\ sent w' = (sent w ++ [async_request self method u data])%list.
Proof.
  cbn zeta.
  destruct (_build_request_url self path params) as [u|e|] eqn:Hu.
  - right. exists u. split; [reflexivity|].
    rewrite (async_run _ _ _ _ _ _ _ u Hu). reflexivity.
  - left. rewrite (async_url_error _ _ _ _ _ _ _ e Hu). reflexivity.
  - destruct (build_url_terminates _ _ _ Hu).
Qed.

Lemma snoc_not_self {A} (l : list A) x : l = (l ++ [x])%list -> False.
Proof.
  intros Hl. apply (f_equal (@List.length A)) in Hl.
  rewrite List.length_app in Hl. cbn in Hl. lia.
Qed.

(** C7, as the code has it: every request a blocking [_do_request] hands
    to the transport carries [Content-Type: application/json-patch+json]
    when the method is [patch] and [Content-Type: application/fhir+json]
    for every other method, reads included; every other header is the
    extra header of that name when there is one, and otherwise the
    [Accept: application/fhir+json] and the configured non-empty
    [Authorization] of the client.  A deferred [_do_request] sends the
    same headers except that it sets [Content-Type] only for [patch]. *)
Theorem request_headers self method path data params rs w rq :
  (sent (snd (SyncClient._do_request self method path data params rs w))
     = (sent w ++ [rq])%list ->
   rq_headers rq !! "Content-Type"
     = Some (if String.eqb method "patch" then "application/json-patch+json"
             else "application/fhir+json")
   /\ forall key, key <> "Content-Type" ->
                  rq_headers rq !! key = base_header self key)
  /\ (sent (snd (AsyncClient._do_request self method path data params rs w))
        = (sent w ++ [rq])%list ->
      rq_headers rq !! "Content-Type"
        = (if String.eqb method "patch"
           then Some "application/json-patch+json"
           else base_header self "Content-Type")
      /\ forall key, key <> "Content-Type" ->
                     rq_headers rq !! key = base_header self key).
Proof.
  split; intros Hsent.
  - destruct (sync_sent self method path data params rs w) as [Hs|[u [_ Hs]]];
      rewrite Hs in Hsent.
    + destruct (snoc_not_self _ _ Hsent).
    + apply app_inv_head in Hsent. injection Hsent as <-.
      cbn [sync_request rq_headers]. unfold sync_headers. split.
      * apply lookup_insert_eq.
      * intros key Hk. rewrite lookup_insert_ne by congruence.
        apply build_request_headers_lookup.
  - destruct (async_sent self method path data params rs w) as [Hs|[u [_ Hs]]];
      rewrite Hs in Hsent.
    + destruct (snoc_not_self _ _ Hsent).
    + apply app_inv_head in Hsent. injection Hsent as <-.
      cbn [async_request rq_headers]. unfold async_headers.
      destruct (String.eqb method "patch"); split.
      * apply lookup_insert_eq.
      * intros key Hk. rewrite lookup_insert_ne by congruence.
        apply build_request_headers_lookup.
      * apply build_request_headers_lookup.
      * intros key _. apply build_request_headers_lookup.
Qed.

(** When the transport answers, the configuration of a blocking client
    that holds a session object is what it was before the request,
    whatever the classification of the response does next. *)
Lemma session_kept_on_response self method path data params rs w u h r :
  _build_request_url self path params = Ret u ->
  requests_config w !! "session" = Some (CfgSession h) ->
  net w (sent w) (sync_request self method u data (requests_config w)) = Ret r ->
  requests_config (snd (SyncClient._do_request self method path data params rs w))
    = requests_config w.
Proof.
  intros Hu Hs Hr. rewrite (sync_run _ _ _ _ _ _ _ u); [|unfold session_ok; rewrite Hs; exact I|assumption].
  cbn [snd requests_config]. unfold config_after. rewrite Hs, Hr. reflexivity.
Qed.

(** When the transport raises, the session has been popped and is not
    put back. *)
Lemma session_dropped_on_raise self method path data params rs w u h e :
  _build_request_url self path params = Ret u ->
  requests_config w !! "session" = Some (CfgSession h) ->
  net w (sent w) (sync_request self method u data (requests_config w)) = Raise e ->
  SyncClient._do_request self method path data params rs w
    = (Raise e,
       mkWorld (net w)
         (sent w ++ [sync_request self method u data (requests_config w)])%list
         (delete "session" (requests_config w)) (container w)).
Proof.
  intros Hu Hs Hr. rewrite (sync_run _ _ _ _ _ _ _ u); [|unfold session_ok; rewrite Hs; exact I|assumption].
  unfold config_after. rewrite Hs, Hr. reflexivity.
Qed.

End Headers.

Section HeaderExamples.
Import Text Url AbstractClient Spec.
#[local] Existing Instance Stubs.externals.

(** A blocking read carries [Content-Type: application/fhir+json]; a
    deferred write carries no [Content-Type] at all; and a blocking
    request overrides the [Content-Type] given in the extra headers. *)
Lemma blocking_read_carries_content_type :
  let w := Sample.world (Sample.always (mkResponse 200 "")) in
  let content_type := fun rq => (rq_method rq, rq_headers rq !! "Content-Type") in
  map content_type
      (sent (snd (SyncClient._do_request Sample.client "get" "Patient/42"
                    JNull None false w)))
  = [("get", Some "application/fhir+json")]
  /\ map content_type
        (sent (snd (AsyncClient._do_request Sample.client "post" "Patient"
                      (JObj Sample.unsaved_patient) None false w)))
     = [("post", None)]
  /\ extra_headers Sample.client_with_headers
       ≫= (fun extra => extra !! "Content-Type") = Some "text/plain"
  /\ map content_type
        (sent (snd (SyncClient._do_request Sample.client_with_headers "post"
                      "Patient" (JObj Sample.unsaved_patient) None false w)))
     = [("post", Some "application/fhir+json")].
Proof. repeat split; reflexivity. Qed.

(** The search-set [patch] passes the method in upper case, which the
    comparison with [patch] does not match. *)
Example search_set_patch_content_type :
  let w := Sample.world_with Sample.patient
             (Sample.always (mkResponse 200 "")) in
  map (fun rq => (rq_method rq, rq_headers rq !! "Content-Type"))
      (sent (snd (SyncSearchSet.patch Sample.patients Sample.patient_resource
                    w)))
  = [("PATCH", Some "application/fhir+json")].
Proof. reflexivity. Qed.

Lemma request_headers_witness :
  let w := Sample.world (Sample.always (mkResponse 200 "")) in
  let rq := sync_request Sample.client_with_headers "post"
              "http://localhost:8080/fhir/Patient?" (JObj Sample.patient) ∅ in
  sent (snd (SyncClient._do_request Sample.client_with_headers "post"
               "Patient" (JObj Sample.patient) None false w))
  = (sent w ++ [rq])%list
  /\ rq_headers rq !! "Content-Type" = Some "application/fhir+json"
  /\ rq_headers rq !! "Accept" = Some "application/json"
  /\ rq_headers rq !! "Authorization" = Some "Bearer token"
  /\ rq_headers rq !! "X-Trace" = Some "1".
Proof.
  intros w rq.
  assert (Hsent : sent (snd (SyncClient._do_request Sample.client_with_headers
                               "post" "Patient" (JObj Sample.patient) None
                               false w)) = (sent w ++ [rq])%list)
    by reflexivity.
  pose proof (proj1 (request_headers (E := Stubs.externals)
                       Sample.client_with_headers "post" "Patient"
                       (JObj Sample.patient) None false w rq) Hsent)
    as [Hct Hother].
  split; [exact Hsent|]. split; [exact Hct|].
  split; [|split].
  - rewrite Hother by discriminate. reflexivity.
  - rewrite Hother by discriminate. reflexivity.
  - rewrite Hother by discriminate. reflexivity.
Defined.

(** C9: a blocking client holding the caller's session makes a request on
    which the transport raises.  The session was popped from
    [requests_config] before the call and is never put back, so the next
    request no longer goes through it. *)
Theorem session_lost_when_transport_raises :
  let w0 := Sample.world_with_session Sample.down in
  let first := SyncClient._do_request Sample.client "get" "Patient/42" JNull
                 None false w0 in
  let second := SyncClient._do_request Sample.client "get" "Patient/42" JNull
                  None false (snd first) in
  requests_config w0 !! "session" = Some (CfgSession 7)
  /\ fst first = Raise (TransportError "ConnectionError")
  /\ requests_config (snd first) !! "session" = None
  /\ map rq_session (sent (snd second)) = [Some 7%nat; None].
Proof. repeat split; reflexivity. Qed.

Example session_kept_when_transport_answers :
  let w0 := Sample.world_with_session (Sample.always (mkResponse 404 "gone")) in
  let first := SyncClient._do_request Sample.client "get" "Patient/42" JNull
                 None false w0 in
  fst first = Raise (ResourceNotFound "gone")
  /\ requests_config (snd first) !! "session" = Some (CfgSession 7)
  /\ map rq_session (sent (snd first)) = [Some 7%nat].
Proof. repeat split; reflexivity. Qed.

End HeaderExamples.

Section Lifecycle.
Context {E : Externals}.
Import Text Url AbstractClient Spec BaseResource.

Lemma bind_run {A B} (m : M A) (f : A -> M B) w :
  (m ≫= f) w = match m w with
               | (Ret a, w') => f a w'
               | (Raise e, w') => (Raise e, w')
               | (OutOfFuel, w') => (OutOfFuel, w')
               end.
Proof. reflexivity. Qed.

Lemma apply_response_run self response_data w :
  (if truthy response_data then
     set_container [];;
     kwargs ← lift (kwargs_of response_data);
     resource ← lift (client_resource (res_resource_type self) kwargs);
     cleared ← get_container;
     set_container (Dict.update cleared resource)
   else mret tt) w
  = let '(o, fields') := apply_response self response_data (container w) in
    (o, with_container w fields').
Proof.
  unfold apply_response. destruct (truthy response_data);
    [|destruct w; reflexivity].
  munfold. wsimpl. destruct (kwargs_of response_data) as [kw|e|]; cbn;
    try reflexivity.
  destruct (client_resource _ kw); reflexivity.
Qed.

Ltac outcome_bind_ret :=
  match goal with
  | |- context [@mbind outcome _ _ _ ?f (Ret ?x)] =>
      change (@mbind outcome _ _ _ f (Ret x)) with (f x)
  end; cbv beta iota.

(** A blocking [save]: prepare the request, make it, apply the payload. *)
Lemma sync_save_run self fields search_params w :
  SyncResource.save self fields search_params w =
    match sync_prepare fields (container w) with
    | Ret (method, data) =>
        match SyncClient._do_request (res_client self) method
                (_get_path self (container w)) data search_params false w with
        | (Ret response_data, w') =>
            let '(o, fields') :=
              apply_response self response_data (container w') in
            (o, with_container w' fields')
        | (Raise e, w') => (Raise e, w')
        | (OutOfFuel, w') => (OutOfFuel, w')
        end
    | Raise e => (Raise e, w)
    | OutOfFuel => (OutOfFuel, w)
    end.
Proof.
  unfold SyncResource.save, sync_prepare.
  rewrite bind_run. unfold get_container at 1. rewrite bind_run.
  destruct fields as [[|key keys]|].
  - unfold mret at 1, M_ret at 1. rewrite bind_run.
    destruct (SyncClient._do_request _ _ _ _ _ _ w) as [[resp|e|] w'];
      try reflexivity.
    apply apply_response_run.
  - destruct (negb (truthy (id (container w)))); [reflexivity|].
    rewrite bind_run. unfold lift at 1.
    destruct (map_outcome _ (key :: keys)) as [rd|e|]; try reflexivity.
    outcome_bind_ret.
    unfold mret at 1, M_ret at 1. rewrite bind_run.
    destruct (SyncClient._do_request _ _ _ _ _ _ w) as [[resp|e|] w'];
      try reflexivity.
    apply apply_response_run.
  - unfold mret at 1, M_ret at 1. rewrite bind_run.
    destruct (SyncClient._do_request _ _ _ _ _ _ w) as [[resp|e|] w'];
      try reflexivity.
    apply apply_response_run.
Qed.

(** A deferred [save], likewise. *)
Lemma async_save_run self fields search_params w :
  AsyncResource.save self fields search_params w =
    match async_prepare fields (container w) with
    | Ret (method, data) =>
        match AsyncClient._do_request (res_client self) method
                (_get_path self (container w)) data search_params false w with
        | (Ret response_data, w') =>
            let '(o, fields') :=
              apply_response self response_data (container w') in
            (o, with_container w' fields')
        | (Raise e, w') => (Raise e, w')
        | (OutOfFuel, w') => (OutOfFuel, w')
        end
    | Raise e => (Raise e, w)
    | OutOfFuel => (OutOfFuel, w)
    end.
Proof.
  unfold AsyncResource.save, async_prepare.
  rewrite bind_run. unfold get_container at 1. rewrite bind_run.
  destruct fields as [[|key keys]|].
  - unfold mret at 1, M_ret at 1. rewrite bind_run.
    destruct (AsyncClient._do_request _ _ _ _ _ _ w) as [[resp|e|] w'];
      try reflexivity.
    apply apply_response_run.
  - destruct (negb (truthy (id (container w)))); [reflexivity|].
    rewrite bind_run. unfold lift at 1.
    destruct (map_outcome _ (key :: keys)) as [rd|e|]; try reflexivity.
    outcome_bind_ret.
    unfold mret at 1, M_ret at 1. rewrite bind_run.
    destruct (AsyncClient._do_request _ _ _ _ _ _ w) as [[resp|e|] w'];
      try reflexivity.
    apply apply_response_run.
  - unfold mret at 1, M_ret at 1. rewrite bind_run.
    destruct (AsyncClient._do_request _ _ _ _ _ _ w) as [[resp|e|] w'];
      try reflexivity.
    apply apply_response_run.
Qed.

(** [_do_request] touches neither the transport nor the container. *)
Lemma sync_frame self method path data params rs w :
  let w' := snd (SyncClient._do_request self method path data params rs w) in
  net w' = net w /\ container w' = container w.
Proof.
  cbn zeta.
  destruct (_build_request_url self path params) as [u|e|] eqn:Hu.
  - destruct (requests_config w !! "session") as [[h|v]|] eqn:Hs.
    + rewrite (sync_run _ _ _ _ _ _ _ u); [split; reflexivity| |assumption].
      unfold session_ok. rewrite Hs. exact I.
    + destruct (truthy v) eqn:Hv.
      * rewrite (sync_bad_session _ _ _ _ _ _ _ u v); auto.
      * rewrite (sync_run _ _ _ _ _ _ _ u); [split; reflexivity| |assumption].
        unfold session_ok. rewrite Hs. exact Hv.
    + rewrite (sync_run _ _ _ _ _ _ _ u); [split; reflexivity| |assumption].
      unfold session_ok. rewrite Hs. exact I.
  - rewrite (sync_url_error _ _ _ _ _ _ _ e Hu). split; reflexivity.
  - destruct (build_url_terminates _ _ _ Hu).
Qed.

Lemma async_frame self method path data params rs w :
  let w' := snd (AsyncClient._do_request self method path data params rs w) in
  net w' = net w /\ container w' = container w
  /\ requests_config w' = requests_config w.
Proof.
  cbn zeta.
  destruct (_build_request_url self path params) as [u|e|] eqn:Hu.
  - rewrite (async_run _ _ _ _ _ _ _ u Hu). repeat split.
  - rewrite (async_url_error _ _ _ _ _ _ _ e Hu). repeat split.
  - destruct (build_url_terminates _ _ _ Hu).
Qed.

(** Outside 2xx the classification raises. *)
Lemma classify_raises rs r :
  ~ is_2xx (status_code r) -> exists e, classify rs r = Raise e.
Proof.
  intros H2. unfold classify, loads. rewrite (not_2xx_test _ H2).
  destruct ((status_code r =? 404) || (status_code r =? 410)); [eauto|].
  destruct (status_code r =? 412); [eauto|].
  destruct (json_loads (content r)) as [parsed|]; cbn; [|eauto].
  destruct parsed as [| | | | |l|m]; cbn; eauto.
  destruct (Dict.get "resourceType" m) as [v|]; cbn; [|eauto].
  destruct (eq_str v "OperationOutcome"); eauto.
Qed.

Lemma sync_request_raises self method path data params rs w :
  never_succeeds (net w) ->
  exists e, fst (SyncClient._do_request self method path data params rs w)
            = Raise e.
Proof.
  intros Hn.
  destruct (_build_request_url self path params) as [u|e|] eqn:Hu.
  - assert (Hok : session_ok (requests_config w) ->
                  exists e, fst (SyncClient._do_request self method path data
                                   params rs w) = Raise e).
    { intros Hs. rewrite (sync_run _ _ _ _ _ _ _ u Hs Hu). cbn [fst].
      specialize (Hn (sent w) (sync_request self method u data
                                 (requests_config w))).
      destruct (net w _ _) as [r|e|]; cbn; [|eauto|contradiction].
      apply classify_raises. assumption. }
    destruct (requests_config w !! "session") as [[h|v]|] eqn:Hs.
    + apply Hok. unfold session_ok. rewrite Hs. exact I.
    + destruct (truthy v) eqn:Hv.
      * rewrite (sync_bad_session _ _ _ _ _ _ _ u v); eauto.
      * apply Hok. unfold session_ok. rewrite Hs. exact Hv.
    + apply Hok. unfold session_ok. rewrite Hs. exact I.
  - rewrite (sync_url_error _ _ _ _ _ _ _ e Hu). eauto.
  - destruct (build_url_terminates _ _ _ Hu).
Qed.

Lemma async_request_raises self method path data params rs w :
  never_succeeds (net w) ->
  exists e, fst (AsyncClient._do_request self method path data params rs w)
            = Raise e.
Proof.
  intros Hn.
  destruct (_build_request_url self path params) as [u|e|] eqn:Hu.
  - rewrite (async_run _ _ _ _ _ _ _ u Hu). cbn [fst].
    specialize (Hn (sent w) (async_request self method u data)).
    destruct (net w _ _) as [r|e|]; cbn; [|eauto|contradiction].
    apply classify_raises. assumption.
  - rewrite (async_url_error _ _ _ _ _ _ _ e Hu). eauto.
  - destruct (build_url_terminates _ _ _ Hu).
Qed.

End Lifecycle.

Section LifecycleProperties.
Context {E : Externals}.
Import Text Url AbstractClient Spec BaseResource.

Lemma subscript_terminates v key : subscript v key <> OutOfFuel.
Proof.
  destruct v as [| | | | |l|m]; cbn; try discriminate.
  destruct (Dict.get key m); discriminate.
Qed.

Lemma map_outcome_terminates {A B} (f : A -> outcome B) l :
  (forall x, f x <> OutOfFuel) -> map_outcome f l <> OutOfFuel.
Proof.
  intros Hf. induction l as [|x l IH]; cbn; [discriminate|].
  specialize (Hf x). destruct (f x); cbn; try congruence.
  destruct (map_outcome f l); cbn; congruence.
Qed.

Lemma sync_prepare_terminates fields fs : sync_prepare fields fs <> OutOfFuel.
Proof.
  unfold sync_prepare. destruct fields as [[|key keys]|]; try discriminate.
  destruct (negb (truthy (id fs))); [discriminate|].
  match goal with
  | |- context [map_outcome ?f ?l] =>
      pose proof (map_outcome_terminates f l) as Hm; destruct (map_outcome f l)
  end; cbn; try discriminate.
  intros _. apply Hm; [|reflexivity].
  intros x. pose proof (subscript_terminates (serialize_fields fs) x).
  destruct (subscript (serialize_fields fs) x); cbn; congruence.
Qed.

Lemma async_prepare_terminates fields fs : async_prepare fields fs <> OutOfFuel.
Proof.
  unfold async_prepare. destruct fields as [[|key keys]|]; try discriminate.
  destruct (negb (truthy (id fs))); [discriminate|].
  match goal with
  | |- context [map_outcome ?f ?l] =>
      pose proof (map_outcome_terminates f l) as Hm; destruct (map_outcome f l)
  end; cbn; try discriminate.
  intros _. apply Hm; [|reflexivity].
  intros x. pose proof (subscript_terminates (serialize_fields fs) x).
  destruct (subscript (serialize_fields fs) x); cbn; congruence.
Qed.

(** The one request a blocking [save] may make is the prepared one. *)
Lemma sync_save_sent self fields search_params w rq :
  sent (snd (SyncResource.save self fields search_params w))
    = (sent w ++ [rq])%list ->
  exists method data u,
    sync_prepare fields (container w) = Ret (method, data)
    /\ rq = sync_request (res_client self) method u data (requests_config w).
Proof.
  intros Hs. rewrite sync_save_run in Hs.
  destruct (sync_prepare fields (container w)) as [[m d]|e|] eqn:Hp;
    cbn in Hs; try (destruct (snoc_not_self _ _ Hs)).
  pose proof (sync_sent (res_client self) m (_get_path self (container w)) d
                search_params false w) as Hsent. cbn zeta in Hsent.
  destruct (SyncClient._do_request _ _ _ _ _ _ w) as [[resp|e|] w'];
    cbn [snd] in *.
  1: destruct (apply_response self resp (container w')) as [o f'];
     cbn [snd with_container sent] in Hs.
  all: rewrite Hs in Hsent; destruct Hsent as [Hsent|[u [_ Hsent]]];
    [symmetry in Hsent; destruct (snoc_not_self _ _ Hsent)|];
    apply app_inv_head in Hsent; injection Hsent as ->; eauto.
Qed.

Lemma async_save_sent self fields search_params w rq :
  sent (snd (AsyncResource.save self fields search_params w))
    = (sent w ++ [rq])%list ->
  exists method data u,
    async_prepare fields (container w) = Ret (method, data)
    /\ rq = async_request (res_client self) method u data.
Proof.
  intros Hs. rewrite async_save_run in Hs.
  destruct (async_prepare fields (container w)) as [[m d]|e|] eqn:Hp;
    cbn in Hs; try (destruct (snoc_not_self _ _ Hs)).
  pose proof (async_sent (res_client self) m (_get_path self (container w)) d
                search_params false w) as Hsent. cbn zeta in Hsent.
  destruct (AsyncClient._do_request _ _ _ _ _ _ w) as [[resp|e|] w'];
    cbn [snd] in *.
  1: destruct (apply_response self resp (container w')) as [o f'];
     cbn [snd with_container sent] in Hs.
  all: rewrite Hs in Hsent; destruct Hsent as [Hsent|[u [_ Hsent]]];
    [symmetry in Hsent; destruct (snoc_not_self _ _ Hsent)|];
    apply app_inv_head in Hsent; injection Hsent as ->; eauto.
Qed.

(** When the request can be prepared and its URL builds, [save] makes
    exactly one transport call. *)
Lemma sync_save_sends self fields search_params w method data u :
  sync_prepare fields (container w) = Ret (method, data) ->
  _build_request_url (res_client self) (_get_path self (container w))
    search_params = Ret u ->
  session_ok (requests_config w) ->
  sent (snd (SyncResource.save self fields search_params w))
  = (sent w ++ [sync_request (res_client self) method u data
                  (requests_config w)])%list.
Proof.
  intros Hp Hu Hs. rewrite sync_save_run, Hp.
  rewrite (sync_run _ _ _ _ _ _ _ u Hs Hu). cbn zeta.
  destruct (net w (sent w) _ ≫= classify false) as [resp|e|];
    try reflexivity.
  cbn iota. destruct (apply_response self resp _) as [o f']. reflexivity.
Qed.

Lemma async_save_sends self fields search_params w method data u :
  async_prepare fields (container w) = Ret (method, data) ->
  _build_request_url (res_client self) (_get_path self (container w))
    search_params = Ret u ->
  sent (snd (AsyncResource.save self fields search_params w))
  = (sent w ++ [async_request (res_client self) method u data])%list.
Proof.
  intros Hp Hu. rewrite async_save_run, Hp.
  rewrite (async_run _ _ _ _ _ _ _ u Hu). cbn zeta.
  destruct (net w (sent w) _ ≫= classify false) as [resp|e|];
    try reflexivity.
  cbn iota. destruct (apply_response self resp _) as [o f']. reflexivity.
Qed.

Lemma sync_prepare_method fields fs method data :
  truthy (id fs) = true ->
  sync_prepare fields fs = Ret (method, data) ->
  method = match fields with
           | Some (_ :: _) => "patch"
           | _ => "put"
           end.
Proof.
  unfold sync_prepare. intros Hid. rewrite Hid. cbn [negb].
  destruct fields as [[|key keys]|]; try congruence.
  destruct (map_outcome _ (key :: keys)); unfold mbind, outcome_bind;
    congruence.
Qed.

Lemma async_prepare_method fields fs method data :
  truthy (id fs) = true ->
  async_prepare fields fs = Ret (method, data) ->
  method = match fields with
           | Some (_ :: _) => "patch"
           | _ => "put"
           end.
Proof.
  unfold async_prepare. intros Hid. rewrite Hid. cbn [negb].
  destruct fields as [[|key keys]|]; try congruence.
  destruct (map_outcome _ (key :: keys)); unfold mbind, outcome_bind;
    congruence.
Qed.

(** C6: [save] with a non-empty field list on a container without [id]
    raises the [TypeError] "Resource `id` is required for update
    operation" and leaves the world as it was, so no request was made;
    so does [update].  With [id] set, the request [save] makes has method
    [patch] when fields are given and [put] when they are not.  Blocking
    and deferred alike. *)
Theorem save_requires_id self key keys search_params w :
  let required :=
    TypeError "Resource `id` is required for update operation" in
  (truthy (id (container w)) = false ->
   SyncResource.save self (Some (key :: keys)) search_params w
     = (Raise required, w)
   /\ AsyncResource.save self (Some (key :: keys)) search_params w
      = (Raise required, w)
   /\ SyncResource.update self w = (Raise required, w)
   /\ AsyncResource.update self w = (Raise required, w))
  /\ (truthy (id (container w)) = true ->
      forall rq,
        (sent (snd (SyncResource.save self (Some (key :: keys))
                      search_params w)) = (sent w ++ [rq])%list ->
         rq_method rq = "patch")
        /\ (sent (snd (AsyncResource.save self (Some (key :: keys))
                         search_params w)) = (sent w ++ [rq])%list ->
            rq_method rq = "patch")
        /\ (forall fields, fields = None \/ fields = Some [] ->
            sent (snd (SyncResource.save self fields search_params w))
              = (sent w ++ [rq])%list ->
            rq_method rq = "put")
        /\ (forall fields, fields = None \/ fields = Some [] ->
            sent (snd (AsyncResource.save self fields search_params w))
              = (sent w ++ [rq])%list ->
            rq_method rq = "put")).
Proof.
  intros required. split; intros Hid.
  - repeat split.
    + rewrite sync_save_run. unfold sync_prepare. rewrite Hid. reflexivity.
    + rewrite async_save_run. unfold async_prepare. rewrite Hid. reflexivity.
    + unfold SyncResource.update. rewrite bind_run.
      unfold get_container at 1. rewrite Hid. reflexivity.
    + unfold AsyncResource.update. rewrite bind_run.
      unfold get_container at 1. rewrite Hid. reflexivity.
  - intros rq. repeat split.
    + intros Hs. apply sync_save_sent in Hs as (m & d & u & Hp & ->).
      apply (sync_prepare_method _ _ _ _ Hid) in Hp. subst m. reflexivity.
    + intros Hs. apply async_save_sent in Hs as (m & d & u & Hp & ->).
      apply (async_prepare_method _ _ _ _ Hid) in Hp. subst m. reflexivity.
    + intros fields Hf Hs. apply sync_save_sent in Hs as (m & d & u & Hp & ->).
      apply (sync_prepare_method _ _ _ _ Hid) in Hp. subst m.
      destruct Hf as [-> | ->]; reflexivity.
    + intros fields Hf Hs. apply async_save_sent in Hs as (m & d & u & Hp & ->).
      apply (async_prepare_method _ _ _ _ Hid) in Hp. subst m.
      destruct Hf as [-> | ->]; reflexivity.
Qed.

Lemma sync_patch_run self kwargs w :
  SyncResource.patch self kwargs w
  = SyncResource.save self (Some (Dict.keys kwargs)) None
      (with_container w (Dict.update (container w) kwargs)).
Proof. reflexivity. Qed.

Lemma async_patch_run self kwargs w :
  AsyncResource.patch self kwargs w
  = AsyncResource.save self (Some (Dict.keys kwargs)) None
      (with_container w (Dict.update (container w) kwargs)).
Proof. reflexivity. Qed.

(** When the transport raises or answers outside 2xx, [patch] raises and
    the container holds the merged fields; any request that was made
    carries the body prepared from the merged container. *)
Lemma patch_raises_when_transport_fails self kwargs w :
  never_succeeds (net w) ->
  let merged := Dict.update (container w) kwargs in
  let sync := SyncResource.patch self kwargs w in
  let async := AsyncResource.patch self kwargs w in
  ((exists e, fst sync = Raise e)
   /\ container (snd sync) = merged
   /\ forall rq, sent (snd sync) = (sent w ++ [rq])%list ->
                 sync_prepare (Some (Dict.keys kwargs)) merged
                 = Ret (rq_method rq, rq_json rq))
  /\ ((exists e, fst async = Raise e)
      /\ container (snd async) = merged
      /\ forall rq, sent (snd async) = (sent w ++ [rq])%list ->
                    async_prepare (Some (Dict.keys kwargs)) merged
                    = Ret (rq_method rq, rq_json rq)).
Proof.
  intros Hn merged sync async. subst sync async.
  rewrite sync_patch_run, async_patch_run. fold merged.
  set (w1 := with_container w merged).
  assert (Hn1 : never_succeeds (net w1)) by exact Hn.
  split.
  - assert (Hres : (exists e, fst (SyncResource.save self
                       (Some (Dict.keys kwargs)) None w1) = Raise e)
                   /\ container (snd (SyncResource.save self
                       (Some (Dict.keys kwargs)) None w1)) = merged).
    { rewrite sync_save_run.
      pose proof (sync_prepare_terminates (Some (Dict.keys kwargs))
                    (container w1)) as Ht.
      destruct (sync_prepare _ (container w1)) as [[m d]|e|];
        [|split; [eauto|reflexivity]|congruence].
      destruct (sync_request_raises (res_client self) m
                  (_get_path self (container w1)) d None false w1 Hn1)
        as [e He].
      pose proof (sync_frame (res_client self) m
                    (_get_path self (container w1)) d None false w1)
        as [_ Hc]. cbn zeta in Hc.
      destruct (SyncClient._do_request _ _ _ _ _ _ w1) as [o w'].
      cbn [fst snd] in *. subst o. split; [eauto|exact Hc]. }
    destruct Hres as [Hraise Hcont]. repeat split; try assumption.
    intros rq Hs.
    apply (sync_save_sent self _ None w1) in Hs as (m & d & u & Hp & ->).
    exact Hp.
  - assert (Hres : (exists e, fst (AsyncResource.save self
                       (Some (Dict.keys kwargs)) None w1) = Raise e)
                   /\ container (snd (AsyncResource.save self
                       (Some (Dict.keys kwargs)) None w1)) = merged).
    { rewrite async_save_run.
      pose proof (async_prepare_terminates (Some (Dict.keys kwargs))
                    (container w1)) as Ht.
      destruct (async_prepare _ (container w1)) as [[m d]|e|];
        [|split; [eauto|reflexivity]|congruence].
      destruct (async_request_raises (res_client self) m
                  (_get_path self (container w1)) d None false w1 Hn1)
        as [e He].
      pose proof (async_frame (res_client self) m
                    (_get_path self (container w1)) d None false w1)
        as [_ [Hc _]]. cbn zeta in Hc.
      destruct (AsyncClient._do_request _ _ _ _ _ _ w1) as [o w'].
      cbn [fst snd] in *. subst o. split; [eauto|exact Hc]. }
    destruct Hres as [Hraise Hcont]. repeat split; try assumption.
    intros rq Hs.
    apply (async_save_sent self _ None w1) in Hs as (m & d & u & Hp & ->).
    exact Hp.
Qed.

(** C10: [patch] merges the keyword fields into the container and then
    calls [save], so the request is prepared from, and made in, the
    state that already holds the merged fields.  When preparing it or
    making it raises an error, whichever it is, [patch] raises that
    error and the container still holds the merged fields: nothing is
    rolled back.  Blocking and deferred alike. *)
Theorem patch_failure_keeps_merged_fields self kwargs w e :
  let merged := Dict.update (container w) kwargs in
  let merged_world := with_container w merged in
  let fields := Some (Dict.keys kwargs) in
  let path := _get_path self merged in
  (sync_prepare fields merged = Raise e ->
   SyncResource.patch self kwargs w = (Raise e, merged_world))
  /\ (forall method body w',
      sync_prepare fields merged = Ret (method, body) ->
      SyncClient._do_request (res_client self) method path body None false
        merged_world = (Raise e, w') ->
      SyncResource.patch self kwargs w = (Raise e, w')
      /\ container w' = merged)
  /\ (async_prepare fields merged = Raise e ->
      AsyncResource.patch self kwargs w = (Raise e, merged_world))
  /\ (forall method body w',
      async_prepare fields merged = Ret (method, body) ->
      AsyncClient._do_request (res_client self) method path body None false
        merged_world = (Raise e, w') ->
      AsyncResource.patch self kwargs w = (Raise e, w')
      /\ container w' = merged).
Proof.
  intros merged merged_world fields path.
  rewrite sync_patch_run, async_patch_run. fold merged merged_world fields.
  rewrite sync_save_run, async_save_run.
  change (container merged_world) with merged. fold path.
  split; [intros ->; reflexivity|].
  split.
  { intros method body w' Hprepare Hrequest. rewrite Hprepare, Hrequest.
    split; [reflexivity|].
    pose proof (sync_frame (res_client self) method path body None false
                  merged_world) as [_ Hc].
    cbn zeta in Hc. rewrite Hrequest in Hc. exact Hc. }
  split; [intros ->; reflexivity|].
  intros method body w' Hprepare Hrequest. rewrite Hprepare, Hrequest.
  split; [reflexivity|].
  pose proof (async_frame (res_client self) method path body None false
                merged_world) as [_ [Hc _]].
  cbn zeta in Hc. rewrite Hrequest in Hc. exact Hc.
Qed.

End LifecycleProperties.

Section Pagination.
Context {E : Externals}.
Import Text Url AbstractClient Spec AbstractSearchSet.

Lemma config_after_ok config o :
  session_ok config -> session_ok (config_after config o).
Proof.
  unfold session_ok, config_after.
  destruct (config !! "session") as [[h|v]|] eqn:Hs.
  - destruct o; rewrite ?Hs, ?lookup_delete_eq; auto.
  - rewrite lookup_delete_eq. auto.
  - rewrite lookup_delete_eq. auto.
Qed.

Lemma sync_fetch_served self target bundle w :
  session_ok (requests_config w) ->
  serves_page (net w) self target bundle ->
  exists w', SyncClient._fetch_resource self (fst target) (snd target) w
             = (Ret bundle, w')
             /\ extends_by 1 w w'.
Proof.
  intros Hs (u & r & Hu & Hserve & H2 & Hne & Hb).
  unfold SyncClient._fetch_resource.
  rewrite (sync_run _ _ _ _ _ _ _ u Hs Hu). cbn zeta.
  rewrite (Hserve (sent w) (sync_request self "get" u JNull (requests_config w))
             eq_refl eq_refl).
  cbn [mbind outcome_bind].
  rewrite (classify_2xx_body false r bundle H2 Hne Hb).
  eexists. split; [reflexivity|].
  unfold extends_by. cbn [net sent container requests_config].
  repeat split.
  - apply config_after_ok. assumption.
  - rewrite List.length_app. reflexivity.
Qed.

Lemma async_fetch_served self target bundle w :
  session_ok (requests_config w) ->
  serves_page (net w) self target bundle ->
  exists w', AsyncClient._fetch_resource self (fst target) (snd target) w
             = (Ret bundle, w')
             /\ extends_by 1 w w'.
Proof.
  intros Hs (u & r & Hu & Hserve & H2 & Hne & Hb).
  unfold AsyncClient._fetch_resource.
  rewrite (async_run _ _ _ _ _ _ _ u Hu). cbn zeta.
  rewrite (Hserve (sent w) (async_request self "get" u JNull) eq_refl eq_refl).
  cbn [mbind outcome_bind].
  rewrite (classify_2xx_body false r bundle H2 Hne Hb).
  eexists. split; [reflexivity|].
  unfold extends_by. cbn [net sent container requests_config].
  repeat split.
  - assumption.
  - rewrite List.length_app. reflexivity.
Qed.






End Pagination.

Section PaginationExamples.
Import Text Url AbstractClient Spec AbstractSearchSet.
#[local] Existing Instance Stubs.externals.

Lemma paged_server_serves target url page :
  _build_request_url Sample.client (fst target) (snd target) = Ret url ->
  (forall hist rq, rq_url rq = url ->
     Sample.paged_server hist rq = Ret (mkResponse 200 (Stubs.encode page))) ->
  Stubs.decode (Stubs.encode page) = Some page ->
  String.eqb (Stubs.encode page) "" = false ->
  serves_page Sample.paged_server Sample.client target page.
Proof.
  intros Hu Hserve Hdec Hne.
  exists url, (mkResponse 200 (Stubs.encode page)).
  split; [exact Hu|]. split; [intros hist rq _ Hrq; apply Hserve, Hrq|].
  split; [unfold is_2xx; cbn; lia|]. split; [|exact Hdec].
  cbn [content]. intros Heq. rewrite Heq in Hne. discriminate.
Qed.

Lemma sample_page_chain :
  page_chain Sample.paged_server Sample.client
    ("Patient", Some [("_count", JInt 2)])
    [[Sample.named "a"; Sample.named "b"];
     [Sample.named "c"; Sample.named "d"];
     [Sample.named "e"]].
Proof.
  apply (chain_next _ _ _ Sample.page1 _ (Sample.page2_url, None)).
  - apply (paged_server_serves _ Sample.page1_url); try reflexivity.
    intros hist rq Hrq. unfold Sample.paged_server. rewrite Hrq. reflexivity.
  - reflexivity.
  - reflexivity.
  - reflexivity.
  - apply (chain_next _ _ _ Sample.page2 _ (Sample.page3_url, None)).
    + apply (paged_server_serves _ Sample.page2_url); try reflexivity.
      intros hist rq Hrq. unfold Sample.paged_server. rewrite Hrq. reflexivity.
    + reflexivity.
    + reflexivity.
    + reflexivity.
    + apply (chain_last _ _ _ Sample.page3).
      * apply (paged_server_serves _ Sample.page3_url); try reflexivity.
        intros hist rq Hrq. unfold Sample.paged_server. rewrite Hrq.
        reflexivity.
      * reflexivity.
      * reflexivity.
Qed.


Example pagination_stops_short_of_fuel :
  fst (SyncSearchSet.fetch_all 10 Sample.patients
         (Sample.world Sample.paged_server))
  = fst (SyncSearchSet.fetch_all 3 Sample.patients
           (Sample.world Sample.paged_server))
  /\ map rq_url (sent (snd (SyncSearchSet.fetch_all 10 Sample.patients
                              (Sample.world Sample.paged_server))))
     = [Sample.page1_url; Sample.page2_url; Sample.page3_url].
Proof. split; reflexivity. Qed.

End PaginationExamples.

Section LifecycleExamples.
Import Text Url AbstractClient Spec BaseResource.
#[local] Existing Instance Stubs.externals.

Lemma save_requires_id_witness :
  let unsaved := Sample.world_with Sample.unsaved_patient
                   (Sample.always (mkResponse 200 "")) in
  let saved := Sample.world_with Sample.patient
                 (Sample.always (mkResponse 200 "")) in
  let required :=
    TypeError "Resource `id` is required for update operation" in
  let rq := sync_request Sample.client "patch"
              "https://example.com:443/fhir/Patient/42?"
              (JArr [JObj [("op", JStr "add"); ("path", JStr "/status");
                           ("value", JStr "draft")]]) ∅ in
  SyncResource.save Sample.patient_resource (Some ["status"]) None unsaved
    = (Raise required, unsaved)
  /\ SyncResource.update Sample.patient_resource unsaved
     = (Raise required, unsaved)
  /\ sent (snd (SyncResource.save Sample.patient_resource (Some ["status"])
                  None saved)) = [rq]
  /\ rq_method rq = "patch".
Proof.
  intros unsaved saved required rq.
  pose proof (proj1 (save_requires_id (E := Stubs.externals)
                       Sample.patient_resource "status" [] None unsaved)
                eq_refl) as (Hsave & _ & Hupdate & _).
  pose proof (proj1 (proj2 (save_requires_id (E := Stubs.externals)
                              Sample.patient_resource "status" [] None saved)
                       eq_refl rq) eq_refl) as Hmethod.
  split; [exact Hsave|]. split; [exact Hupdate|].
  split; [reflexivity|exact Hmethod].
Defined.

Lemma patch_failure_keeps_merged_fields_witness :
  let w := Sample.world_with Sample.patient Sample.down in
  let merged := [("resourceType", JStr "Patient"); ("id", JStr "42");
                 ("status", JStr "active")] in
  let body := JArr [JObj [("op", JStr "add"); ("path", JStr "/status");
                          ("value", JStr "active")]] in
  let sync := SyncResource.patch Sample.patient_resource
                [("status", JStr "active")] w in
  sync_prepare (Some ["status"]) merged = Ret ("patch", body)
  /\ fst sync = Raise (TransportError "ConnectionError")
  /\ container (snd sync) = merged
  /\ map rq_json (sent (snd sync)) = [body].
Proof.
  intros w merged body sync.
  pose proof (proj1 (proj2 (patch_failure_keeps_merged_fields
                              (E := Stubs.externals)
                              Sample.patient_resource
                              [("status", JStr "active")] w
                              (TransportError "ConnectionError")))
                "patch" body _ eq_refl eq_refl) as [Hpatch Hmerged].
  split; [reflexivity|].
  split; [unfold sync; rewrite Hpatch; reflexivity|].
  split; [unfold sync; rewrite Hpatch; exact Hmerged|reflexivity].
Defined.

Example patch_on_failing_transport :
  exists e,
    fst (AsyncResource.patch Sample.patient_resource
           [("status", JStr "active")]
           (Sample.world_with Sample.patient Sample.down)) = Raise e.
Proof.
  apply (patch_raises_when_transport_fails (E := Stubs.externals)
           Sample.patient_resource [("status", JStr "active")]
           (Sample.world_with Sample.patient Sample.down) (fun _ _ => I)).
Qed.

Example patch_failure_on_error_status :
  let w := Sample.world_with Sample.patient
             (Sample.always (mkResponse 422 "rejected")) in
  let async := AsyncResource.patch Sample.patient_resource
                 [("status", JStr "active")] w in
  fst async = Raise (OperationOutcome (Some "rejected") None)
  /\ Dict.get "status" (container (snd async)) = Some (JStr "active").
Proof. split; reflexivity. Qed.

End LifecycleExamples.

Section ModesAgree.
Context {E : Externals}.
Import Text Url AbstractClient Spec Modes.























End ModesAgree.

Section ModesExamples.
Import Text Url AbstractClient Spec Modes.
#[local] Existing Instance Stubs.externals.




End ModesExamples.

Section BuilderContract.
Context {E : Externals}.
Import Text Url AbstractClient Spec.

(** Stripping trailing slashes leaves a prefix. *)
Lemma rstrip_slash_prefix s : exists t, s = rstrip_slash s ++ t.
Proof.
  induction s as [|c s [t IH]]; [exists ""; reflexivity|].
  cbn [rstrip_slash]. destruct (rstrip_slash s) as [|a r] eqn:Hr.
  - destruct (is_slash c).
    + exists (String c s). reflexivity.
    + exists s. reflexivity.
  - exists t. rewrite !append_cons. rewrite IH at 1. rewrite append_cons.
    reflexivity.
Qed.

Lemma substring_app_r sub s t : Substring sub s -> Substring sub (s ++ t).
Proof.
  intros (pre & post & ->). exists pre, (post ++ t).
  rewrite !string_app_assoc. reflexivity.
Qed.

Lemma substring_prefix s t : Substring s (s ++ t).
Proof. exists "", t. reflexivity. Qed.

Lemma port_raises_value_error r e :
  port r = Raise e -> exists msg, e = ValueError msg.
Proof.
  unfold port.
  repeat match goal with
         | |- context [if ?b then _ else _] => destruct b
         end; intros [= <-]; eauto.
Qed.

Lemma is_absolute_raises_value_error s e :
  URL_is_absolute s = Raise e -> exists msg, e = ValueError msg.
Proof.
  unfold URL_is_absolute.
  destruct (String.eqb (netloc (urlparse s)) ""); [discriminate|].
  destruct (String.eqb (fst (hostinfo (netloc (urlparse s)))) "");
    [intros [= <-]; eauto|].
  destruct (port (urlparse s)); intros [= <-]; eauto.
Qed.

(** A URL that the builder returns contains the base URL. *)
Lemma build_url_within_base self path params u :
  _build_request_url self path params = Ret u ->
  Substring (rstrip_slash (url self)) u.
Proof.
  destruct (URL_is_absolute path) as [[|]|e|] eqn:Habs.
  - destruct (port (urlparse (url self))) as [bp|e|] eqn:Hbase.
    + rewrite (build_absolute self path params bp Habs Hbase).
      destruct (contains _ _) eqn:Hc; [|discriminate]. intros [= <-].
      apply contains_spec in Hc.
      destruct (rstrip_slash_prefix (normalized_path self path)) as [t Ht].
      rewrite Ht. apply substring_app_r. exact Hc.
    + unfold _build_request_url. rewrite Habs. cbn. rewrite Hbase. discriminate.
    + destruct (port_terminates _ Hbase).
  - unfold _build_request_url. rewrite Habs. cbn.
    destruct (URL_path (url self)); cbn; [|discriminate..].
    intros [= <-]. apply substring_prefix.
  - unfold _build_request_url. rewrite Habs. discriminate.
  - destruct (is_absolute_terminates _ Habs).
Qed.

Lemma build_url_raises_value_error self path params e :
  _build_request_url self path params = Raise e ->
  exists msg, e = ValueError msg.
Proof.
  destruct (URL_is_absolute path) as [[|]|e'|] eqn:Habs.
  - destruct (port (urlparse (url self))) as [bp|e'|] eqn:Hbase.
    + rewrite (build_absolute self path params bp Habs Hbase).
      destruct (contains _ _); [discriminate|]. intros [= <-]. eauto.
    + unfold _build_request_url. rewrite Habs. cbn. rewrite Hbase.
      intros [= <-]. eapply port_raises_value_error, Hbase.
    + destruct (port_terminates _ Hbase).
  - unfold _build_request_url, URL_path. rewrite Habs. cbn.
    destruct (URL_is_absolute (url self)) as [b|e'|] eqn:Hb; cbn;
      [discriminate| |discriminate].
    intros [= <-]. eapply is_absolute_raises_value_error, Hb.
  - unfold _build_request_url. rewrite Habs. cbn. intros [= <-].
    eapply is_absolute_raises_value_error, Habs.
  - destruct (is_absolute_terminates _ Habs).
Qed.

(** X1: whatever the path and the parameters, the URL builder either
    returns a URL that contains the client's base URL (trailing slashes
    stripped) or raises a [ValueError]; it raises nothing else. *)
Theorem url_builder_contract self path params :
  (exists u, _build_request_url self path params = Ret u
             /\ contains (rstrip_slash (url self)) u = true)
  \/ (exists msg, _build_request_url self path params = Raise (ValueError msg)).
Proof.
  destruct (_build_request_url self path params) as [u|e|] eqn:Hb.
  - left. exists u. split; [reflexivity|].
    apply contains_spec. eapply build_url_within_base, Hb.
  - right. destruct (build_url_raises_value_error _ _ _ _ Hb) as [msg ->].
    eauto.
  - destruct (build_url_terminates _ _ _ Hb).
Qed.

Lemma lstrip_slash_head s :
  match lstrip_slash s with
  | String c _ => is_slash c = false
  | "" => True
  end.
Proof.
  induction s as [|c s IH]; cbn [lstrip_slash]; [exact I|].
  destruct (is_slash c) eqn:Hc; [exact IH|exact Hc].
Qed.

Lemma lstrip_slash_fixed s :
  match s with String c _ => is_slash c = false | "" => True end ->
  lstrip_slash s = s.
Proof. destruct s as [|c s]; cbn; [reflexivity|]. intros ->. reflexivity. Qed.

Lemma lstrip_slash_idem s : lstrip_slash (lstrip_slash s) = lstrip_slash s.
Proof. apply lstrip_slash_fixed, lstrip_slash_head. Qed.

Lemma startswith_app p s : startswith p (p ++ s) = true.
Proof. apply startswith_spec. eauto. Qed.

Lemma drop_length_app p s : drop (String.length p) (p ++ s) = s.
Proof. induction p as [|c p IH]; [destruct s; reflexivity|exact IH]. Qed.

Lemma remove_prefix_app p s : remove_prefix (p ++ s) p = s.
Proof. unfold remove_prefix. rewrite startswith_app. apply drop_length_app. Qed.

(** X2: a relative path that already begins with the path of the base
    URL is not given that path a second time: it builds the same URL as
    the path without it. *)
Theorem base_path_not_duplicated self path params base_path :
  URL_path (url self) = Ret base_path ->
  let prefix := lstrip_slash base_path ++ "/" in
  URL_is_absolute path = Ret false ->
  URL_is_absolute (prefix ++ path) = Ret false ->
  startswith prefix (lstrip_slash path) = false ->
  _build_request_url self (prefix ++ path) params
  = _build_request_url self path params.
Proof.
  intros Hbase prefix Hrel Hrel' Hfresh.
  unfold _build_request_url. rewrite Hrel, Hrel'. cbn [mbind outcome_bind].
  rewrite Hbase. cbn [mbind outcome_bind]. fold prefix.
  assert (Hleft : lstrip_slash (remove_prefix (lstrip_slash (prefix ++ path))
                                  prefix) = lstrip_slash path).
  { subst prefix. pose proof (lstrip_slash_head base_path) as Hhead.
    destruct (lstrip_slash base_path) as [|c r].
    - change ("" ++ "/") with "/" in *.
      change (lstrip_slash ("/" ++ path)) with (lstrip_slash path).
      unfold remove_prefix. rewrite Hfresh. apply lstrip_slash_idem.
    - rewrite (lstrip_slash_fixed ((String c r ++ "/") ++ path)) by exact Hhead.
      rewrite remove_prefix_app. reflexivity. }
  assert (Hright : lstrip_slash (remove_prefix (lstrip_slash path) prefix)
                   = lstrip_slash path).
  { unfold remove_prefix. rewrite Hfresh. apply lstrip_slash_idem. }
  rewrite Hleft, Hright. reflexivity.
Qed.
End BuilderContract.

Section Configuration.
Context {E : Externals}.
Import Text Url AbstractClient Spec Construction.

(** The three ways a blocking [_do_request] can go. *)
Lemma sync_cases self method path data params rs w :
  (exists e, _build_request_url self path params = Raise e
             /\ SyncClient._do_request self method path data params rs w
                = (Raise e, w))
  \/ (exists u v, _build_request_url self path params = Ret u
                  /\ requests_config w !! "session" = Some (CfgValue v)
                  /\ truthy v = true
                  /\ SyncClient._do_request self method path data params rs w
                     = (Raise (AttributeError "object has no attribute 'request'"),
                        mkWorld (net w) (sent w)
                          (delete "session" (requests_config w)) (container w)))
  \/ (exists u, _build_request_url self path params = Ret u
                /\ session_ok (requests_config w)
                /\ let rq := sync_request self method u data (requests_config w) in
                   let o := net w (sent w) rq in
                   SyncClient._do_request self method path data params rs w
                   = (o ≫= classify rs,
                      mkWorld (net w) (sent w ++ [rq])%list
                        (config_after (requests_config w) o) (container w))).
Proof.
  destruct (_build_request_url self path params) as [u|e|] eqn:Hu.
  - assert (Hok : session_ok (requests_config w) ->
                  exists u0, Ret u = Ret u0 /\ session_ok (requests_config w)
                    /\ let rq := sync_request self method u0 data (requests_config w) in
                       let o := net w (sent w) rq in
                       SyncClient._do_request self method path data params rs w
                       = (o ≫= classify rs,
                          mkWorld (net w) (sent w ++ [rq])%list
                            (config_after (requests_config w) o) (container w))).
    { intros Hs. exists u. split; [reflexivity|]. split; [exact Hs|].
      apply sync_run; assumption. }
    destruct (requests_config w !! "session") as [[h|v]|] eqn:Hs.
    + right. right. apply Hok. unfold session_ok. rewrite Hs. exact I.
    + destruct (truthy v) eqn:Hv.
      * right. left. exists u, v. repeat split; try assumption.
        apply (sync_bad_session _ _ _ _ _ _ _ u v); assumption.
      * right. right. apply Hok. unfold session_ok. rewrite Hs. exact Hv.
    + right. right. apply Hok. unfold session_ok. rewrite Hs. exact I.
  - left. exists e. split; [reflexivity|]. apply sync_url_error. exact Hu.
  - destruct (build_url_terminates _ _ _ Hu).
Qed.

Lemma config_after_other config o key :
  key <> "session" -> config_after config o !! key = config !! key.
Proof.
  intros Hk. unfold config_after.
  destruct (config !! "session") as [[h|v]|]; [destruct o| |];
    try reflexivity; apply lookup_delete_ne; congruence.
Qed.

(** X3: a blocking [_do_request] changes no entry of [requests_config]
    other than [session], and the request it hands to the transport
    carries every entry of the configuration but [session]: the session
    goes to the transport as the object the request is made through,
    never as an option. *)
Theorem request_options_forwarded self method path data params rs w :
  let w' := snd (SyncClient._do_request self method path data params rs w) in
  (forall key, key <> "session" ->
               requests_config w' !! key = requests_config w !! key)
  /\ (forall rq, sent w' = (sent w ++ [rq])%list ->
        rq_config rq !! "session" = None
        /\ (forall key, key <> "session" ->
                        rq_config rq !! key = requests_config w !! key)
        /\ rq_session rq = match requests_config w !! "session" with
                           | Some (CfgSession h) => Some h
                           | _ => None
                           end).
Proof.
  cbn zeta.
  destruct (sync_cases self method path data params rs w)
    as [(e & _ & ->)|[(u & v & _ & _ & _ & ->)|(u & _ & _ & Hrun)]].
  - cbn [snd]. split; [reflexivity|].
    intros rq Hs. destruct (snoc_not_self _ _ Hs).
  - cbn [snd requests_config sent]. split.
    + intros key Hk. apply lookup_delete_ne. congruence.
    + intros rq Hs. destruct (snoc_not_self _ _ Hs).
  - cbn zeta in Hrun. rewrite Hrun. cbn [snd requests_config sent]. split.
    + intros key Hk. apply config_after_other. exact Hk.
    + intros rq Hs. apply app_inv_head in Hs. injection Hs as <-.
      cbn [sync_request rq_config rq_session]. split; [apply lookup_delete_eq|].
      split; [|reflexivity].
      intros key Hk. apply lookup_delete_ne. congruence.
Qed.

(** X4: when the transport answers a blocking request, whatever the
    status, [requests_config] is afterwards what it was before, provided
    its [session] entry is a session object or is absent. *)
Theorem config_restored_when_transport_answers
    self method path data params rs w u r :
  _build_request_url self path params = Ret u ->
  (requests_config w !! "session" = None
   \/ exists h, requests_config w !! "session" = Some (CfgSession h)) ->
  net w (sent w) (sync_request self method u data (requests_config w)) = Ret r ->
  SyncClient._do_request self method path data params rs w
  = (classify rs r,
     mkWorld (net w)
       (sent w ++ [sync_request self method u data (requests_config w)])%list
       (requests_config w) (container w)).
Proof.
  intros Hu Hsession Hr.
  assert (Hs : session_ok (requests_config w)).
  { unfold session_ok. destruct Hsession as [->|[h ->]]; exact I. }
  rewrite (sync_run _ _ _ _ _ _ _ u Hs Hu). cbn zeta. rewrite Hr.
  cbn [mbind outcome_bind]. f_equal. f_equal. unfold config_after.
  destruct Hsession as [Hnone|[h Hh]].
  - rewrite Hnone. apply delete_id. exact Hnone.
  - rewrite Hh. reflexivity.
Qed.

(** X5: a blocking client is always constructed with a [timeout]: the
    one in the given configuration when there is one, the [timeout]
    argument otherwise; the other entries are the given ones.  Every
    request the client then makes carries that timeout, and the
    configuration still holds it afterwards. *)
Theorem timeout_always_configured
    url authorization extra_headers given timeout
    method path data params rs w :
  let built :=
    SyncClient__init__ url authorization extra_headers given timeout in
  let chosen := match default ∅ given !! "timeout" with
                | Some v => v
                | None => CfgValue timeout
                end in
  snd built !! "timeout" = Some chosen
  /\ (forall key, key <> "timeout" ->
                  snd built !! key = default ∅ given !! key)
  /\ (requests_config w = snd built ->
      let w' := snd (SyncClient._do_request (fst built) method path data
                       params rs w) in
      requests_config w' !! "timeout" = Some chosen
      /\ forall rq, sent w' = (sent w ++ [rq])%list ->
                    rq_config rq !! "timeout" = Some chosen).
Proof.
  intros built chosen.
  assert (Htimeout : snd built !! "timeout" = Some chosen).
  { subst built chosen. unfold SyncClient__init__. cbn [snd].
    destruct (default ∅ given !! "timeout") eqn:Ht;
      [exact Ht|apply lookup_insert_eq]. }
  split; [exact Htimeout|]. split.
  { intros key Hk. subst built. unfold SyncClient__init__. cbn [snd].
    destruct (default ∅ given !! "timeout");
      [reflexivity|apply lookup_insert_ne; congruence]. }
  intros Hw w'. subst w'. rewrite <- Hw in Htimeout.
  destruct (sync_cases (fst built) method path data params rs w)
    as [(e & _ & ->)|[(u & v & _ & _ & _ & ->)|(u & _ & _ & Hrun)]].
  - cbn [snd]. split; [exact Htimeout|].
    intros rq Hs. destruct (snoc_not_self _ _ Hs).
  - cbn [snd requests_config sent]. split.
    + rewrite lookup_delete_ne by discriminate. exact Htimeout.
    + intros rq Hs. destruct (snoc_not_self _ _ Hs).
  - cbn zeta in Hrun. rewrite Hrun. cbn [snd requests_config sent]. split.
    + rewrite config_after_other by discriminate. exact Htimeout.
    + intros rq Hs. apply app_inv_head in Hs. injection Hs as <-.
      cbn [sync_request rq_config].
      rewrite lookup_delete_ne by discriminate. exact Htimeout.
Qed.
End Configuration.

Section OperationEffects.
Context {E : Externals}.
Import Text Url AbstractClient Spec Modes Effects.

Lemma emits_weaken P n n' {A} (m : M A) :
  (n <= n')%nat -> emits P n m -> emits P n' m.
Proof.
  intros Hn Hm w. destruct (Hm w) as (l & Hs & HP & Hl & Hnet).
  exists l. repeat split; try assumption. lia.
Qed.

Lemma emits_pure P n {A} (m : M A) :
  (forall w, sent (snd (m w)) = sent w /\ net (snd (m w)) = net w) ->
  emits P n m.
Proof.
  intros Hm w. destruct (Hm w) as [Hs Hnet]. exists [].
  rewrite app_nil_r. repeat split; try assumption; [constructor|cbn; lia].
Qed.

Lemma emits_ret P n {A} (x : A) : emits P n (mret x).
Proof. apply emits_pure. intros w. split; reflexivity. Qed.

Lemma emits_raise P n {A} e : emits P n (@raise A e).
Proof. apply emits_pure. intros w. split; reflexivity. Qed.

Lemma emits_fuel P n {A} : emits P n (@out_of_fuel A).
Proof. apply emits_pure. intros w. split; reflexivity. Qed.

Lemma emits_lift P n {A} (r : outcome A) : emits P n (lift r).
Proof. apply emits_pure. intros w. split; reflexivity. Qed.

Lemma emits_get_container P n : emits P n get_container.
Proof. apply emits_pure. intros w. split; reflexivity. Qed.

Lemma emits_set_container P n fields : emits P n (set_container fields).
Proof. apply emits_pure. intros w. split; reflexivity. Qed.

Lemma emits_bind P a b {A B} (m : M A) (f : A -> M B) :
  emits P a m -> (forall x, emits P b (f x)) -> emits P (a + b) (m ≫= f).
Proof.
  intros Hm Hf w. rewrite bind_run.
  destruct (Hm w) as (l & Hs & HP & Hl & Hnet).
  destruct (m w) as [[x|e|] w1]; cbn [snd] in *.
  - destruct (Hf x w1) as (l' & Hs' & HP' & Hl' & Hnet').
    exists (l ++ l')%list. rewrite Hs', Hs, <- app_assoc.
    repeat split; [apply Forall_app; auto| |congruence].
    rewrite List.length_app. lia.
  - exists l. repeat split; try assumption. lia.
  - exists l. repeat split; try assumption. lia.
Qed.

Lemma emits_bind_after P n {A B} (m : M A) (f : A -> M B) :
  emits P 0 m -> (forall x, emits P n (f x)) -> emits P n (m ≫= f).
Proof. intros Hm Hf. exact (emits_bind P 0 n m f Hm Hf). Qed.

Lemma emits_bind_before P n {A B} (m : M A) (f : A -> M B) :
  emits P n m -> (forall x, emits P 0 (f x)) -> emits P n (m ≫= f).
Proof.
  intros Hm Hf. apply (emits_weaken P (n + 0)); [lia|].
  exact (emits_bind P n 0 m f Hm Hf).
Qed.

(** A blocking request adds at most one entry to the log, and its URL
    contains the base URL. *)
Lemma emits_sync_request self method path data params rs n :
  emits (on_base self) (S n)
    (SyncClient._do_request self method path data params rs).
Proof.
  intros w.
  pose proof (sync_frame self method path data params rs w) as [Hnet _].
  destruct (sync_sent self method path data params rs w)
    as [Hs|(u & Hu & Hs)]; cbn zeta in *.
  - exists []. rewrite app_nil_r.
    repeat split; try assumption; [constructor|cbn; lia].
  - eexists. split; [exact Hs|]. repeat split; try assumption; [|cbn; lia].
    constructor; [|constructor].
    unfold on_base. cbn [sync_request rq_url].
    eapply build_url_within_base, Hu.
Qed.

Lemma emits_async_request self method path data params rs n :
  emits (on_base self) (S n)
    (AsyncClient._do_request self method path data params rs).
Proof.
  intros w.
  pose proof (async_frame self method path data params rs w) as [Hnet _].
  destruct (async_sent self method path data params rs w)
    as [Hs|(u & Hu & Hs)]; cbn zeta in *.
  - exists []. rewrite app_nil_r.
    repeat split; try assumption; [constructor|cbn; lia].
  - eexists. split; [exact Hs|]. repeat split; try assumption; [|cbn; lia].
    constructor; [|constructor].
    unfold on_base. cbn [async_request rq_url].
    eapply build_url_within_base, Hu.
Qed.

Ltac emits_leaf :=
  match goal with
  | |- emits _ _ (mret _) => apply emits_ret
  | |- emits _ _ (raise _) => apply emits_raise
  | |- emits _ _ (lift _) => apply emits_lift
  | |- emits _ _ out_of_fuel => apply emits_fuel
  | |- emits _ _ get_container => apply emits_get_container
  | |- emits _ _ (set_container _) => apply emits_set_container
  | |- emits _ (S ?n) (SyncClient._do_request ?c ?m ?p ?d ?ps ?rs) =>
      exact (emits_sync_request c m p d ps rs n)
  | |- emits _ (S ?n) (AsyncClient._do_request ?c ?m ?p ?d ?ps ?rs) =>
      exact (emits_async_request c m p d ps rs n)
  | |- emits _ _ (SyncClient._fetch_resource _ _ _) =>
      unfold SyncClient._fetch_resource
  | |- emits _ _ (AsyncClient._fetch_resource _ _ _) =>
      unfold AsyncClient._fetch_resource
  | |- emits _ _ (if ?b then _ else _) => destruct b
  | |- emits _ _ (match ?x with _ => _ end) => destruct x
  end.

Ltac emits_step :=
  first
    [ emits_leaf
    | match goal with
      | |- emits _ _ (mbind _ _) =>
          first [ apply emits_bind_after;
                  [solve [repeat emits_step]|intros ?]
                | apply emits_bind_before;
                  [|intros ?; solve [repeat emits_step]] ]
      end ].

Ltac emits_auto := repeat emits_step.

Lemma emits_sync_fetch self :
  emits (on_base (ss_client self)) 1 (SyncSearchSet.fetch self).
Proof. unfold SyncSearchSet.fetch. emits_auto. Qed.


Lemma emits_async_fetch self :
  emits (on_base (ss_client self)) 1 (AsyncSearchSet.fetch self).
Proof. unfold AsyncSearchSet.fetch. emits_auto. Qed.

Lemma emits_sync_iter self fuel :
  forall next_link,
    emits (on_base (ss_client self)) fuel
      (SyncSearchSet.__iter__ fuel self next_link).
Proof.
  induction fuel as [|fuel IH]; intros next_link;
    cbn [SyncSearchSet.__iter__]; [apply emits_fuel|].
  apply (emits_bind _ 1 fuel); [emits_auto|intros bundle].
  apply emits_bind_after; [emits_auto|intros resources].
  destruct (negb _); [apply emits_ret|].
  apply emits_bind_before; [apply IH|intros; apply emits_ret].
Qed.

Lemma emits_async_iter self fuel :
  forall next_link,
    emits (on_base (ss_client self)) fuel
      (AsyncSearchSet.__aiter__ fuel self next_link).
Proof.
  induction fuel as [|fuel IH]; intros next_link;
    cbn [AsyncSearchSet.__aiter__]; [apply emits_fuel|].
  apply (emits_bind _ 1 fuel); [emits_auto|intros bundle].
  apply emits_bind_after; [emits_auto|intros resources].
  destruct (negb _); [apply emits_ret|].
  apply emits_bind_before; [apply IH|intros; apply emits_ret].
Qed.

Lemma emits_sync_save self fields search_params :
  emits (on_base (res_client self)) 1
    (SyncResource.save self fields search_params).
Proof. unfold SyncResource.save. emits_auto. Qed.

Lemma emits_async_save self fields search_params :
  emits (on_base (res_client self)) 1
    (AsyncResource.save self fields search_params).
Proof. unfold AsyncResource.save. emits_auto. Qed.

Ltac emits_op :=
  repeat first
    [ match goal with
      | |- emits _ _ (SyncResource.save _ _ _) => apply emits_sync_save
      | |- emits _ _ (AsyncResource.save _ _ _) => apply emits_async_save
      | |- emits _ _ (_ (if ?b then _ else _)) => destruct b
      | |- emits _ _ (SyncSearchSet.fetch ?s) => exact (emits_sync_fetch s)
      | |- emits _ _ (AsyncSearchSet.fetch ?s) => exact (emits_async_fetch s)
      end
    | emits_step ].

(** What every operation does to the log, in both modes. *)
Lemma operations_emit op :
  emits (on_base (client_of op)) (call_bound op) (run_sync op)
  /\ emits (on_base (client_of op)) (call_bound op) (run_async op).
Proof.
  split; destruct op; unfold run_sync, run_async, returning;
    cbn [client_of call_bound];
    (apply emits_bind_before; [|intros; apply emits_ret]);
    try (unfold SyncSearchSet.fetch_all, AsyncSearchSet.fetch_all);
    try apply emits_sync_iter; try apply emits_async_iter;
    unfold SyncClient.execute, AsyncClient.execute,
      SyncSearchSet.fetch_raw, AsyncSearchSet.fetch_raw,
      SyncSearchSet.get, AsyncSearchSet.get,
      SyncSearchSet.count, AsyncSearchSet.count,
      SyncSearchSet.first, AsyncSearchSet.first,
      SyncSearchSet.get_or_create, AsyncSearchSet.get_or_create,
      SyncSearchSet.update, AsyncSearchSet.update,
      SyncSearchSet.patch, AsyncSearchSet.patch,
      SyncSearchSet.delete, AsyncSearchSet.delete,
      SyncResource.create, AsyncResource.create,
      SyncResource.update, AsyncResource.update,
      SyncResource.patch, AsyncResource.patch,
      SyncResource.delete, AsyncResource.delete,
      SyncResource.refresh, AsyncResource.refresh,
      SyncResource.is_valid, AsyncResource.is_valid,
      SyncResource.execute, AsyncResource.execute,
      SyncReference.to_resource, AsyncReference.to_resource,
      SyncReference.execute, AsyncReference.execute;
    emits_op.
Qed.

(** X6: whatever the server answers, an operation of the client, the search
    set, the resource or the reference only appends to the log of
    requests; it appends at most one request (the drained iteration: at
    most one per page), every request it sends goes to a URL that
    contains the client's base URL, and the transport is left as it is.
    This holds for the blocking and for the deferred implementation. *)
Theorem operations_stay_on_base (op : operation) (w : World) :
  (exists l,
      sent (snd (run_sync op w)) = (sent w ++ l)%list
      /\ Forall (on_base (client_of op)) l
      /\ (List.length l <= call_bound op)%nat
      /\ net (snd (run_sync op w)) = net w)
  /\ (exists l,
         sent (snd (run_async op w)) = (sent w ++ l)%list
         /\ Forall (on_base (client_of op)) l
         /\ (List.length l <= call_bound op)%nat
         /\ net (snd (run_async op w)) = net w).
Proof.
  destruct (operations_emit op) as [Hs Ha]. split; [apply Hs|apply Ha].
Qed.

Lemma keeps_pure {A} (m : M A) :
  (forall w, container (snd (m w)) = container w) -> keeps_container m.
Proof. intros Hm. exact Hm. Qed.

Lemma keeps_ret {A} (x : A) : keeps_container (mret x).
Proof. intros w. reflexivity. Qed.

Lemma keeps_raise {A} e : keeps_container (@raise A e).
Proof. intros w. reflexivity. Qed.

Lemma keeps_fuel {A} : keeps_container (@out_of_fuel A).
Proof. intros w. reflexivity. Qed.

Lemma keeps_lift {A} (r : outcome A) : keeps_container (lift r).
Proof. intros w. reflexivity. Qed.

Lemma keeps_get_container : keeps_container get_container.
Proof. intros w. reflexivity. Qed.

Lemma keeps_bind {A B} (m : M A) (f : A -> M B) :
  keeps_container m -> (forall x, keeps_container (f x)) ->
  keeps_container (m ≫= f).
Proof.
  intros Hm Hf w. rewrite bind_run. specialize (Hm w).
  destruct (m w) as [[x|e|] w1]; cbn [snd] in *; try assumption.
  rewrite (Hf x w1). assumption.
Qed.

Lemma keeps_sync_request self method path data params rs :
  keeps_container (SyncClient._do_request self method path data params rs).
Proof. intros w. apply (sync_frame self method path data params rs w). Qed.

Lemma keeps_async_request self method path data params rs :
  keeps_container (AsyncClient._do_request self method path data params rs).
Proof. intros w. apply (async_frame self method path data params rs w). Qed.

Ltac keeps_step :=
  match goal with
  | |- keeps_container (mret _) => apply keeps_ret
  | |- keeps_container (raise _) => apply keeps_raise
  | |- keeps_container (lift _) => apply keeps_lift
  | |- keeps_container out_of_fuel => apply keeps_fuel
  | |- keeps_container get_container => apply keeps_get_container
  | |- keeps_container (SyncClient._do_request ?c ?m ?p ?d ?ps ?rs) =>
      exact (keeps_sync_request c m p d ps rs)
  | |- keeps_container (AsyncClient._do_request ?c ?m ?p ?d ?ps ?rs) =>
      exact (keeps_async_request c m p d ps rs)
  | |- keeps_container (SyncClient._fetch_resource _ _ _) =>
      unfold SyncClient._fetch_resource
  | |- keeps_container (AsyncClient._fetch_resource _ _ _) =>
      unfold AsyncClient._fetch_resource
  | |- keeps_container (mbind _ _) => apply keeps_bind; [|intros ?]
  | |- keeps_container (SyncSearchSet.fetch _) => unfold SyncSearchSet.fetch
  | |- keeps_container (AsyncSearchSet.fetch _) => unfold AsyncSearchSet.fetch
  | |- keeps_container (if ?b then _ else _) => destruct b
  | |- keeps_container (match ?x with _ => _ end) => destruct x
  end.

Lemma keeps_sync_iter self fuel :
  forall next_link,
    keeps_container (SyncSearchSet.__iter__ fuel self next_link).
Proof.
  induction fuel as [|fuel IH]; intros next_link;
    cbn [SyncSearchSet.__iter__]; [apply keeps_fuel|].
  apply keeps_bind; [repeat keeps_step|intros bundle].
  apply keeps_bind; [repeat keeps_step|intros resources].
  destruct (negb _); [apply keeps_ret|].
  apply keeps_bind; [apply IH|intros; apply keeps_ret].
Qed.

Lemma keeps_async_iter self fuel :
  forall next_link,
    keeps_container (AsyncSearchSet.__aiter__ fuel self next_link).
Proof.
  induction fuel as [|fuel IH]; intros next_link;
    cbn [AsyncSearchSet.__aiter__]; [apply keeps_fuel|].
  apply keeps_bind; [repeat keeps_step|intros bundle].
  apply keeps_bind; [repeat keeps_step|intros resources].
  destruct (negb _); [apply keeps_ret|].
  apply keeps_bind; [apply IH|intros; apply keeps_ret].
Qed.

Lemma read_operations_keep op :
  writes_container op = false ->
  keeps_container (run_sync op) /\ keeps_container (run_async op).
Proof.
  intros Hop.
  split; destruct op; try discriminate Hop;
    unfold run_sync, run_async, returning;
    (apply keeps_bind; [|intros; apply keeps_ret]);
    try (unfold SyncSearchSet.fetch_all, AsyncSearchSet.fetch_all);
    try apply keeps_sync_iter; try apply keeps_async_iter;
    unfold SyncClient.execute, AsyncClient.execute,
      SyncSearchSet.fetch_raw, AsyncSearchSet.fetch_raw,
      SyncSearchSet.get, AsyncSearchSet.get,
      SyncSearchSet.count, AsyncSearchSet.count,
      SyncSearchSet.first, AsyncSearchSet.first,
      SyncSearchSet.get_or_create, AsyncSearchSet.get_or_create,
      SyncSearchSet.update, AsyncSearchSet.update,
      SyncSearchSet.patch, AsyncSearchSet.patch,
      SyncSearchSet.delete, AsyncSearchSet.delete,
      SyncResource.delete, AsyncResource.delete,
      SyncResource.is_valid, AsyncResource.is_valid,
      SyncResource.execute, AsyncResource.execute,
      SyncReference.to_resource, AsyncReference.to_resource,
      SyncReference.execute, AsyncReference.execute;
    repeat keeps_step.
Qed.

(** X7: only save, create, update, patch and refresh of a resource write
    to the resource's fields.  Every other operation, whatever the
    server answers and whether it returns or raises, leaves them as they
    were: the search set's get_or_create, update and patch do not copy
    the server's answer into the resource they were given, and delete
    and is_valid do not touch the local fields. *)
Theorem other_operations_keep_fields (op : operation) (w : World) :
  writes_container op = false ->
  container (snd (run_sync op w)) = container w
  /\ container (snd (run_async op w)) = container w.
Proof.
  intros Hop. destruct (read_operations_keep op Hop) as [Hs Ha].
  split; [apply Hs|apply Ha].
Qed.
End OperationEffects.

Section SearchSets.
Context {E : Externals}.
Import Text Url AbstractClient AbstractSearchSet Spec.

Lemma dict_get_set_eq k v d : Dict.get k (Dict.set k v d) = Some v.
Proof.
  induction d as [|[k' v'] d IH]; cbn [Dict.set Dict.get].
  - rewrite String.eqb_refl. reflexivity.
  - destruct (String.eqb k k') eqn:Hk; cbn [Dict.get].
    + rewrite String.eqb_refl. reflexivity.
    + rewrite Hk. exact IH.
Qed.

Lemma dict_get_set_ne k k' v d :
  k' <> k -> Dict.get k' (Dict.set k v d) = Dict.get k' d.
Proof.
  intros Hne. induction d as [|[k0 v0] d IH]; cbn [Dict.set Dict.get].
  - destruct (String.eqb k' k) eqn:Hk; [|reflexivity].
    apply String.eqb_eq in Hk. contradiction.
  - destruct (String.eqb k k0) eqn:Hk; cbn [Dict.get].
    + apply String.eqb_eq in Hk. subst k0.
      destruct (String.eqb k' k) eqn:Hk'; [|reflexivity].
      apply String.eqb_eq in Hk'. contradiction.
    + rewrite IH. reflexivity.
Qed.

Lemma dict_keys_set_present k v d x :
  Dict.get k d = Some x -> Dict.keys (Dict.set k v d) = Dict.keys d.
Proof.
  induction d as [|[k0 v0] d IH]; cbn [Dict.set Dict.get]; [discriminate|].
  destruct (String.eqb k k0) eqn:Hk; intros Hget.
  - apply String.eqb_eq in Hk. subst k0. reflexivity.
  - unfold Dict.keys in *. cbn [map fst]. rewrite (IH Hget). reflexivity.
Qed.

(** One served page, as [fetch] returns it. *)
Lemma sync_fetch_items self w bundle items :
  session_ok (requests_config w) ->
  serves_page (net w) (ss_client self)
    (ss_resource_type self, Some (ss_params self)) bundle ->
  _get_bundle_resources bundle = Ret items ->
  exists w', SyncSearchSet.fetch self w = (Ret items, w') /\ extends_by 1 w w'.
Proof.
  intros Hok Hserve Hitems.
  destruct (sync_fetch_served _ _ _ w Hok Hserve) as (w' & Hrun & Hext).
  exists w'. split; [|exact Hext].
  unfold SyncSearchSet.fetch. rewrite bind_run. cbn [fst snd] in Hrun.
  rewrite Hrun. rewrite bind_run. unfold lift. rewrite Hitems. reflexivity.
Qed.

Lemma async_fetch_items self w bundle items :
  session_ok (requests_config w) ->
  serves_page (net w) (ss_client self)
    (ss_resource_type self, Some (ss_params self)) bundle ->
  _get_bundle_resources bundle = Ret items ->
  exists w', AsyncSearchSet.fetch self w = (Ret items, w') /\ extends_by 1 w w'.
Proof.
  intros Hok Hserve Hitems.
  destruct (async_fetch_served _ _ _ w Hok Hserve) as (w' & Hrun & Hext).
  exists w'. split; [|exact Hext].
  unfold AsyncSearchSet.fetch. rewrite bind_run. cbn [fst snd] in Hrun.
  rewrite Hrun. rewrite bind_run. unfold lift. rewrite Hitems. reflexivity.
Qed.

(** X8: [get] asks for at most two matches and decides by how many the
    server returned: none raises ResourceNotFound, exactly one is
    returned, more than one raises MultipleResourcesFound.  One request
    is made in each case. *)
Theorem get_by_number_of_matches (self : SearchSet) (id : json) (w : World)
    (bundle : json) (items : list json) :
  let searchset := if truthy id then search_id id (limit 2 self)
                   else limit 2 self in
  let expected := match items with
                  | [] => Raise (ResourceNotFound "No resources found")
                  | [resource] => Ret (dict_to_resource resource)
                  | _ => Raise (MultipleResourcesFound
                                  "More than one resource found")
                  end in
  session_ok (requests_config w) ->
  serves_page (net w) (ss_client self)
    (ss_resource_type self, Some (ss_params searchset)) bundle ->
  _get_bundle_resources bundle = Ret items ->
  (fst (SyncSearchSet.get self id w) = expected
   /\ List.length (sent (snd (SyncSearchSet.get self id w)))
      = S (List.length (sent w)))
  /\ (fst (AsyncSearchSet.get self id w) = expected
      /\ List.length (sent (snd (AsyncSearchSet.get self id w)))
         = S (List.length (sent w))).
Proof.
  intros searchset expected Hok Hserve Hitems.
  assert (Hc : ss_client searchset = ss_client self)
    by (unfold searchset; destruct (truthy id); reflexivity).
  assert (Ht : ss_resource_type searchset = ss_resource_type self)
    by (unfold searchset; destruct (truthy id); reflexivity).
  rewrite <- Hc, <- Ht in Hserve.
  split.
  - destruct (sync_fetch_items searchset w bundle items Hok Hserve Hitems)
      as (w' & Hrun & _ & _ & _ & Hlen).
    unfold SyncSearchSet.get. fold searchset. rewrite bind_run, Hrun.
    replace (List.length (sent w) + 1)%nat with (S (List.length (sent w)))
      in Hlen by lia.
    unfold expected. destruct items as [|x [|y items]]; split; assumption || reflexivity.
  - destruct (async_fetch_items searchset w bundle items Hok Hserve Hitems)
      as (w' & Hrun & _ & _ & _ & Hlen).
    unfold AsyncSearchSet.get. fold searchset. rewrite bind_run, Hrun.
    replace (List.length (sent w) + 1)%nat with (S (List.length (sent w)))
      in Hlen by lia.
    unfold expected. destruct items as [|x [|y items]]; split; assumption || reflexivity.
Qed.

(** X9: [first] asks for one match and returns the first resource of the
    page; when the page holds none it returns None, where [get] raises. *)
Theorem first_of_matches (self : SearchSet) (w : World) (bundle : json)
    (items : list json) :
  session_ok (requests_config w) ->
  serves_page (net w) (ss_client self)
    (ss_resource_type self, Some (ss_params (limit 1 self))) bundle ->
  _get_bundle_resources bundle = Ret items ->
  fst (SyncSearchSet.first self w) = Ret (hd JNull items)
  /\ fst (AsyncSearchSet.first self w) = Ret (hd JNull items).
Proof.
  intros Hok Hserve Hitems. split.
  - destruct (sync_fetch_items (limit 1 self) w bundle items Hok Hserve Hitems)
      as (w' & Hrun & _).
    unfold SyncSearchSet.first. rewrite bind_run, Hrun.
    destruct items; reflexivity.
  - destruct (async_fetch_items (limit 1 self) w bundle items Hok Hserve Hitems)
      as (w' & Hrun & _).
    unfold AsyncSearchSet.first. rewrite bind_run, Hrun.
    destruct items; reflexivity.
Qed.

(** X10: [count] queries with [_count] set to 0 and [_totalMethod] set to
    count, whatever the search set's own parameters say about the two,
    keeps every other parameter, and returns the [total] of the
    payload: a payload without [total] raises KeyError. *)
Theorem count_returns_total (self : SearchSet) (w : World) (data : json) :
  let params := Dict.set "_totalMethod" (JStr "count")
                  (Dict.set "_count" (JInt 0) (ss_params self)) in
  session_ok (requests_config w) ->
  serves_page (net w) (ss_client self)
    (ss_resource_type self, Some params) data ->
  (Dict.get "_count" params = Some (JInt 0)
   /\ Dict.get "_totalMethod" params = Some (JStr "count")
   /\ forall k, k <> "_count" -> k <> "_totalMethod" ->
                Dict.get k params = Dict.get k (ss_params self))
  /\ fst (SyncSearchSet.count self w) = subscript data "total"
  /\ fst (AsyncSearchSet.count self w) = subscript data "total".
Proof.
  intros params Hok Hserve. split; [|split].
  - unfold params. split; [|split].
    + rewrite dict_get_set_ne by discriminate. apply dict_get_set_eq.
    + apply dict_get_set_eq.
    + intros k H1 H2. rewrite !dict_get_set_ne by assumption. reflexivity.
  - destruct (sync_fetch_served _ _ _ w Hok Hserve) as (w' & Hrun & _).
    cbn [fst snd] in Hrun.
    unfold SyncSearchSet.count. fold params. rewrite bind_run, Hrun.
    reflexivity.
  - destruct (async_fetch_served _ _ _ w Hok Hserve) as (w' & Hrun & _).
    cbn [fst snd] in Hrun.
    unfold AsyncSearchSet.count. fold params. rewrite bind_run, Hrun.
    reflexivity.
Qed.

Lemma request_served_sync self method path data params rs w u r v :
  session_ok (requests_config w) ->
  _build_request_url self path params = Ret u ->
  answers (net w) r -> is_2xx (status_code r) ->
  content r <> "" -> json_loads (content r) = Some v ->
  fst (SyncClient._do_request self method path data params rs w)
  = Ret (with_status rs v (status_code r)).
Proof.
  intros Hok Hu Hnet H2 Hne Hv.
  rewrite (sync_run _ _ _ _ _ _ _ u Hok Hu). cbn [fst].
  rewrite Hnet. exact (classify_2xx_body rs r v H2 Hne Hv).
Qed.

Lemma request_served_async self method path data params rs w u r v :
  _build_request_url self path params = Ret u ->
  answers (net w) r -> is_2xx (status_code r) ->
  content r <> "" -> json_loads (content r) = Some v ->
  fst (AsyncClient._do_request self method path data params rs w)
  = Ret (with_status rs v (status_code r)).
Proof.
  intros Hu Hnet H2 Hne Hv.
  rewrite (async_run _ _ _ _ _ _ _ u Hu). cbn [fst].
  rewrite Hnet. exact (classify_2xx_body rs r v H2 Hne Hv).
Qed.

Lemma fst_bind_ret {A B} (m : M A) (f : A -> M B) w x :
  fst (m w) = Ret x -> (m ≫= f) w = f x (snd (m w)).
Proof.
  intros Hm. rewrite bind_run. destruct (m w) as [o w']. cbn [fst snd] in *.
  subst o. reflexivity.
Qed.

(** X11: the conditional create and the conditional update of a search
    set report that a resource was created exactly when the server
    answered 201; any other successful status, such as 200, is reported
    as not created.  The payload is returned beside the flag. *)
Theorem created_flag_follows_status (self : SearchSet) (resource : Resource)
    (w : World) (u : string) (r : Response) (data : json) :
  res_resource_type resource = ss_resource_type self ->
  session_ok (requests_config w) ->
  _build_request_url (ss_client self) (ss_resource_type self)
    (Some (ss_params self)) = Ret u ->
  answers (net w) r ->
  is_2xx (status_code r) ->
  content r <> "" ->
  json_loads (content r) = Some data ->
  let result := Ret (data, status_code r =? 201) in
  fst (SyncSearchSet.get_or_create self resource w) = result
  /\ fst (SyncSearchSet.update self resource w) = result
  /\ fst (AsyncSearchSet.get_or_create self resource w) = result
  /\ fst (AsyncSearchSet.update self resource w) = result.
Proof.
  intros Hty Hok Hu Hnet H2 Hne Hv result.
  unfold SyncSearchSet.get_or_create, SyncSearchSet.update,
    AsyncSearchSet.get_or_create, AsyncSearchSet.update.
  rewrite Hty, String.eqb_refl. cbn [negb].
  repeat split.
  - rewrite bind_run. cbn [get_container].
    rewrite (fst_bind_ret _ _ _ (data, status_code r)); [reflexivity|].
    exact (request_served_sync _ _ _ _ _ true w u r data Hok Hu Hnet H2 Hne Hv).
  - rewrite bind_run. cbn [get_container].
    rewrite (fst_bind_ret _ _ _ (data, status_code r)); [reflexivity|].
    exact (request_served_sync _ _ _ _ _ true w u r data Hok Hu Hnet H2 Hne Hv).
  - rewrite bind_run. cbn [get_container].
    rewrite (fst_bind_ret _ _ _ (data, status_code r)); [reflexivity|].
    exact (request_served_async _ _ _ _ _ true w u r data Hu Hnet H2 Hne Hv).
  - rewrite bind_run. cbn [get_container].
    rewrite (fst_bind_ret _ _ _ (data, status_code r)); [reflexivity|].
    exact (request_served_async _ _ _ _ _ true w u r data Hu Hnet H2 Hne Hv).
Qed.

Lemma materialise_entries (entries : list json) :
  Forall (fun item => exists im r, item = JObj im
                                   /\ Dict.get "resource" im = Some r) entries ->
  exists entries',
    map_outcome
      (fun item =>
         resource ← subscript item "resource";
         match item with
         | JObj im =>
             Ret (JObj (Dict.set "resource" (dict_to_resource resource) im))
         | _ => Ret item
         end) entries = Ret entries'
    /\ Forall2 (fun item item' =>
                  exists im r, item = JObj im
                               /\ Dict.get "resource" im = Some r
                               /\ item' = JObj (Dict.set "resource"
                                                  (dict_to_resource r) im))
         entries entries'.
Proof.
  induction 1 as [|item entries (im & r & -> & Hr) _ (entries' & Hrun & Hall)].
  - exists []. split; [reflexivity|constructor].
  - exists (JObj (Dict.set "resource" (dict_to_resource r) im) :: entries').
    split.
    + cbn [map_outcome subscript]. rewrite Hr.
      unfold mbind, outcome_bind in *. rewrite Hrun. reflexivity.
    + constructor; [|exact Hall]. exists im, r. auto.
Qed.

(** X12: [fetch_raw] returns the Bundle the server sent with every
    entry's [resource] materialised and nothing else changed: the same
    keys at the top (total, link and the like keep their values), the
    same number of entries in the same order, and within an entry every
    field other than [resource] as it was. *)
Theorem fetch_raw_keeps_bundle_shape (self : SearchSet) (w : World)
    (m : dict) (entries : list json) :
  session_ok (requests_config w) ->
  serves_page (net w) (ss_client self)
    (ss_resource_type self, Some (ss_params self)) (JObj m) ->
  Dict.get "resourceType" m = Some (JStr "Bundle") ->
  Dict.get "entry" m = Some (JArr entries) ->
  Forall (fun item => exists im r, item = JObj im
                                   /\ Dict.get "resource" im = Some r) entries ->
  exists m' entries',
    fst (SyncSearchSet.fetch_raw self w) = Ret (JObj m')
    /\ fst (AsyncSearchSet.fetch_raw self w) = Ret (JObj m')
    /\ Dict.keys m' = Dict.keys m
    /\ (forall k, k <> "entry" -> Dict.get k m' = Dict.get k m)
    /\ Dict.get "entry" m' = Some (JArr entries')
    /\ Forall2 (fun item item' =>
                  exists im r,
                    item = JObj im
                    /\ Dict.get "resource" im = Some r
                    /\ item' = JObj (Dict.set "resource"
                                       (dict_to_resource r) im)
                    /\ forall k, k <> "resource" ->
                                 subscript item' k = subscript item k)
         entries entries'.
Proof.
  intros Hok Hserve Hty Hentry Hall.
  destruct (materialise_entries entries Hall) as (entries' & Hrun & Hall').
  exists (Dict.set "entry" (JArr entries') m), entries'.
  split; [|split; [|split; [|split; [|split]]]].
  - destruct (sync_fetch_served _ _ _ w Hok Hserve) as (w' & Hfetch & _).
    cbn [fst snd] in Hfetch.
    unfold SyncSearchSet.fetch_raw. rewrite bind_run, Hfetch.
    rewrite bind_run. unfold lift. cbn [get_or_none]. rewrite Hty.
    change (eq_str _ "Bundle") with true. cbn iota.
    rewrite bind_run. cbn [subscript]. rewrite Hentry.
    rewrite bind_run. rewrite Hrun. reflexivity.
  - destruct (async_fetch_served _ _ _ w Hok Hserve) as (w' & Hfetch & _).
    cbn [fst snd] in Hfetch.
    unfold AsyncSearchSet.fetch_raw. rewrite bind_run, Hfetch.
    rewrite bind_run. unfold lift. cbn [get_or_none]. rewrite Hty.
    change (eq_str _ "Bundle") with true. cbn iota.
    rewrite bind_run. cbn [subscript]. rewrite Hentry.
    rewrite bind_run. rewrite Hrun. reflexivity.
  - exact (dict_keys_set_present _ _ _ _ Hentry).
  - intros k Hk. apply dict_get_set_ne. exact Hk.
  - apply dict_get_set_eq.
  - eapply Forall2_impl; [exact Hall'|].
    intros item item' (im & r & -> & Hr & ->). exists im, r.
    repeat split; try assumption.
    intros k Hk. cbn [subscript]. rewrite dict_get_set_ne by exact Hk.
    reflexivity.
Qed.
End SearchSets.

Section SearchSetExamples.
Import Text Url AbstractClient AbstractSearchSet Spec.
#[local] Existing Instance Stubs.externals.

(** A server that answers every request with the same payload. *)
Lemma always_serves client target page u :
  _build_request_url client (fst target) (snd target) = Ret u ->
  Stubs.decode (Stubs.encode page) = Some page ->
  String.eqb (Stubs.encode page) "" = false ->
  serves_page (Sample.always (mkResponse 200 (Stubs.encode page))) client
    target page.
Proof.
  intros Hu Hdec Hne. exists u, (mkResponse 200 (Stubs.encode page)).
  split; [exact Hu|]. split; [intros; reflexivity|].
  split; [unfold is_2xx; cbn; lia|]. split; [|exact Hdec].
  cbn [content]. intros Heq. rewrite Heq in Hne. discriminate.
Qed.

Lemma get_by_number_of_matches_witness :
  let w := Sample.world
             (Sample.always
                (mkResponse 200
                   (Stubs.encode (Sample.bundle [Sample.named "a"] None)))) in
  (fst (SyncSearchSet.get Sample.patients JNull w) = Ret (Sample.named "a")
   /\ List.length (sent (snd (SyncSearchSet.get Sample.patients JNull w)))
      = 1%nat)
  /\ (fst (AsyncSearchSet.get Sample.patients JNull w) = Ret (Sample.named "a")
      /\ List.length (sent (snd (AsyncSearchSet.get Sample.patients JNull w)))
         = 1%nat).
Proof.
  intros w.
  apply (get_by_number_of_matches (E := Stubs.externals)
           Sample.patients JNull w
           (Sample.bundle [Sample.named "a"] None) [Sample.named "a"]).
  - exact I.
  - apply (always_serves _ _ _ "https://example.com:443/fhir/Patient?_count=2");
      reflexivity.
  - reflexivity.
Defined.

Lemma first_of_matches_witness :
  let w := Sample.world
             (Sample.always
                (mkResponse 200 (Stubs.encode (Sample.bundle [] None)))) in
  fst (SyncSearchSet.first Sample.patients w) = Ret JNull
  /\ fst (AsyncSearchSet.first Sample.patients w) = Ret JNull.
Proof.
  intros w.
  apply (first_of_matches (E := Stubs.externals)
           Sample.patients w (Sample.bundle [] None) []).
  - exact I.
  - apply (always_serves _ _ _ "https://example.com:443/fhir/Patient?_count=1");
      reflexivity.
  - reflexivity.
Defined.

Lemma count_returns_total_witness :
  let data := JObj [("resourceType", JStr "Bundle"); ("total", JInt 5)] in
  let w := Sample.world (Sample.always (mkResponse 200 (Stubs.encode data))) in
  fst (SyncSearchSet.count Sample.patients w) = Ret (JInt 5)
  /\ fst (AsyncSearchSet.count Sample.patients w) = Ret (JInt 5).
Proof.
  intros data w.
  apply (count_returns_total (E := Stubs.externals) Sample.patients w data).
  - exact I.
  - apply (always_serves _ _ _
             "https://example.com:443/fhir/Patient?_count=0&_totalMethod=count");
      reflexivity.
Defined.

Lemma created_flag_follows_status_witness :
  let w := Sample.world_with Sample.unsaved_patient
             (Sample.always
                (mkResponse 200 (Stubs.encode (Sample.named "a")))) in
  let result := Ret (Sample.named "a", false) in
  fst (SyncSearchSet.get_or_create Sample.patients Sample.patient_resource w)
  = result
  /\ fst (SyncSearchSet.update Sample.patients Sample.patient_resource w)
     = result
  /\ fst (AsyncSearchSet.get_or_create Sample.patients Sample.patient_resource w)
     = result
  /\ fst (AsyncSearchSet.update Sample.patients Sample.patient_resource w)
     = result.
Proof.
  intros w result.
  apply (created_flag_follows_status (E := Stubs.externals)
           Sample.patients Sample.patient_resource w
           "https://example.com:443/fhir/Patient?_count=2"
           (mkResponse 200 (Stubs.encode (Sample.named "a")))
           (Sample.named "a")).
  - reflexivity.
  - exact I.
  - reflexivity.
  - intros hist rq. reflexivity.
  - unfold is_2xx. cbn. lia.
  - discriminate.
  - reflexivity.
Defined.

Lemma fetch_raw_keeps_bundle_shape_witness :
  let entries := [JObj [("fullUrl", JStr "urn:a");
                        ("resource", Sample.named "a")]] in
  let m := [("resourceType", JStr "Bundle"); ("total", JInt 1);
            ("entry", JArr entries)] in
  let w := Sample.world
             (Sample.always (mkResponse 200 (Stubs.encode (JObj m)))) in
  exists m' entries',
    fst (SyncSearchSet.fetch_raw Sample.patients w) = Ret (JObj m')
    /\ fst (AsyncSearchSet.fetch_raw Sample.patients w) = Ret (JObj m')
    /\ Dict.keys m' = Dict.keys m
    /\ (forall k, k <> "entry" -> Dict.get k m' = Dict.get k m)
    /\ Dict.get "entry" m' = Some (JArr entries')
    /\ Forall2 (fun item item' =>
                  exists im r,
                    item = JObj im
                    /\ Dict.get "resource" im = Some r
                    /\ item' = JObj (Dict.set "resource"
                                       (dict_to_resource r) im)
                    /\ forall k, k <> "resource" ->
                                 subscript item' k = subscript item k)
         entries entries'.
Proof.
  intros entries m w.
  apply (fetch_raw_keeps_bundle_shape (E := Stubs.externals)
           Sample.patients w m entries).
  - exact I.
  - apply (always_serves _ _ _ "https://example.com:443/fhir/Patient?_count=2");
      reflexivity.
  - reflexivity.
  - reflexivity.
  - repeat constructor. eexists _, _. split; reflexivity.
Defined.
End SearchSetExamples.

Section ResourceFields.
Context {E : Externals}.
Import Text Url AbstractClient BaseResource Spec.

Lemma dict_get_app k d d' :
  Dict.get k (d ++ d')%list = match Dict.get k d with
                              | Some v => Some v
                              | None => Dict.get k d'
                              end.
Proof.
  induction d as [|[k0 v0] d IH]; cbn [Dict.get app]; [reflexivity|].
  destruct (String.eqb k k0); [reflexivity|exact IH].
Qed.

Lemma dict_get_set k k' v d :
  Dict.get k' (Dict.set k v d)
  = if String.eqb k' k then Some v else Dict.get k' d.
Proof.
  destruct (String.eqb k' k) eqn:Hk.
  - apply String.eqb_eq in Hk. subst k'. apply dict_get_set_eq.
  - apply dict_get_set_ne. intros ->. rewrite String.eqb_refl in Hk.
    discriminate.
Qed.

(** [d.update(kw)]: the last binding of a key in [kw] wins, and a key
    that [kw] does not bind keeps the value it has in [d]. *)
Lemma dict_get_update k kw :
  forall d, Dict.get k (Dict.update d kw)
            = match Dict.get k (rev kw) with
              | Some v => Some v
              | None => Dict.get k d
              end.
Proof.
  induction kw as [|[k0 v0] kw IH]; intros d; cbn [Dict.update rev];
    [reflexivity|].
  rewrite IH, dict_get_app, dict_get_set. cbn [Dict.get].
  destruct (Dict.get k (rev kw)); [reflexivity|].
  destruct (String.eqb k k0); reflexivity.
Qed.

Lemma dict_get_update_empty k kw :
  Dict.get k (Dict.update [] kw) = Dict.get k (rev kw).
Proof. rewrite dict_get_update. destruct (Dict.get k (rev kw)); reflexivity. Qed.

Lemma sync_save_after self fields search_params w method body data w' :
  sync_prepare fields (container w) = Ret (method, body) ->
  SyncClient._do_request (res_client self) method
    (_get_path self (container w)) body search_params false w
  = (Ret data, w') ->
  SyncResource.save self fields search_params w
  = (fst (apply_response self data (container w)),
     with_container w' (snd (apply_response self data (container w)))).
Proof.
  intros Hp Hrq. rewrite sync_save_run, Hp, Hrq.
  pose proof (sync_frame (res_client self) method
                (_get_path self (container w)) body search_params false w)
    as [_ Hc].
  cbn zeta in Hc. rewrite Hrq in Hc. cbn [snd] in Hc. rewrite Hc.
  destruct (apply_response self data (container w)). reflexivity.
Qed.

Lemma async_save_after self fields search_params w method body data w' :
  async_prepare fields (container w) = Ret (method, body) ->
  AsyncClient._do_request (res_client self) method
    (_get_path self (container w)) body search_params false w
  = (Ret data, w') ->
  AsyncResource.save self fields search_params w
  = (fst (apply_response self data (container w)),
     with_container w' (snd (apply_response self data (container w)))).
Proof.
  intros Hp Hrq. rewrite async_save_run, Hp, Hrq.
  pose proof (async_frame (res_client self) method
                (_get_path self (container w)) body search_params false w)
    as (_ & Hc & _).
  cbn zeta in Hc. rewrite Hrq in Hc. cbn [snd] in Hc. rewrite Hc.
  destruct (apply_response self data (container w)). reflexivity.
Qed.

Lemma apply_response_falsy self data fields :
  truthy data = false -> apply_response self data fields = (Ret tt, fields).
Proof. intros Ht. unfold apply_response. rewrite Ht. reflexivity. Qed.

Lemma apply_response_object self kwargs resource fields :
  kwargs <> [] ->
  client_resource (res_resource_type self) kwargs = Ret resource ->
  apply_response self (JObj kwargs) fields = (Ret tt, Dict.update [] resource).
Proof.
  intros Hne Hres. unfold apply_response. cbn [truthy kwargs_of].
  destruct kwargs; [contradiction|].
  unfold mbind, outcome_bind. rewrite Hres. reflexivity.
Qed.

Lemma apply_response_not_mapping self data fields :
  truthy data = true -> (forall kwargs, data <> JObj kwargs) ->
  exists msg, apply_response self data fields = (Raise (TypeError msg), []).
Proof.
  intros Ht Hno. unfold apply_response. rewrite Ht.
  destruct data; try (eexists; reflexivity).
  destruct (Hno _ eq_refl).
Qed.

Lemma apply_response_rejected self kwargs e fields :
  kwargs <> [] ->
  client_resource (res_resource_type self) kwargs = Raise e ->
  apply_response self (JObj kwargs) fields = (Raise e, []).
Proof.
  intros Hne Hres. unfold apply_response. cbn [truthy kwargs_of].
  destruct kwargs; [contradiction|].
  unfold mbind, outcome_bind. rewrite Hres. reflexivity.
Qed.

(** X13: what a successful [save] leaves in the resource.  When the
    payload of the response is an object, the fields afterwards are
    exactly those of the resource the client builds from it (for a key
    given more than once the last value): no field of the resource
    before the call survives unless the server sent it back.  When the
    payload is empty (no body, or an empty object) the fields are left
    as they were.  The log and the configuration are those the request
    left. *)
Theorem save_replaces_fields (self : Resource) (fields : option (list string))
    (search_params : option dict) (w : World) :
  let path := _get_path self (container w) in
  let replaced (after : outcome unit * World) (w' : World) (data : json) :=
    (truthy data = false -> after = (Ret tt, w') /\ container w' = container w)
    /\ (forall kwargs resource,
          data = JObj kwargs -> kwargs <> [] ->
          client_resource (res_resource_type self) kwargs = Ret resource ->
          fst after = Ret tt
          /\ (forall k, Dict.get k (container (snd after))
                        = Dict.get k (rev resource))
          /\ sent (snd after) = sent w'
          /\ requests_config (snd after) = requests_config w') in
  (forall method body data w',
      sync_prepare fields (container w) = Ret (method, body) ->
      SyncClient._do_request (res_client self) method path body search_params
        false w = (Ret data, w') ->
      replaced (SyncResource.save self fields search_params w) w' data)
  /\ (forall method body data w',
         async_prepare fields (container w) = Ret (method, body) ->
         AsyncClient._do_request (res_client self) method path body
           search_params false w = (Ret data, w') ->
         replaced (AsyncResource.save self fields search_params w) w' data).
Proof.
  intros path replaced; unfold replaced; clear replaced. split.
  - intros method body data w' Hp Hrq.
    rewrite (sync_save_after _ _ _ _ _ _ _ _ Hp Hrq).
    pose proof (sync_frame (res_client self) method path body search_params
                  false w) as [_ Hc].
    cbn zeta in Hc. rewrite Hrq in Hc. cbn [snd] in Hc.
    split.
    + intros Ht. rewrite (apply_response_falsy _ _ _ Ht). cbn [fst snd].
      split; [|exact Hc]. rewrite <- Hc. destruct w'. reflexivity.
    + intros kwargs resource -> Hne Hres.
      rewrite (apply_response_object _ _ _ _ Hne Hres). cbn [fst snd].
      repeat split. intros k. apply dict_get_update_empty.
  - intros method body data w' Hp Hrq.
    rewrite (async_save_after _ _ _ _ _ _ _ _ Hp Hrq).
    pose proof (async_frame (res_client self) method path body search_params
                  false w) as (_ & Hc & _).
    cbn zeta in Hc. rewrite Hrq in Hc. cbn [snd] in Hc.
    split.
    + intros Ht. rewrite (apply_response_falsy _ _ _ Ht). cbn [fst snd].
      split; [|exact Hc]. rewrite <- Hc. destruct w'. reflexivity.
    + intros kwargs resource -> Hne Hres.
      rewrite (apply_response_object _ _ _ _ Hne Hres). cbn [fst snd].
      repeat split. intros k. apply dict_get_update_empty.
Qed.

(** X14: [save] empties the resource before it reads the payload.  When
    the request succeeded but the payload cannot be applied, because it
    is a non-empty value that is not an object (a list, a number, a
    string) or because the client refuses to build a resource from it,
    [save] raises and the resource is left without any field, although
    the server has accepted the write. *)
Theorem save_loses_fields_on_bad_payload (self : Resource)
    (fields : option (list string)) (search_params : option dict) (w : World) :
  let path := _get_path self (container w) in
  let emptied (after : outcome unit * World) (w' : World) (data : json) :=
    (truthy data = true -> (forall kwargs, data <> JObj kwargs) ->
     (exists msg, fst after = Raise (TypeError msg))
     /\ container (snd after) = [] /\ sent (snd after) = sent w')
    /\ (forall kwargs e,
          data = JObj kwargs -> kwargs <> [] ->
          client_resource (res_resource_type self) kwargs = Raise e ->
          fst after = Raise e
          /\ container (snd after) = [] /\ sent (snd after) = sent w') in
  (forall method body data w',
      sync_prepare fields (container w) = Ret (method, body) ->
      SyncClient._do_request (res_client self) method path body search_params
        false w = (Ret data, w') ->
      emptied (SyncResource.save self fields search_params w) w' data)
  /\ (forall method body data w',
         async_prepare fields (container w) = Ret (method, body) ->
         AsyncClient._do_request (res_client self) method path body
           search_params false w = (Ret data, w') ->
         emptied (AsyncResource.save self fields search_params w) w' data).
Proof.
  intros path emptied; unfold emptied; clear emptied. split.
  - intros method body data w' Hp Hrq.
    rewrite (sync_save_after _ _ _ _ _ _ _ _ Hp Hrq). split.
    + intros Ht Hno.
      destruct (apply_response_not_mapping self data (container w) Ht Hno)
        as [msg ->].
      cbn [fst snd]. repeat split. exists msg. reflexivity.
    + intros kwargs e -> Hne Hres.
      rewrite (apply_response_rejected _ _ _ _ Hne Hres). repeat split.
  - intros method body data w' Hp Hrq.
    rewrite (async_save_after _ _ _ _ _ _ _ _ Hp Hrq). split.
    + intros Ht Hno.
      destruct (apply_response_not_mapping self data (container w) Ht Hno)
        as [msg ->].
      cbn [fst snd]. repeat split. exists msg. reflexivity.
    + intros kwargs e -> Hne Hres.
      rewrite (apply_response_rejected _ _ _ _ Hne Hres). repeat split.
Qed.

Lemma refresh_tail_run data w :
  (set_container [];;
   kwargs ← lift (kwargs_of data);
   cleared ← get_container;
   set_container (Dict.update cleared kwargs)) w
  = match kwargs_of data with
    | Ret kwargs => (Ret tt, with_container w (Dict.update [] kwargs))
    | Raise e => (Raise e, with_container w [])
    | OutOfFuel => (OutOfFuel, with_container w [])
    end.
Proof.
  rewrite bind_run. cbn [set_container]. rewrite bind_run. unfold lift.
  destruct (kwargs_of data); reflexivity.
Qed.

(** X15: [refresh] replaces the fields of the resource by those of the
    payload, and it empties the resource before it reads the payload:
    when the read succeeds with a payload that is not an object, as for
    a 2xx response without a body, [refresh] raises a TypeError and the
    resource is left without any field.  When the read itself raises,
    the fields are left as they were. *)
Theorem refresh_replaces_or_empties (self : Resource) (w : World) :
  let path := _get_path self (container w) in
  let refreshed (after : outcome unit * World) (read : outcome json * World) :=
    match read with
    | (Ret (JObj kwargs), w') =>
        fst after = Ret tt
        /\ (forall k, Dict.get k (container (snd after))
                      = Dict.get k (rev kwargs))
        /\ sent (snd after) = sent w'
    | (Ret _, w') =>
        (exists msg, fst after = Raise (TypeError msg))
        /\ container (snd after) = []
        /\ sent (snd after) = sent w'
    | (Raise e, w') => after = (Raise e, w') /\ container w' = container w
    | (OutOfFuel, w') => after = (OutOfFuel, w')
    end in
  refreshed (SyncResource.refresh self w)
    (SyncClient._do_request (res_client self) "get" path JNull None false w)
  /\ refreshed (AsyncResource.refresh self w)
       (AsyncClient._do_request (res_client self) "get" path JNull None false w).
Proof.
  intros path refreshed; unfold refreshed; clear refreshed. split.
  - unfold SyncResource.refresh. rewrite bind_run. cbn [get_container].
    rewrite bind_run. fold path.
    pose proof (sync_frame (res_client self) "get" path JNull None false w)
      as [_ Hc].
    cbn zeta in Hc.
    destruct (SyncClient._do_request (res_client self) "get" path JNull None
                false w) as [[data|e|] w']; cbn [fst snd] in *.
    + rewrite refresh_tail_run.
      destruct data; cbn [kwargs_of fst snd with_container container sent];
        try (split; [eexists; reflexivity|split; reflexivity]).
      repeat split. intros k. apply dict_get_update_empty.
    + split; [reflexivity|exact Hc].
    + reflexivity.
  - unfold AsyncResource.refresh. rewrite bind_run. cbn [get_container].
    rewrite bind_run. fold path.
    pose proof (async_frame (res_client self) "get" path JNull None false w)
      as (_ & Hc & _).
    cbn zeta in Hc.
    destruct (AsyncClient._do_request (res_client self) "get" path JNull None
                false w) as [[data|e|] w']; cbn [fst snd] in *.
    + rewrite refresh_tail_run.
      destruct data; cbn [kwargs_of fst snd with_container container sent];
        try (split; [eexists; reflexivity|split; reflexivity]).
      repeat split. intros k. apply dict_get_update_empty.
    + split; [reflexivity|exact Hc].
    + reflexivity.
Qed.

(** X16: [create] passes its keyword arguments as the query parameters
    of the request, not as fields of the resource, and the method
    follows the resource's id: a resource without id is sent with POST
    to the type's path, a resource with an id is sent with PUT to its
    own path.  The body is the serialized resource in both cases. *)
Theorem create_method_follows_id (self : Resource) (kwargs : dict) (w : World)
    (u : string) :
  let method := if truthy (id (container w)) then "put" else "post" in
  let path := if truthy (id (container w))
              then res_resource_type self ++ "/" ++ str_of (id (container w))
              else res_resource_type self in
  let body := serialize_fields (container w) in
  session_ok (requests_config w) ->
  _build_request_url (res_client self) path (Some kwargs) = Ret u ->
  sent (snd (SyncResource.create self kwargs w))
  = (sent w ++ [sync_request (res_client self) method u body
                  (requests_config w)])%list
  /\ sent (snd (AsyncResource.create self kwargs w))
     = (sent w ++ [async_request (res_client self) method u body])%list.
Proof.
  intros method path body Hok Hu.
  change path with (_get_path self (container w)) in Hu.
  assert (Hs : sync_prepare None (container w) = Ret (method, body))
    by reflexivity.
  assert (Ha : async_prepare None (container w) = Ret (method, body))
    by reflexivity.
  pose proof (sync_save_sends self None (Some kwargs) w method body u Hs Hu Hok)
    as Hsync.
  pose proof (async_save_sends self None (Some kwargs) w method body u Ha Hu)
    as Hasync.
  unfold SyncResource.create, AsyncResource.create.
  rewrite !bind_run. split.
  - destruct (SyncResource.save self None (Some kwargs) w) as [[[]|e|] w'];
      exact Hsync.
  - destruct (AsyncResource.save self None (Some kwargs) w) as [[[]|e|] w'];
      exact Hasync.
Qed.
End ResourceFields.

Section ResourceFieldExamples.
Import Text Url AbstractClient BaseResource Spec.
#[local] Existing Instance Stubs.externals.

Lemma save_replaces_fields_witness :
  let w := Sample.world_with Sample.patient
             (Sample.always (mkResponse 200 (Stubs.encode (Sample.named "42")))) in
  let w' := snd (SyncClient._do_request Sample.client "put" "Patient/42"
                   (JObj Sample.patient) None false w) in
  let after := SyncResource.save Sample.patient_resource None None w in
  fst after = Ret tt
  /\ (forall k, Dict.get k (container (snd after))
                = Dict.get k [("id", JStr "42");
                              ("resourceType", JStr "Patient")])
  /\ sent (snd after) = sent w'
  /\ requests_config (snd after) = requests_config w'.
Proof.
  intros w w' after.
  apply (proj2 (proj1 (save_replaces_fields (E := Stubs.externals)
                         Sample.patient_resource None None w)
                  "put" (JObj Sample.patient) (Sample.named "42") w'
                  eq_refl eq_refl)
           [("resourceType", JStr "Patient"); ("id", JStr "42")]
           [("resourceType", JStr "Patient"); ("id", JStr "42")]).
  - reflexivity.
  - discriminate.
  - reflexivity.
Defined.

Lemma save_loses_fields_on_bad_payload_witness :
  let w := Sample.world_with Sample.patient
             (Sample.always (mkResponse 200 "[1]")) in
  let w' := snd (SyncClient._do_request Sample.client "put" "Patient/42"
                   (JObj Sample.patient) None false w) in
  let after := SyncResource.save Sample.patient_resource None None w in
  (exists msg, fst after = Raise (TypeError msg))
  /\ container (snd after) = []
  /\ sent (snd after) = sent w'.
Proof.
  intros w w' after.
  apply (proj1 (proj1 (save_loses_fields_on_bad_payload (E := Stubs.externals)
                         Sample.patient_resource None None w)
                  "put" (JObj Sample.patient) (JArr [JInt 1]) w'
                  eq_refl eq_refl)).
  - reflexivity.
  - discriminate.
Defined.

(** A 2xx answer without a body: [refresh] raises and the resource has
    lost its fields. *)
Example refresh_without_body_empties :
  let w := Sample.world_with Sample.patient
             (Sample.always (mkResponse 204 "")) in
  fst (SyncResource.refresh Sample.patient_resource w)
  = Raise (TypeError "argument after ** must be a mapping")
  /\ container (snd (SyncResource.refresh Sample.patient_resource w)) = []
  /\ fst (AsyncResource.refresh Sample.patient_resource w)
     = Raise (TypeError "argument after ** must be a mapping")
  /\ container (snd (AsyncResource.refresh Sample.patient_resource w)) = [].
Proof. repeat split. Qed.

Lemma create_method_follows_id_witness :
  let w := Sample.world_with Sample.patient
             (Sample.always (mkResponse 200 "")) in
  let kwargs := [("identifier", JStr "x")] in
  let u := "https://example.com:443/fhir/Patient/42?identifier=x" in
  sent (snd (SyncResource.create Sample.patient_resource kwargs w))
  = [sync_request Sample.client "put" u (JObj Sample.patient) ∅]
  /\ sent (snd (AsyncResource.create Sample.patient_resource kwargs w))
     = [async_request Sample.client "put" u (JObj Sample.patient)].
Proof.
  intros w kwargs u.
  apply (create_method_follows_id (E := Stubs.externals)
           Sample.patient_resource kwargs w u).
  - exact I.
  - reflexivity.
Defined.
End ResourceFieldExamples.

Section Guards.
Context {E : Externals}.
Import Text Url AbstractClient AbstractSearchSet BaseResource Spec Modes Effects.

Lemma severity_test issue sev :
  subscript issue "severity" = Ret sev ->
  eq_str sev "fatal" || eq_str sev "error" = is_error_issue issue.
Proof.
  unfold is_error_issue, issue_severity.
  destruct issue as [| | | | | |m]; try discriminate. cbn [subscript].
  destruct (Dict.get "severity" m) as [v|]; [|discriminate].
  intros [= ->]. destruct sev; reflexivity.
Qed.

(** [any] stops at the first issue that is an error: only the issues up
    to that one are looked at. *)
Lemma any_error_issue issues :
  (forall pre issue post,
      issues = (pre ++ issue :: post)%list ->
      existsb is_error_issue pre = false ->
      exists sev, subscript issue "severity" = Ret sev) ->
  any_outcome (fun issue =>
                 severity ← subscript issue "severity";
                 Ret (eq_str severity "fatal" || eq_str severity "error"))
    issues
  = Ret (existsb is_error_issue issues).
Proof.
  induction issues as [|issue issues IH]; intros Hsev; [reflexivity|].
  cbn [any_outcome existsb].
  destruct (Hsev [] issue issues eq_refl eq_refl) as [sev Hs].
  rewrite Hs. unfold mbind, outcome_bind. rewrite (severity_test _ _ Hs).
  destruct (is_error_issue issue) eqn:Herr; [reflexivity|].
  cbn [orb]. apply IH. intros pre issue' post -> Hpre.
  apply (Hsev (issue :: pre) issue' post); [reflexivity|].
  cbn [existsb]. rewrite Herr. exact Hpre.
Qed.

Lemma has_errors_verdict m issues :
  Dict.get "issue" m = Some (JArr issues) ->
  (forall pre issue post,
      issues = (pre ++ issue :: post)%list ->
      existsb is_error_issue pre = false ->
      exists sev, subscript issue "severity" = Ret sev) ->
  has_errors (JObj m) = Ret (existsb is_error_issue issues).
Proof.
  intros Hissue Hsev. unfold has_errors. cbn [subscript]. rewrite Hissue.
  unfold mbind at 1 2, outcome_bind. cbn [iterate].
  exact (any_error_issue issues Hsev).
Qed.

(** X17: the verdict of [is_valid].  For an outcome whose [issue] list
    gives a severity for every issue up to the first one that is an
    error, the resource is valid exactly when no issue has severity
    fatal or error; what follows the first such issue is not looked at.
    An invalid resource gives False, or raises OperationOutcome carrying
    the outcome when [raise_exception] is set. *)
Theorem is_valid_verdict (self : Resource) (raise_exception : bool) (w : World)
    (m : dict) (issues : list json) :
  let path := res_resource_type self ++ "/$validate" in
  let body := serialize_fields (container w) in
  let expected :=
    if existsb is_error_issue issues
    then if raise_exception then Raise (OperationOutcome None (Some (JObj m)))
         else Ret false
    else Ret true in
  Dict.get "issue" m = Some (JArr issues) ->
  (forall pre issue post,
      issues = (pre ++ issue :: post)%list ->
      existsb is_error_issue pre = false ->
      exists sev, subscript issue "severity" = Ret sev) ->
  (forall w',
      SyncClient._do_request (res_client self) "post" path body None false w
      = (Ret (JObj m), w') ->
      SyncResource.is_valid self raise_exception w = (expected, w'))
  /\ (forall w',
         AsyncClient._do_request (res_client self) "post" path body None false w
         = (Ret (JObj m), w') ->
         AsyncResource.is_valid self raise_exception w = (expected, w')).
Proof.
  intros path body expected Hissue Hsev.
  pose proof (has_errors_verdict m issues Hissue Hsev) as Hverdict.
  split; intros w' Hrq.
  - unfold SyncResource.is_valid. rewrite bind_run. cbn [get_container].
    rewrite bind_run. fold path body. rewrite Hrq.
    rewrite bind_run. unfold lift. rewrite Hverdict. unfold expected.
    destruct (existsb is_error_issue issues), raise_exception; reflexivity.
  - unfold AsyncResource.is_valid. rewrite bind_run. cbn [get_container].
    rewrite bind_run. fold path body. rewrite Hrq.
    rewrite bind_run. unfold lift. rewrite Hverdict. unfold expected.
    destruct (existsb is_error_issue issues), raise_exception; reflexivity.
Qed.

(** X18: an operation that is turned down by its own guard raises
    without a trace: resolving or executing on a reference that is not
    local raises ResourceNotFound, and handing a search set a resource of
    another type raises AssertionError; no request is built or sent, the
    configuration keeps its session and the resource its fields. *)
Theorem refused_operations_leave_no_trace (op : operation) (e : exn)
    (w : World) :
  refused op = Some e ->
  run_sync op w = (Raise e, w) /\ run_async op w = (Raise e, w).
Proof.
  destruct op; cbn [refused]; try discriminate.
  - destruct (String.eqb _ _) eqn:Hty; [discriminate|]. intros [= <-].
    unfold run_sync, run_async, returning,
      SyncSearchSet.get_or_create, AsyncSearchSet.get_or_create.
    rewrite Hty. split; reflexivity.
  - destruct (String.eqb _ _) eqn:Hty; [discriminate|]. intros [= <-].
    unfold run_sync, run_async, returning,
      SyncSearchSet.update, AsyncSearchSet.update.
    rewrite Hty. split; reflexivity.
  - destruct (String.eqb _ _) eqn:Hty; [discriminate|]. intros [= <-].
    unfold run_sync, run_async, returning,
      SyncSearchSet.patch, AsyncSearchSet.patch.
    rewrite Hty. split; reflexivity.
  - destruct (is_local self) eqn:Hlocal; [discriminate|]. intros [= <-].
    unfold run_sync, run_async, returning,
      SyncReference.to_resource, AsyncReference.to_resource.
    rewrite Hlocal. split; reflexivity.
  - destruct (is_local self) eqn:Hlocal; [discriminate|]. intros [= <-].
    unfold run_sync, run_async, returning,
      SyncReference.execute, AsyncReference.execute.
    rewrite Hlocal. split; reflexivity.
Qed.

End Guards.

Section GuardExamples.
Import Text Url AbstractClient AbstractSearchSet BaseResource Spec Modes Effects.
#[local] Existing Instance Stubs.externals.

Lemma is_valid_verdict_witness :
  let issues := [JObj [("severity", JStr "warning")];
                 JObj [("severity", JStr "error")];
                 JObj [("code", JStr "invalid")]] in
  let m := [("resourceType", JStr "OperationOutcome");
            ("issue", JArr issues)] in
  let w := Sample.world_with Sample.patient
             (Sample.always (mkResponse 200 (Stubs.encode (JObj m)))) in
  let w' := snd (SyncClient._do_request Sample.client "post"
                   "Patient/$validate" (JObj Sample.patient) None false w) in
  SyncResource.is_valid Sample.patient_resource false w = (Ret false, w').
Proof.
  intros issues m w w'.
  assert (Hsev : forall pre issue post,
             issues = (pre ++ issue :: post)%list ->
             existsb is_error_issue pre = false ->
             exists sev, subscript issue "severity" = Ret sev).
  { intros pre issue post Heq Hpre.
    destruct pre as [|a [|b pre]]; cbn in Heq.
    - injection Heq as <- _. eexists. reflexivity.
    - injection Heq as _ <- _. eexists. reflexivity.
    - injection Heq as <- <- _. discriminate Hpre. }
  apply (proj1 (is_valid_verdict (E := Stubs.externals)
                  Sample.patient_resource false w m issues eq_refl Hsev) w').
  reflexivity.
Defined.

Lemma refused_operations_leave_no_trace_witness :
  let op := ReferenceToResource (mkReference Sample.client "Patient" "42" false) in
  let w := Sample.world_with_session Sample.down in
  let e := ResourceNotFound "Can not resolve not local resource" in
  run_sync op w = (Raise e, w) /\ run_async op w = (Raise e, w).
Proof.
  intros op w e.
  apply (refused_operations_leave_no_trace (E := Stubs.externals) op e w).
  reflexivity.
Defined.

End GuardExamples.

Section ContractExamples.
Import Text Url AbstractClient Spec Modes Effects Construction.
#[local] Existing Instance Stubs.externals.

Lemma base_path_not_duplicated_witness :
  _build_request_url Sample.client_with_headers ("fhir/" ++ "Patient/1") None
  = _build_request_url Sample.client_with_headers "Patient/1" None.
Proof.
  apply (base_path_not_duplicated (E := Stubs.externals)
           Sample.client_with_headers "Patient/1" None "/fhir");
    reflexivity.
Defined.

Lemma request_options_forwarded_witness :
  let w := Sample.world_with_session (Sample.always (mkResponse 200 "")) in
  let rq := sync_request Sample.client "get"
              "https://example.com:443/fhir/Patient/42?" JNull
              (requests_config w) in
  rq_config rq !! "session" = None
  /\ (forall key, key <> "session" ->
                  rq_config rq !! key = requests_config w !! key)
  /\ rq_session rq = Some 7%nat.
Proof.
  intros w rq.
  apply (proj2 (request_options_forwarded (E := Stubs.externals)
                  Sample.client "get" "Patient/42" JNull None false w) rq).
  reflexivity.
Defined.

Lemma config_restored_when_transport_answers_witness :
  let w := Sample.world_with_session (Sample.always (mkResponse 404 "gone")) in
  let u := "https://example.com:443/fhir/Patient/42?" in
  SyncClient._do_request Sample.client "get" "Patient/42" JNull None false w
  = (classify false (mkResponse 404 "gone"),
     mkWorld (net w)
       (sent w ++ [sync_request Sample.client "get" u JNull
                     (requests_config w)])%list
       (requests_config w) (container w)).
Proof.
  intros w u.
  apply (config_restored_when_transport_answers (E := Stubs.externals)
           Sample.client "get" "Patient/42" JNull None false w u
           (mkResponse 404 "gone")).
  - reflexivity.
  - right. exists 7%nat. reflexivity.
  - reflexivity.
Defined.

Lemma timeout_always_configured_witness :
  let built := SyncClient__init__ "https://example.com:443/fhir" None None None
                 (JInt 120) in
  let w := mkWorld (Sample.always (mkResponse 200 "")) [] (snd built) [] in
  let w' := snd (SyncClient._do_request (fst built) "get" "Patient/42" JNull
                   None false w) in
  requests_config w' !! "timeout" = Some (CfgValue (JInt 120))
  /\ forall rq, sent w' = (sent w ++ [rq])%list ->
                rq_config rq !! "timeout" = Some (CfgValue (JInt 120)).
Proof.
  intros built w w'.
  apply (proj2 (proj2 (timeout_always_configured (E := Stubs.externals)
                         "https://example.com:443/fhir" None None None
                         (JInt 120) "get" "Patient/42" JNull None false w))).
  reflexivity.
Defined.

Lemma other_operations_keep_fields_witness :
  let w := Sample.world_with Sample.patient
             (Sample.always (mkResponse 204 "")) in
  let op := ResourceDelete Sample.patient_resource in
  container (snd (run_sync op w)) = Sample.patient
  /\ container (snd (run_async op w)) = Sample.patient.
Proof.
  intros w op.
  apply (other_operations_keep_fields (E := Stubs.externals) op w).
  reflexivity.
Defined.
End ContractExamples.

Section ResultShapes.
Context {E : Externals}.
Import Text Url AbstractClient AbstractSearchSet Spec Effects.

(** Both shapes of the classification of one response. *)
Lemma classify_with_status r :
  match classify false r with
  | Ret payload =>
      is_2xx (status_code r)
      /\ classify true r = Ret (payload, status_code r)
  | Raise e => classify true r = Raise e
  | OutOfFuel => classify true r = OutOfFuel
  end.
Proof.
  unfold classify, loads.
  destruct ((200 <=? status_code r) && (status_code r <? 300)) eqn:H2.
  - assert (is_2xx (status_code r)) by (unfold is_2xx; lia).
    destruct (String.eqb (content r) ""); cbn; [auto|].
    destruct (json_loads (content r)); cbn; auto.
  - destruct ((status_code r =? 404) || (status_code r =? 410));
      [reflexivity|].
    destruct (status_code r =? 412); [reflexivity|].
    destruct (json_loads (content r)) as [parsed|]; cbn; [|reflexivity].
    destruct parsed as [| | | | |l|m]; cbn; try reflexivity.
    destruct (Dict.get "resourceType" m) as [v|]; cbn; [|reflexivity].
    destruct (eq_str v "OperationOutcome"); reflexivity.
Qed.

Lemma answer_with_status (o : outcome Response) :
  match o ≫= classify false with
  | Ret payload =>
      exists r, o = Ret r
                /\ is_2xx (status_code r)
                /\ o ≫= classify true = Ret (payload, status_code r)
  | Raise e => o ≫= classify true = Raise e
  | OutOfFuel => o ≫= classify true = OutOfFuel
  end.
Proof.
  destruct o as [r|e|]; cbn [mbind outcome_bind]; try reflexivity.
  pose proof (classify_with_status r) as Hr.
  destruct (classify false r) as [payload|e|]; try exact Hr.
  exists r. destruct Hr as [H2 Hfull]. auto.
Qed.

(** X20: [returning_status] changes nothing but the shape of a
    successful result.  With it the same request is sent and the world
    is left the same; an error is the same error; and a payload comes
    back paired with the status code of the response the transport gave
    to that request, which is a 2xx status. *)
Theorem returning_status_only_adds_status (self : Client)
    (method path : string) (data : json) (params : option dict) (w : World) :
  (snd (SyncClient._do_request self method path data params true w)
   = snd (SyncClient._do_request self method path data params false w)
   /\ match fst (SyncClient._do_request self method path data params false w)
      with
      | Ret payload =>
          exists u r,
            _build_request_url self path params = Ret u
            /\ net w (sent w)
                 (sync_request self method u data (requests_config w)) = Ret r
            /\ is_2xx (status_code r)
            /\ fst (SyncClient._do_request self method path data params true w)
               = Ret (payload, status_code r)
      | Raise e =>
          fst (SyncClient._do_request self method path data params true w)
          = Raise e
      | OutOfFuel =>
          fst (SyncClient._do_request self method path data params true w)
          = OutOfFuel
      end)
  /\ (snd (AsyncClient._do_request self method path data params true w)
      = snd (AsyncClient._do_request self method path data params false w)
      /\ match fst (AsyncClient._do_request self method path data params
                      false w)
         with
         | Ret payload =>
             exists u r,
               _build_request_url self path params = Ret u
               /\ net w (sent w) (async_request self method u data) = Ret r
               /\ is_2xx (status_code r)
               /\ fst (AsyncClient._do_request self method path data params
                         true w)
                  = Ret (payload, status_code r)
         | Raise e =>
             fst (AsyncClient._do_request self method path data params true w)
             = Raise e
         | OutOfFuel =>
             fst (AsyncClient._do_request self method path data params true w)
             = OutOfFuel
         end).
Proof.
  split.
  - destruct (sync_cases self method path data params false w)
      as [(e & Hu & ->)|[(u & v & Hu & Hs & Hv & ->)|(u & Hu & Hok & Hrun)]].
    + rewrite (sync_url_error _ _ _ _ _ true _ e Hu). split; reflexivity.
    + rewrite (sync_bad_session _ _ _ _ _ true _ u v Hu Hs Hv).
      split; reflexivity.
    + cbn zeta in Hrun. rewrite Hrun.
      rewrite (sync_run _ _ _ _ _ true _ u Hok Hu). cbn [fst snd].
      split; [reflexivity|].
      pose proof (answer_with_status
                    (net w (sent w)
                       (sync_request self method u data (requests_config w))))
        as Hanswer.
      destruct (net w (sent w) _ ≫= classify false) as [payload|e|];
        try exact Hanswer.
      destruct Hanswer as (r & Hr & H2 & Hfull). exists u, r. auto.
  - destruct (_build_request_url self path params) as [u|e|] eqn:Hu.
    + rewrite (async_run _ _ _ _ _ true _ u Hu),
        (async_run _ _ _ _ _ false _ u Hu). cbn [fst snd].
      split; [reflexivity|].
      pose proof (answer_with_status
                    (net w (sent w) (async_request self method u data)))
        as Hanswer.
      destruct (net w (sent w) _ ≫= classify false) as [payload|e|];
        try exact Hanswer.
      destruct Hanswer as (r & Hr & H2 & Hfull). exists u, r. auto.
    + rewrite (async_url_error _ _ _ _ _ true _ e Hu),
        (async_url_error _ _ _ _ _ false _ e Hu). split; reflexivity.
    + destruct (build_url_terminates _ _ _ Hu).
Qed.

Lemma page_chain_first t client target pages :
  page_chain t client target pages ->
  exists bundle items rest,
    pages = items :: rest
    /\ serves_page t client target bundle
    /\ _get_bundle_resources bundle = Ret items.
Proof.
  intros [target' bundle items Hserve Hitems _
         |target' bundle items next rest Hserve Hitems _ _ _];
    exists bundle, items; eauto.
Qed.

(** X21: [fetch] does not follow pagination.  On a server that holds a
    chain of pages it returns the resources of the first page only and
    makes one request, where the drained iteration returns all of
    them. *)
Theorem fetch_returns_first_page_only (self : SearchSet) (w : World)
    (pages : list (list json)) :
  session_ok (requests_config w) ->
  page_chain (net w) (ss_client self)
    (ss_resource_type self, Some (ss_params self)) pages ->
  (fst (SyncSearchSet.fetch self w) = Ret (hd [] pages)
   /\ List.length (sent (snd (SyncSearchSet.fetch self w)))
      = S (List.length (sent w)))
  /\ (fst (AsyncSearchSet.fetch self w) = Ret (hd [] pages)
      /\ List.length (sent (snd (AsyncSearchSet.fetch self w)))
         = S (List.length (sent w))).
Proof.
  intros Hok Hchain.
  destruct (page_chain_first _ _ _ _ Hchain)
    as (bundle & items & rest & -> & Hserve & Hitems).
  cbn [hd]. split.
  - destruct (sync_fetch_items self w bundle items Hok Hserve Hitems)
      as (w' & -> & _ & _ & _ & Hlen).
    cbn [fst snd]. split; [reflexivity|]. rewrite Hlen. lia.
  - destruct (async_fetch_items self w bundle items Hok Hserve Hitems)
      as (w' & -> & _ & _ & _ & Hlen).
    cbn [fst snd]. split; [reflexivity|]. rewrite Hlen. lia.
Qed.
End ResultShapes.

Section ResultShapeExamples.
Import Text Url AbstractClient AbstractSearchSet Spec Effects.
#[local] Existing Instance Stubs.externals.

(** A created resource: the payload comes back with the 201 of the
    response. *)
Example created_status_is_returned :
  let w := Sample.world
             (Sample.always
                (mkResponse 201 (Stubs.encode (Sample.named "a")))) in
  fst (SyncClient._do_request Sample.client "post" "Patient" JNull None true w)
  = Ret (Sample.named "a", 201)
  /\ fst (AsyncClient._do_request Sample.client "post" "Patient" JNull None
            true w)
     = Ret (Sample.named "a", 201).
Proof. split; reflexivity. Qed.

Lemma fetch_returns_first_page_only_witness :
  let w := Sample.world Sample.paged_server in
  (fst (SyncSearchSet.fetch Sample.patients w)
   = Ret [Sample.named "a"; Sample.named "b"]
   /\ List.length (sent (snd (SyncSearchSet.fetch Sample.patients w))) = 1%nat)
  /\ (fst (AsyncSearchSet.fetch Sample.patients w)
      = Ret [Sample.named "a"; Sample.named "b"]
      /\ List.length (sent (snd (AsyncSearchSet.fetch Sample.patients w)))
         = 1%nat).
Proof.
  intros w.
  apply (fetch_returns_first_page_only (E := Stubs.externals)
           Sample.patients w
           [[Sample.named "a"; Sample.named "b"];
            [Sample.named "c"; Sample.named "d"];
            [Sample.named "e"]]).
  - exact I.
  - exact sample_page_chain.
Defined.
End ResultShapeExamples.
